(** * Outbound-URL safeguards, archive extraction and the rate limiter

    A shallow embedding of the safeguards of the repository:

    - [scripts/download_epstein_files.py]: [is_allowed_download_url],
      [download_file], [extract_pdfs];
    - [scripts/upload_to_blob.py]: [is_allowed_upload_url], [upload_file];
    - the fixed-window rate limiter of the web backend.

    Python library calls the scripts rely on ([urllib.parse.urlparse],
    [socket.getaddrinfo], [urllib.request.urlopen]) are inputs of the model:
    a function returns a value or raises, and the embedded code catches
    exactly the exception classes the source catches.  So are the
    refusals of the operating system when a script looks up, opens or
    writes a file.  Console output ([print]) is not modelled. *)

From Stdlib Require Import ZArith Lia Bool Ascii String.
From stdpp Require Import gmap strings list pretty.

Local Open Scope string_scope.
Local Open Scope Z_scope.

(** ** Python runtime: exceptions and results *)

Module Py.

(** The exception classes that occur in the scripts, with the part of
    Python's class hierarchy that relates them. *)
Inductive exn : Type :=
  | Exception
  | ValueError
  | UnicodeError
  | UnicodeDecodeError
  | OSError
  | gaierror
  | URLError
  | HTTPError
  | BadZipFile
  | HTTPException
  | IncompleteRead.

(** Direct base class ([Exception] is the top of the fragment). *)
Definition base (e : exn) : option exn :=
  match e with
  | Exception => None
  | ValueError => Some Exception
  | UnicodeError => Some ValueError
  | UnicodeDecodeError => Some UnicodeError
  | OSError => Some Exception
  | gaierror => Some OSError
  | URLError => Some OSError
  | HTTPError => Some URLError
  | BadZipFile => Some Exception
  | HTTPException => Some Exception
  | IncompleteRead => Some HTTPException
  end.

Definition exn_eqb (a b : exn) : bool :=
  match a, b with
  | Exception, Exception | ValueError, ValueError
  | UnicodeError, UnicodeError | UnicodeDecodeError, UnicodeDecodeError
  | OSError, OSError
  | gaierror, gaierror | URLError, URLError
  | HTTPError, HTTPError | BadZipFile, BadZipFile
  | HTTPException, HTTPException | IncompleteRead, IncompleteRead => true
  | _, _ => false
  end.

(** [issubclass e c]: an [except c] clause catches [e]. The hierarchy has
    depth three, so three steps up are enough. *)
Definition issubclass (e c : exn) : bool :=
  let up (o : option exn) := match o with Some x => base x | None => None end in
  let hit (o : option exn) := match o with Some x => exn_eqb x c | None => false end in
  hit (Some e) || hit (base e) || hit (up (base e)) || hit (up (up (base e))).

(** Outcome of evaluating a Python expression. *)
Inductive result (A : Type) : Type :=
  | Return (a : A)
  | Raise (e : exn).
Arguments Return {A} a.
Arguments Raise {A} e.

(** Strings are byte strings. [str.lower] on the ASCII range; other
    bytes are left as they are. *)
Definition lower_ascii (c : ascii) : ascii :=
  let n := nat_of_ascii c in
  if ((65 <=? n)%nat && (n <=? 90)%nat)%bool then ascii_of_nat (n + 32) else c.

Fixpoint lower (s : string) : string :=
  match s with
  | EmptyString => EmptyString
  | String c s' => String (lower_ascii c) (lower s')
  end.

(** [s.endswith(suf)] *)
Fixpoint endswith (s suf : string) : bool :=
  String.eqb s suf ||
  match s with
  | EmptyString => false
  | String _ s' => endswith s' suf
  end.

End Py.

Import Py.

(** ** Python's [ipaddress] module: address classification

    The address properties the validators test, as the [ipaddress]
    module of CPython defines them in its current releases (3.13, and
    the 3.11 and 3.12 maintenance releases): the network tables of
    [_IPv4Constants] and [_IPv6Constants], and for an IPv6 address that
    maps an IPv4 address ([::ffff:a.b.c.d]) every property is the one of
    the mapped IPv4 address. *)

Module ipaddress.

(** [ipaddress.ip_address(...)]: the integer [_ip] of an [IPv4Address]
    (32 bits) or of an [IPv6Address] (128 bits). *)
Inductive ip_address : Type :=
  | IPv4Address (ip : Z)
  | IPv6Address (ip : Z).

Definition version (a : ip_address) : Z :=
  match a with IPv4Address _ => 4 | IPv6Address _ => 6 end.

Definition _ip (a : ip_address) : Z :=
  match a with IPv4Address ip => ip | IPv6Address ip => ip end.

Definition max_prefixlen (v : Z) : Z := if v =? 4 then 32 else 128.

Definition ALL_ONES (v : Z) : Z := 2 ^ max_prefixlen v - 1.

(** An [IPv4Network] or [IPv6Network]. *)
Record network : Type := Network {
  net_version : Z;
  network_address : Z;
  prefixlen : Z
}.

(** [_ip_int_from_prefix]: [ALL_ONES ^ (ALL_ONES >> prefixlen)]. *)
Definition netmask (n : network) : Z :=
  Z.lxor (ALL_ONES (net_version n))
         (Z.shiftr (ALL_ONES (net_version n)) (prefixlen n)).

(** [_BaseNetwork.__contains__] at an address. *)
Definition contains (n : network) (a : ip_address) : bool :=
  if negb (net_version n =? version a) then false
  else Z.land (_ip a) (netmask n) =? network_address n.

(** Dotted quad and colon-hex notation of network addresses. *)
Definition quad (a b c d : Z) : Z :=
  Z.lor (Z.shiftl a 24) (Z.lor (Z.shiftl b 16) (Z.lor (Z.shiftl c 8) d)).

Definition hextets (h : list Z) : Z :=
  fold_left (fun acc x => Z.lor (Z.shiftl acc 16) x) h 0.

Definition IPv4Network (a b c d p : Z) : network := Network 4 (quad a b c d) p.
Definition IPv6Network (h : list Z) (p : Z) : network := Network 6 (hextets h) p.

Module v4.
Definition _linklocal_network := IPv4Network 169 254 0 0 16.
Definition _loopback_network := IPv4Network 127 0 0 0 8.
Definition _multicast_network := IPv4Network 224 0 0 0 4.
Definition _public_network := IPv4Network 100 64 0 0 10.
Definition _private_networks : list network :=
  [ IPv4Network 0 0 0 0 8;
    IPv4Network 10 0 0 0 8;
    IPv4Network 127 0 0 0 8;
    IPv4Network 169 254 0 0 16;
    IPv4Network 172 16 0 0 12;
    IPv4Network 192 0 0 0 24;
    IPv4Network 192 0 0 170 31;
    IPv4Network 192 0 2 0 24;
    IPv4Network 192 168 0 0 16;
    IPv4Network 198 18 0 0 15;
    IPv4Network 198 51 100 0 24;
    IPv4Network 203 0 113 0 24;
    IPv4Network 240 0 0 0 4;
    IPv4Network 255 255 255 255 32 ].
Definition _private_networks_exceptions : list network :=
  [ IPv4Network 192 0 0 9 32;
    IPv4Network 192 0 0 10 32 ].
Definition _reserved_network := IPv4Network 240 0 0 0 4.
Definition _unspecified_address : Z := quad 0 0 0 0.
End v4.

Module v6.
Definition _linklocal_network := IPv6Network [0xfe80;0;0;0;0;0;0;0] 10.
Definition _multicast_network := IPv6Network [0xff00;0;0;0;0;0;0;0] 8.
Definition _private_networks : list network :=
  [ IPv6Network [0;0;0;0;0;0;0;1] 128;
    IPv6Network [0;0;0;0;0;0;0;0] 128;
    IPv6Network [0;0;0;0;0;0xffff;0;0] 96;
    IPv6Network [0x64;0xff9b;1;0;0;0;0;0] 48;
    IPv6Network [0x100;0;0;0;0;0;0;0] 64;
    IPv6Network [0x2001;0;0;0;0;0;0;0] 23;
    IPv6Network [0x2001;0xdb8;0;0;0;0;0;0] 32;
    IPv6Network [0x2002;0;0;0;0;0;0;0] 16;
    IPv6Network [0x3fff;0;0;0;0;0;0;0] 20;
    IPv6Network [0xfc00;0;0;0;0;0;0;0] 7;
    IPv6Network [0xfe80;0;0;0;0;0;0;0] 10 ].
Definition _private_networks_exceptions : list network :=
  [ IPv6Network [0x2001;1;0;0;0;0;0;1] 128;
    IPv6Network [0x2001;1;0;0;0;0;0;2] 128;
    IPv6Network [0x2001;3;0;0;0;0;0;0] 32;
    IPv6Network [0x2001;4;0x112;0;0;0;0;0] 48;
    IPv6Network [0x2001;0x20;0;0;0;0;0;0] 28;
    IPv6Network [0x2001;0x30;0;0;0;0;0;0] 28 ].
Definition _reserved_networks : list network :=
  [ IPv6Network [0;0;0;0;0;0;0;0] 8;
    IPv6Network [0x100;0;0;0;0;0;0;0] 8;
    IPv6Network [0x200;0;0;0;0;0;0;0] 7;
    IPv6Network [0x400;0;0;0;0;0;0;0] 6;
    IPv6Network [0x800;0;0;0;0;0;0;0] 5;
    IPv6Network [0x1000;0;0;0;0;0;0;0] 4;
    IPv6Network [0x4000;0;0;0;0;0;0;0] 3;
    IPv6Network [0x6000;0;0;0;0;0;0;0] 3;
    IPv6Network [0x8000;0;0;0;0;0;0;0] 3;
    IPv6Network [0xA000;0;0;0;0;0;0;0] 3;
    IPv6Network [0xC000;0;0;0;0;0;0;0] 3;
    IPv6Network [0xE000;0;0;0;0;0;0;0] 4;
    IPv6Network [0xF000;0;0;0;0;0;0;0] 5;
    IPv6Network [0xF800;0;0;0;0;0;0;0] 6;
    IPv6Network [0xFE00;0;0;0;0;0;0;0] 9 ].
End v6.

(** [IPv6Address.ipv4_mapped] *)
Definition ipv4_mapped (ip : Z) : option ip_address :=
  if negb (Z.shiftr ip 32 =? 0xFFFF) then None
  else Some (IPv4Address (Z.land ip 0xFFFFFFFF)).

Definition any_contains (nets : list network) (a : ip_address) : bool :=
  existsb (fun net => contains net a) nets.

Definition all_not_contains (nets : list network) (a : ip_address) : bool :=
  forallb (fun net => negb (contains net a)) nets.

Definition is_private_v4 (ip : Z) : bool :=
  any_contains v4._private_networks (IPv4Address ip)
  && all_not_contains v4._private_networks_exceptions (IPv4Address ip).

Definition is_private (a : ip_address) : bool :=
  match a with
  | IPv4Address ip => is_private_v4 ip
  | IPv6Address ip =>
      match ipv4_mapped ip with
      | Some (IPv4Address m) => is_private_v4 m
      | Some (IPv6Address _) | None =>
          any_contains v6._private_networks a
          && all_not_contains v6._private_networks_exceptions a
      end
  end.

Definition is_global (a : ip_address) : bool :=
  match a with
  | IPv4Address _ => negb (contains v4._public_network a) && negb (is_private a)
  | IPv6Address ip =>
      match ipv4_mapped ip with
      | Some m => negb (contains v4._public_network m) && negb (is_private m)
      | None => negb (is_private a)
      end
  end.

Definition is_loopback (a : ip_address) : bool :=
  match a with
  | IPv4Address _ => contains v4._loopback_network a
  | IPv6Address ip =>
      match ipv4_mapped ip with
      | Some m => contains v4._loopback_network m
      | None => ip =? 1
      end
  end.

Definition is_link_local (a : ip_address) : bool :=
  match a with
  | IPv4Address _ => contains v4._linklocal_network a
  | IPv6Address ip =>
      match ipv4_mapped ip with
      | Some m => contains v4._linklocal_network m
      | None => contains v6._linklocal_network a
      end
  end.

Definition is_multicast (a : ip_address) : bool :=
  match a with
  | IPv4Address _ => contains v4._multicast_network a
  | IPv6Address ip =>
      match ipv4_mapped ip with
      | Some m => contains v4._multicast_network m
      | None => contains v6._multicast_network a
      end
  end.

Definition is_reserved (a : ip_address) : bool :=
  match a with
  | IPv4Address _ => contains v4._reserved_network a
  | IPv6Address ip =>
      match ipv4_mapped ip with
      | Some m => contains v4._reserved_network m
      | None => any_contains v6._reserved_networks a
      end
  end.

Definition is_unspecified (a : ip_address) : bool :=
  match a with
  | IPv4Address ip => ip =? v4._unspecified_address
  | IPv6Address ip =>
      match ipv4_mapped ip with
      | Some m => _ip m =? v4._unspecified_address
      | None => ip =? 0
      end
  end.

(** The address whose properties decide: the mapped IPv4 address of an
    IPv6 address that has one, the address itself otherwise. *)
Definition deciding (a : ip_address) : ip_address :=
  match a with
  | IPv4Address _ => a
  | IPv6Address ip => default a (ipv4_mapped ip)
  end.

End ipaddress.

Import ipaddress.

(** ** The platform: library calls whose results the scripts consume *)

(** What the validators read of [urllib.parse.urlparse(url)]. *)
Record ParseResult : Type := {
  scheme : string;
  hostname : option string
}.

Definition bytes : Type := list Byte.byte.

(** [urllib.request.Request(url, data=..., headers=..., method=...)];
    [data] and [method] are [None] when they are not given. *)
Record Request : Type := {
  req_url : string;
  req_data : option bytes;
  req_headers : list (string * string);
  req_method : option string
}.

(** What the scripts read of the response object of [urlopen]:
    - [status];
    - [content_length]: outcome of [int(resp.headers.get("Content-Length", 0))];
    - [chunks]: outcome of each successive [resp.read(chunk_size)]
      (after the last one, [read] returns the empty byte string);
    - [json_url]: outcome of
      [json.loads(resp.read().decode()).get("url", default)], the default
      being the empty string. *)
Record Response : Type := {
  status : Z;
  content_length : result Z;
  chunks : list (result bytes);
  json_url : result string
}.

(** A zip archive: its entries in archive order, each a member name and
    the outcome of reading the member. *)
Definition ZipFile : Type := list (string * result bytes).

(** A [pathlib.PurePosixPath]: its root (empty, ["/"] or ["//"]) and its
    components. *)
Definition Path : Type := (string * list string)%type.

Inductive open_mode : Type := ab | wb.

(** The file operations that the operating system can refuse:
    [p.exists()], [open(p, mode)], [f.write(chunk)] and [f.close()] on
    the file opened at [p], and [p.write_bytes(data)]. *)
Inductive file_op : Type :=
  | op_exists (p : Path)
  | op_open (p : Path) (mode : open_mode)
  | op_write (p : Path) (chunk : bytes)
  | op_close (p : Path)
  | op_write_bytes (p : Path) (data : bytes).

Record Platform : Type := {
  urlparse : string -> result ParseResult;
  (** [socket.getaddrinfo(host, None)]: each returned 5-tuple is given by
      [ipaddress.ip_address(sockaddr[0])]. *)
  getaddrinfo : string -> result (list ip_address);
  (** [urllib.request.urlopen(req, timeout=...)] *)
  urlopen : Request -> Z -> result Response;
  (** [zipfile.ZipFile(zip_path, "r")] *)
  zipfile_ZipFile : Path -> result ZipFile;
  (** The environment variable [BLOB_READ_WRITE_TOKEN]. *)
  BLOB_TOKEN : string;
  (** The exception a file operation raises, if it raises, when the
      files are [files]: the operating system refuses it for a missing
      directory, a name that is too long, a permission that is not
      there. A refused operation changes no file. *)
  os_error : gmap Path bytes -> file_op -> option exn;
  (** The URLs that [urlopen], handed a request, goes on to request when
      the responses redirect it ([HTTPRedirectHandler]), in order; empty
      when the first response is not a redirect. *)
  redirects : Request -> list string;
  (** Outcome of [e.read().decode()] on the [HTTPError] that [urlopen]
      raised for a request. *)
  http_error_body : Request -> result string
}.

(** ** The outbound URL validators *)

(** The six-way test of the loop body. *)
Definition disallowed (ip : ip_address) : bool :=
  is_private ip
  || is_loopback ip
  || is_link_local ip
  || is_multicast ip
  || is_reserved ip
  || is_unspecified ip.

(** [for _, _, _, _, sockaddr in addr_info: ... return False] followed by
    [return True]. *)
Fixpoint addr_info_loop (addr_info : list ip_address) : bool :=
  match addr_info with
  | [] => true
  | ip :: rest => if disallowed ip then false else addr_info_loop rest
  end.

(** Python truth value of [parsed.hostname] ([None] and the empty string
    are falsy). *)
Definition truthy (h : option string) : bool :=
  match h with
  | None => false
  | Some s => negb (String.eqb s EmptyString)
  end.

Definition ALLOWED_DOWNLOAD_HOSTS : gset string :=
  {[ "archive.org"; "copyparty.vvv.systems"; "www.justice.gov" ]}.

Definition ALLOWED_UPLOAD_HOSTS : gset string :=
  {[ "blob.vercel-storage.com" ]}.

Definition is_allowed_download_url (pf : Platform) (url : string) : result bool :=
  match urlparse pf url with
  | Raise e => if issubclass e ValueError then Return false else Raise e
  | Return parsed =>
      if negb (String.eqb (scheme parsed) "https") || negb (truthy (hostname parsed))
      then Return false
      else
        let hostname := lower (default EmptyString (hostname parsed)) in
        if negb (bool_decide (hostname ∈ ALLOWED_DOWNLOAD_HOSTS)) then Return false
        else
          match getaddrinfo pf hostname with
          | Raise e => if issubclass e gaierror then Return false else Raise e
          | Return addr_info => Return (addr_info_loop addr_info)
          end
  end.

Definition is_allowed_upload_url (pf : Platform) (url : string) : result bool :=
  match urlparse pf url with
  | Raise e => if issubclass e ValueError then Return false else Raise e
  | Return parsed =>
      if negb (String.eqb (scheme parsed) "https") || negb (truthy (hostname parsed))
      then Return false
      else
        let hostname := lower (default EmptyString (hostname parsed)) in
        if negb (bool_decide (hostname ∈ ALLOWED_UPLOAD_HOSTS)) then Return false
        else
          match getaddrinfo pf hostname with
          | Raise e => if issubclass e gaierror then Return false else Raise e
          | Return addr_info => Return (addr_info_loop addr_info)
          end
  end.

(** The two validators differ in the host set only; [outbound_validator]
    is their common shape. *)
Definition outbound_validator (allowed_hosts : gset string)
    (pf : Platform) (url : string) : result bool :=
  match urlparse pf url with
  | Raise e => if issubclass e ValueError then Return false else Raise e
  | Return parsed =>
      if negb (String.eqb (scheme parsed) "https") || negb (truthy (hostname parsed))
      then Return false
      else
        let hostname := lower (default EmptyString (hostname parsed)) in
        if negb (bool_decide (hostname ∈ allowed_hosts)) then Return false
        else
          match getaddrinfo pf hostname with
          | Raise e => if issubclass e gaierror then Return false else Raise e
          | Return addr_info => Return (addr_info_loop addr_info)
          end
  end.

(** ** Paths ([pathlib], POSIX flavour) *)

Module pathlib.

(** [s.split("/")] *)
Fixpoint split_sep (s : string) : list string :=
  match s with
  | EmptyString => [EmptyString]
  | String c s' =>
      if Ascii.eqb c "/"
      then EmptyString :: split_sep s'
      else match split_sep s' with
           | [] => [String c EmptyString]
           | h :: t => String c h :: t
           end
  end.

(** [splitroot]: two leading slashes, and only two, are kept as root. *)
Definition splitroot (s : string) : string :=
  match s with
  | String "/" (String "/" (String "/" _)) => "/"
  | String "/" (String "/" _) => "//"
  | String "/" _ => "/"
  | _ => EmptyString
  end.

Definition is_part (x : string) : bool :=
  negb (String.eqb x EmptyString) && negb (String.eqb x ".").

(** [Path(s)]: empty and ["."] components are dropped. *)
Definition PurePath (s : string) : Path :=
  (splitroot s, filter (fun x => is_part x = true) (split_sep s)).

(** [p.name]: the final component, the empty string when there is none. *)
Definition name (p : Path) : string := List.last (snd p) EmptyString.

(** [p / s] ([join_parsed_parts]): an anchored right operand replaces
    the left one. *)
Definition joinpath (p : Path) (s : string) : Path :=
  let q := PurePath s in
  if negb (String.eqb (fst q) EmptyString) then q else (fst p, (snd p ++ snd q)%list).

End pathlib.

(** ** File system and network: the state the scripts act on *)

(** [fs]: the regular files, by path. [net]: the requests handed to
    [urlopen] so far, oldest first, each with its timeout. *)
Record World : Type := {
  fs : gmap Path bytes;
  net : list (Request * Z)
}.

Definition M (A : Type) : Type := World -> result A * World.

#[global] Instance M_ret : MRet M := fun A a w => (Return a, w).

#[global] Instance M_bind : MBind M := fun A B k m w =>
  match m w with
  | (Return a, w') => k a w'
  | (Raise e, w') => (Raise e, w')
  end.

Definition lift {A} (r : result A) : M A := fun w => (r, w).

(** [try: m] with its [except] clauses in order: the first clause whose
    class matches handles the exception. *)
Fixpoint handle {A} (e : exn) (clauses : list (exn * M A)) : M A :=
  match clauses with
  | [] => lift (Raise e)
  | (c, h) :: rest => if issubclass e c then h else handle e rest
  end.

Definition try_ {A} (m : M A) (clauses : list (exn * M A)) : M A := fun w =>
  match m w with
  | (Return a, w') => (Return a, w')
  | (Raise e, w') => handle e clauses w'
  end.

Definition len (b : bytes) : Z := Z.of_nat (length b).

(** [p.exists()] for a path whose lookup succeeds. *)
Definition path_exists (p : Path) : M bool := fun w =>
  (Return (bool_decide (is_Some (fs w !! p))), w).

(** [p.exists()]: [Path.exists] answers [False] for a missing file and
    raises the other errors of the lookup again, e.g. the one for a name
    that is too long. *)
Definition exists_or_raise (pf : Platform) (p : Path) : M bool := fun w =>
  match os_error pf (fs w) (op_exists p) with
  | Some e => (Raise e, w)
  | None => (Return (bool_decide (is_Some (fs w !! p))), w)
  end.

(** [p.stat().st_size if p.exists() else 0] *)
Definition size_if_exists (p : Path) : M Z := fun w =>
  (Return (match fs w !! p with Some d => len d | None => 0 end), w).

(** [open(p, "rb").read()]; a missing file raises [FileNotFoundError],
    an [OSError]. *)
Definition read_file (p : Path) : M bytes := fun w =>
  match fs w !! p with
  | Some d => (Return d, w)
  | None => (Raise OSError, w)
  end.

(** [p.write_bytes(data)]: the file is opened and gets [data]; when the
    operating system refuses, the call raises and the file is not
    there. *)
Definition write_bytes (pf : Platform) (p : Path) (data : bytes) : M unit := fun w =>
  match os_error pf (fs w) (op_write_bytes p data) with
  | Some e => (Raise e, w)
  | None => (Return tt, {| fs := <[p := data]> (fs w); net := net w |})
  end.

(** [open(p, mode)]: ["wb"] truncates, ["ab"] creates the file if it is
    missing; when the operating system refuses, the call raises and
    nothing changes. *)
Definition open_ (pf : Platform) (p : Path) (mode : open_mode) : M unit := fun w =>
  match os_error pf (fs w) (op_open p mode) with
  | Some e => (Raise e, w)
  | None =>
      match mode with
      | wb => (Return tt, {| fs := <[p := []]> (fs w); net := net w |})
      | ab => (Return tt, {| fs := <[p := default [] (fs w !! p)]> (fs w); net := net w |})
      end
  end.

(** [f.write(chunk)] on a file opened by [open_]; a write that the
    operating system refuses raises and adds nothing. *)
Definition f_write (pf : Platform) (p : Path) (chunk : bytes) : M unit := fun w =>
  match os_error pf (fs w) (op_write p chunk) with
  | Some e => (Raise e, w)
  | None =>
      (Return tt,
       {| fs := <[p := (default [] (fs w !! p) ++ chunk)%list]> (fs w); net := net w |})
  end.

(** [f.close()] on a file opened by [open_], which the [with] statement
    calls when its block ends. *)
Definition f_close (pf : Platform) (p : Path) : M unit := fun w =>
  match os_error pf (fs w) (op_close p) with
  | Some e => (Raise e, w)
  | None => (Return tt, w)
  end.

(** The block of a [with] statement and its exit: [exit] runs however
    [body] ends, and an exception of [exit] takes the place of the
    outcome of [body]. *)
Definition finally_ {A} (body : M A) (exit : M unit) : M A := fun w =>
  match body w with
  | (r, w1) =>
      match exit w1 with
      | (Return _, w2) => (r, w2)
      | (Raise e, w2) => (Raise e, w2)
      end
  end.

(** [urllib.request.urlopen(req, timeout=t)]: the request goes out. *)
Definition do_urlopen (pf : Platform) (req : Request) (t : Z) : M Response := fun w =>
  (urlopen pf req t, {| fs := fs w; net := (net w ++ [(req, t)])%list |}).

(** [Request.get_method()] *)
Definition get_method (req : Request) : string :=
  match req_method req with
  | Some m => m
  | None => match req_data req with Some _ => "POST" | None => "GET" end
  end.

(** [HTTPRedirectHandler.redirect_request] follows a redirect of a
    [GET], a [HEAD] or a [POST]; for any other method it raises the
    [HTTPError] of the redirect response. *)
Definition follows_redirects (req : Request) : bool :=
  String.eqb (get_method req) "GET" || String.eqb (get_method req) "HEAD"
  || String.eqb (get_method req) "POST".

(** The URLs requested over the network for one call of [urlopen]: the
    one of the request, then the redirect targets. *)
Definition requested_urls (pf : Platform) (req : Request) : list string :=
  req_url req :: (if follows_redirects req then redirects pf req else []).

(** The URLs requested over the network for the calls of [urlopen]
    recorded in [calls]. *)
Definition connections (pf : Platform) (calls : list (Request * Z)) : list string :=
  concat (map (fun c => requested_urls pf (fst c)) calls).

(** A computation that issues no request. *)
Definition quiet {A} (m : M A) : Prop := forall w, net (snd (m w)) = net w.

(** ** [download_file] *)

Definition USER_AGENT : string :=
  "Mozilla/5.0 (Macintosh; Intel Mac OS X 10_15_7) AppleWebKit/537.36".

(** [while True: chunk = resp.read(chunk_size) ...] *)
Fixpoint read_loop (pf : Platform) (dest : Path) (cs : list (result bytes))
    (downloaded : Z) : M Z :=
  match cs with
  | [] => mret downloaded
  | c :: rest =>
      chunk ← lift c;
      match chunk with
      | [] => mret downloaded
      | _ => f_write pf dest chunk;; read_loop pf dest rest (downloaded + len chunk)
      end
  end.

Definition download_file (pf : Platform) (url : string) (dest : Path)
    (expected_size_mb : Z) : M bool :=
  allowed ← lift (is_allowed_download_url pf url);
  if negb allowed then mret false
  else
    existing_size ← size_if_exists dest;
    let headers :=
      ("User-Agent", USER_AGENT) ::
      (if 0 <? existing_size
       then [("Range", "bytes=" +:+ pretty existing_size +:+ "-")]
       else []) in
    let req := {| req_url := url; req_data := None;
                  req_headers := headers; req_method := None |} in
    try_
      (resp ← do_urlopen pf req 300;
       let existing_size :=
         if (0 <? existing_size) && negb (status resp =? 206) then 0
         else existing_size in
       total_size ← lift (content_length resp);
       let total_size :=
         if status resp =? 206 then total_size + existing_size else total_size in
       let mode :=
         if (0 <? existing_size) && (status resp =? 206) then ab else wb in
       open_ pf dest mode;;
       downloaded ← finally_ (read_loop pf dest (chunks resp) existing_size)
                             (f_close pf dest);
       mret true)
      [ (HTTPError, mret false); (URLError, mret false); (OSError, mret false) ].

(** ** [upload_file] *)

Record UploadResult : Type := {
  up_filename : string;
  up_url : string;
  up_size : Z
}.

Definition upload_file (pf : Platform) (pdf_path : Path) : M (option UploadResult) :=
  let filename := pathlib.name pdf_path in
  data ← read_file pdf_path;
  let url := "https://blob.vercel-storage.com/" +:+ filename in
  allowed ← lift (is_allowed_upload_url pf url);
  if negb allowed then mret None
  else
    let req := {| req_url := url; req_data := Some data;
                  req_headers :=
                    [ ("Authorization", "Bearer " +:+ BLOB_TOKEN pf);
                      ("Content-Type", "application/pdf");
                      ("x-api-version", "7") ];
                  req_method := Some "PUT" |} in
    try_
      (resp ← do_urlopen pf req 120;
       u ← lift (json_url resp);
       mret (Some {| up_filename := filename; up_url := u; up_size := len data |}))
      [ (HTTPError,
         try_ (error_body ← lift (http_error_body pf req); mret tt)
              [ (UnicodeDecodeError, mret tt); (OSError, mret tt) ];;
         mret None);
        (URLError, mret None);
        (OSError, mret None) ].

(** The URL [upload_file] builds for a file. *)
Definition upload_url (pdf_path : Path) : string :=
  "https://blob.vercel-storage.com/" +:+ pathlib.name pdf_path.

(** ** [extract_pdfs] *)

(** [zf.namelist()] *)
Definition namelist (zf : ZipFile) : list string := map fst zf.

(** [zf.open(member).read()]: the archive's name table keeps the last
    entry of a name; an unknown name raises [KeyError]. *)
Fixpoint zf_read (zf : ZipFile) (member : string) : result bytes :=
  match zf with
  | [] => Raise Exception
  | (n, r) :: rest =>
      if String.eqb n member && negb (existsb (String.eqb member) (namelist rest))
      then r
      else zf_read rest member
  end.

(** The body of [for member in zf.namelist()]. *)
Fixpoint extract_loop (pf : Platform) (zf : ZipFile) (dest_dir : Path)
    (members : list string) (count : Z) : M Z :=
  match members with
  | [] => mret count
  | member :: rest =>
      if endswith (lower member) ".pdf" then
        let filename := pathlib.name (pathlib.PurePath member) in
        if String.eqb filename EmptyString then extract_loop pf zf dest_dir rest count
        else
          let dest_filename := filename in
          let dest_path := pathlib.joinpath dest_dir dest_filename in
          present ← exists_or_raise pf dest_path;
          if (present : bool) then extract_loop pf zf dest_dir rest count
          else
            count' ← try_
              (data ← lift (zf_read zf member);
               write_bytes pf dest_path data;;
               mret (count + 1))
              [ (Exception, mret count) ];
            extract_loop pf zf dest_dir rest count'
      else extract_loop pf zf dest_dir rest count
  end.

Definition extract_pdfs (pf : Platform) (zip_path dest_dir : Path)
    (dataset_num : Z) : M Z :=
  zf ← lift (zipfile_ZipFile pf zip_path);
  extract_loop pf zf dest_dir (namelist zf) 0.

(** [has_sep s]: ["/" in s]. *)
Fixpoint has_sep (s : string) : bool :=
  match s with
  | EmptyString => false
  | String c s' => Ascii.eqb c "/" || has_sep s'
  end.

(** [p] is an entry of the directory [d] itself: [d] followed by one
    component that is a file name (no separator, not empty, not ["."],
    not [".."]). *)
Definition direct_child (d p : Path) : Prop :=
  exists n, p = (fst d, (snd d ++ [n])%list) /\
    has_sep n = false /\ n <> EmptyString /\ n <> "." /\ n <> "..".

(** The validators of the repository, each with its host set. *)
Inductive validator : gset string -> (Platform -> string -> result bool) -> Prop :=
  | validator_download : validator ALLOWED_DOWNLOAD_HOSTS is_allowed_download_url
  | validator_upload : validator ALLOWED_UPLOAD_HOSTS is_allowed_upload_url.

(** An address is flagged when one of the six properties the loop tests
    holds of it. *)
Definition flagged (ip : ip_address) : Prop :=
  is_private ip = true \/ is_loopback ip = true \/ is_link_local ip = true \/
  is_multicast ip = true \/ is_reserved ip = true \/ is_unspecified ip = true.

(** ** The rate limiter *)

Module RateLimiter.

(** Modelled from the spec: the rate limiter lives in the web backend's
    [views] module, which is not among the sources; only its tests are.
    The result of a call is [Allowed] or [RateLimited]. *)
Inductive Decision : Type := Allowed | RateLimited.

(** Modelled from the spec: the rate counter record, "a mapping from
    (identity key) to (count, window-start timestamp)". *)
Record counter : Type := {
  count : Z;
  window_start : Z
}.

(** Modelled from the spec: [check_and_increment(key, window_seconds,
    max_requests)] of the missing [views] module, at time [now] over the
    shared counter store. The entry is created on the first request,
    reset to a fresh window with a count of one once the window has
    elapsed, incremented while under the limit, and left unchanged by a
    rejected request. *)
Definition check_and_increment (key : string) (window_seconds max_requests : Z)
    (now : Z) (store : gmap string counter) : Decision * gmap string counter :=
  match store !! key with
  | None => (Allowed, <[key := {| count := 1; window_start := now |}]> store)
  | Some c =>
      if window_seconds <=? now - window_start c
      then (Allowed, <[key := {| count := 1; window_start := now |}]> store)
      else if count c <? max_requests
      then (Allowed, <[key := {| count := count c + 1; window_start := window_start c |}]> store)
      else (RateLimited, store)
  end.

(** Modelled from the spec: the per-key state machine of section 4.2,
    [NoEntry -> Active(count, window_start)], as a step relation. The
    limiter code it describes is not among the sources. *)
Inductive state : Type :=
  | NoEntry
  | Active (count : Z) (window_start : Z).

Inductive step (window_seconds max_requests now : Z) : state -> Decision -> state -> Prop :=
  | step_create :
      step window_seconds max_requests now NoEntry Allowed (Active 1 now)
  | step_reset c ws :
      now - ws >= window_seconds ->
      step window_seconds max_requests now (Active c ws) Allowed (Active 1 now)
  | step_increment c ws :
      now - ws < window_seconds -> c < max_requests ->
      step window_seconds max_requests now (Active c ws) Allowed (Active (c + 1) ws)
  | step_reject c ws :
      now - ws < window_seconds -> max_requests <= c ->
      step window_seconds max_requests now (Active c ws) RateLimited (Active c ws).

(** The state of a key in the store. *)
Definition state_of (store : gmap string counter) (key : string) : state :=
  match store !! key with
  | None => NoEntry
  | Some c => Active (count c) (window_start c)
  end.

(** Successive calls for one key, at the given times. *)
Fixpoint calls (key : string) (window_seconds max_requests : Z) (times : list Z)
    (store : gmap string counter) : list Decision * gmap string counter :=
  match times with
  | [] => ([], store)
  | now :: rest =>
      let '(d, store') := check_and_increment key window_seconds max_requests now store in
      let '(ds, store'') := calls key window_seconds max_requests rest store' in
      (d :: ds, store'')
  end.

(** Modelled from the spec: what the request handler (in the missing
    [views] module) did with an admitted request; the tests see 200 from
    [report_content] and 503 from [feature_request] without a token. *)
Inductive handled : Type := Accepted | NotConfigured.

(** Modelled from the spec: "the host returns status 429 when
    [RateLimited] is signaled, 200/503 on other documented outcomes"; the
    endpoints are in the missing [views] module. *)
Definition http_status (d : Decision) (h : handled) : Z :=
  match d with
  | RateLimited => 429
  | Allowed => match h with Accepted => 200 | NotConfigured => 503 end
  end.

(** The window is new at [t0]: no entry, or an entry whose window is over. *)
Definition window_opens (store : gmap string counter) (key : string)
    (window_seconds t0 : Z) : Prop :=
  match store !! key with
  | None => True
  | Some c => t0 - window_start c >= window_seconds
  end.

End RateLimiter.

(** ** Concrete platforms for the scenarios *)

(** An operating system that refuses no file operation, servers that
    never redirect, and error responses with an empty body. *)
Definition no_refusal : gmap Path bytes -> file_op -> option exn := fun _ _ => None.
Definition no_redirect : Request -> list string := fun _ => [].
Definition empty_body : Request -> result string := fun _ => Return EmptyString.

Module Scenario.

Definition mirror_url : string := "https://archive.org/download/data-set-1/DataSet%201.zip".
Definition blob_url : string := "https://blob.vercel-storage.com/report.pdf".

(** [urlparse] on the URLs of the scenarios. *)
Definition parse (url : string) : result ParseResult :=
  if String.eqb url mirror_url
  then Return {| scheme := "https"; hostname := Some "archive.org" |}
  else if String.eqb url blob_url
  then Return {| scheme := "https"; hostname := Some "blob.vercel-storage.com" |}
  else if String.eqb url "https://data.archive.org/x.zip"
  then Return {| scheme := "https"; hostname := Some "data.archive.org" |}
  else if String.eqb url "http://archive.org/x.zip"
  then Return {| scheme := "http"; hostname := Some "archive.org" |}
  else if String.eqb url "https:///x.zip"
  then Return {| scheme := "https"; hostname := None |}
  else if String.eqb url "https://[archive.org/x.zip"
  then Raise ValueError
  else Return {| scheme := EmptyString; hostname := None |}.

Definition no_response : Request -> Z -> result Response :=
  fun _ _ => Raise URLError.

(** A platform whose resolver answers every name with [answer]. *)
Definition resolving (answer : result (list ip_address)) : Platform :=
  {| urlparse := parse;
     getaddrinfo := fun _ => answer;
     urlopen := no_response;
     zipfile_ZipFile := fun _ => Raise BadZipFile;
     BLOB_TOKEN := "token";
     os_error := no_refusal;
     redirects := no_redirect;
     http_error_body := empty_body |}.

(** An archive with traversal names, a name in upper case, two members
    of the same final component, a member that cannot be read, and
    members that are not PDFs. *)
Definition archive : ZipFile :=
  [ ("../../evil.pdf", Return [Byte.x41]);
    ("docs/Report.PDF", Return [Byte.x42]);
    ("other/evil.pdf", Return [Byte.x43]);
    ("broken.pdf", Raise BadZipFile);
    ("notes.txt", Return [Byte.x44]);
    ("docs/", Return []) ].

Definition unzipping : Platform :=
  {| urlparse := parse;
     getaddrinfo := fun _ => Raise gaierror;
     urlopen := no_response;
     zipfile_ZipFile := fun _ => Return archive;
     BLOB_TOKEN := "token";
     os_error := no_refusal;
     redirects := no_redirect;
     http_error_body := empty_body |}.

Definition data_dir : Path := ("/", ["srv"; "data"]).
Definition zip_path : Path := ("/", ["srv"; "downloads"; "DataSet_1.zip"]).

(** A world in which [Report.PDF] is already in the data directory. *)
Definition world_with_report : World :=
  {| fs := {[ ("/", ["srv"; "data"; "Report.PDF"]) := [Byte.x00] ]}; net := [] |}.

Definition empty_world : World := {| fs := ∅; net := [] |}.

(** A limiter store in which the key has used up a limit of five in
    the window that started at 100. *)
Definition exhausted : gmap string RateLimiter.counter :=
  {[ "report:alice" := {| RateLimiter.count := 5; RateLimiter.window_start := 100 |} ]}.

Definition public_v4 : ip_address := IPv4Address (quad 140 82 114 6).
Definition loopback_v4 : ip_address := IPv4Address (quad 127 0 0 1).
Definition shared_v4 : ip_address := IPv4Address (quad 100 64 0 1).

(** [::ffff:100.64.0.1], the IPv6 address that maps [100.64.0.1]. *)
Definition mapped_shared_v6 : ip_address :=
  IPv6Address (hextets [0; 0; 0; 0; 0; 0xffff; 0x6440; 0x0001]).

(** A platform on which the mirror resolves to a public address and
    answers the download with a redirect to its plain-HTTP address,
    which [urlopen] follows. *)
Definition redirecting : Platform :=
  {| urlparse := parse;
     getaddrinfo := fun _ => Return [public_v4];
     urlopen := fun _ _ =>
       Return {| status := 200; content_length := Return 0; chunks := [];
                 json_url := Raise ValueError |};
     zipfile_ZipFile := fun _ => Raise BadZipFile;
     BLOB_TOKEN := "token";
     os_error := no_refusal;
     redirects := fun _ => ["http://archive.org/x.zip"];
     http_error_body := empty_body |}.

End Scenario.

(** ** Further parts of the scripts *)

(** [str.upper] on the ASCII range; other bytes are left as they are. *)
Definition upper_ascii (c : ascii) : ascii :=
  let n := nat_of_ascii c in
  if ((97 <=? n)%nat && (n <=? 122)%nat)%bool then ascii_of_nat (n - 32) else c.

Fixpoint upper (s : string) : string :=
  match s with
  | EmptyString => EmptyString
  | String c s' => String (upper_ascii c) (upper s')
  end.

(** All bytes of the string are in the ASCII range. *)
Fixpoint is_ascii (s : string) : bool :=
  match s with
  | EmptyString => true
  | String c s' => (nat_of_ascii c <? 128)%nat && is_ascii s'
  end.

(** The request [download_file] builds when [existing_size] bytes of the
    destination are on disk. *)
Definition download_request (url : string) (existing_size : Z) : Request :=
  {| req_url := url; req_data := None;
     req_headers :=
       ("User-Agent", USER_AGENT) ::
       (if 0 <? existing_size
        then [("Range", "bytes=" +:+ pretty existing_size +:+ "-")]
        else []);
     req_method := None |}.

(** The request [upload_file] builds for a file with content [data]. *)
Definition upload_request (pf : Platform) (pdf_path : Path) (data : bytes) : Request :=
  {| req_url := upload_url pdf_path; req_data := Some data;
     req_headers :=
       [ ("Authorization", "Bearer " +:+ BLOB_TOKEN pf);
         ("Content-Type", "application/pdf");
         ("x-api-version", "7") ];
     req_method := Some "PUT" |}.

(** What the reading loop of [download_file] takes from a response: the
    bytes of the chunks before the first empty chunk, and the exception
    that stops the reading, when one does. *)
Fixpoint received (cs : list (result bytes)) : bytes * option exn :=
  match cs with
  | [] => ([], None)
  | Raise e :: _ => ([], Some e)
  | Return [] :: _ => ([], None)
  | Return chunk :: rest =>
      let '(data, stop) := received rest in ((chunk ++ data)%list, stop)
  end.

(** Further inputs of [download_epstein_files.py]:
    - [sha256_hexdigest]: [hashlib.sha256(data).hexdigest()];
    - [size_reaches actual_size size_mb]: outcome of the floating-point
      comparison [actual_size >= size_mb * 1024 * 1024 * 0.9];
    - [DOWNLOAD_DIR], [DATA_DIR]: the two directories beside the scripts. *)
Record Runtime : Type := {
  sha256_hexdigest : bytes -> string;
  size_reaches : Z -> Z -> bool;
  DOWNLOAD_DIR : Path;
  DATA_DIR : Path
}.

(** [verify_hash]: the file is hashed chunk by chunk, which gives the
    digest of its content. *)
Definition verify_hash (rt : Runtime) (file_path : Path) (expected_hash : string) : M bool :=
  data ← read_file file_path;
  let actual := upper (sha256_hexdigest rt data) in
  let expected := upper expected_hash in
  mret (String.eqb actual expected).

(** An entry of [DATASETS]. *)
Record DatasetInfo : Type := {
  size_mb : Z;
  urls : list string;
  sha256 : string
}.

Definition DATASETS : gmap Z DatasetInfo :=
  list_to_map
    [ (1, {| size_mb := 1230;
             urls := [ "https://archive.org/download/data-set-1/DataSet%201.zip";
                       "https://copyparty.vvv.systems/DOJ%20Epstein%20Files/justice.gov/DataSet%201.zip";
                       "https://www.justice.gov/epstein/files/DataSet%201.zip" ];
             sha256 := "598F4D2D71F0D183CF898CD9D6FB8EC1F6161E0E71D8C37897936AEF75F860B4" |});
      (2, {| size_mb := 630;
             urls := [ "https://archive.org/download/data-set-1/DataSet%202.zip";
                       "https://copyparty.vvv.systems/DOJ%20Epstein%20Files/justice.gov/DataSet%202.zip";
                       "https://www.justice.gov/epstein/files/DataSet%202.zip" ];
             sha256 := "24CEBBAEFE9D49BCA57726B5A4B531FF20E6A97C370BA87A7593DD8DBDB77BFF" |});
      (3, {| size_mb := 595;
             urls := [ "https://archive.org/download/data-set-1/DataSet%203.zip";
                       "https://copyparty.vvv.systems/DOJ%20Epstein%20Files/justice.gov/DataSet%203.zip";
                       "https://www.justice.gov/epstein/files/DataSet%203.zip" ];
             sha256 := "160231C8C689C76003976B609E55689530FC4832A1535CE13BFCD8F871C21E65" |});
      (4, {| size_mb := 351;
             urls := [ "https://archive.org/download/data-set-1/DataSet%204.zip";
                       "https://copyparty.vvv.systems/DOJ%20Epstein%20Files/justice.gov/DataSet%204.zip";
                       "https://www.justice.gov/epstein/files/DataSet%204.zip" ];
             sha256 := "979154842BAC356EF36BB2D0E72F78E0F6B771D79E02DD6934CFF699944E2B71" |});
      (5, {| size_mb := 61;
             urls := [ "https://archive.org/download/data-set-1/DataSet%205.zip";
                       "https://copyparty.vvv.systems/DOJ%20Epstein%20Files/justice.gov/DataSet%205.zip";
                       "https://www.justice.gov/epstein/files/DataSet%205.zip" ];
             sha256 := "7317E2AD089C82A59378A9C038E964FEAB246BE62ECC24663B741617AF3DA709" |});
      (6, {| size_mb := 51;
             urls := [ "https://archive.org/download/data-set-1/DataSet%206.zip";
                       "https://copyparty.vvv.systems/DOJ%20Epstein%20Files/justice.gov/DataSet%206.zip";
                       "https://www.justice.gov/epstein/files/DataSet%206.zip" ];
             sha256 := "D54D26D94127B9A277CF3F7D9EEAF9A7271F118757997EDAC3BC6E1039ED6555" |});
      (7, {| size_mb := 97;
             urls := [ "https://archive.org/download/data-set-1/DataSet%207.zip";
                       "https://copyparty.vvv.systems/DOJ%20Epstein%20Files/justice.gov/DataSet%207.zip";
                       "https://www.justice.gov/epstein/files/DataSet%207.zip" ];
             sha256 := "51E1961B3BCF18A21AFD9BCF697FDB54DAC97D1B64CF88297F4C5BE268D26B8E" |});
      (8, {| size_mb := 10670;
             urls := [ "https://archive.org/download/data-set-8/DataSet%208.zip";
                       "https://copyparty.vvv.systems/DOJ%20Epstein%20Files/justice.gov/DataSet%208.zip";
                       "https://www.justice.gov/epstein/files/DataSet%208.zip" ];
             sha256 := "8cb7345bf7a0b32f183658ac170fb0b6527895c95f0233d7b99d544579567294" |});
      (10, {| size_mb := 78650;
              urls := [ "https://archive.org/download/data-set-10/DataSet%2010.zip";
                        "https://copyparty.vvv.systems/DOJ%20Epstein%20Files/justice.gov/DataSet%2010.zip";
                        "https://www.justice.gov/epstein/files/DataSet%2010.zip" ];
              sha256 := "7D6935B1C63FF2F6BCABDD024EBC2A770F90C43B0D57B646FA7CBD4C0ABCF846" |});
      (11, {| size_mb := 27500;
              urls := [ "https://copyparty.vvv.systems/DOJ%20Epstein%20Files/justice.gov/DataSet%2011.zip";
                        "https://www.justice.gov/epstein/files/DataSet%2011.zip" ];
              sha256 := "9714273B9E325F0A1F406063C795DB32F5DA2095B75E602D4C4FBABA5DE3ED80" |});
      (12, {| size_mb := 114;
              urls := [ "https://archive.org/download/data-set-12_202601/DataSet%2012.zip";
                        "https://copyparty.vvv.systems/DOJ%20Epstein%20Files/justice.gov/DataSet%2012.zip";
                        "https://www.justice.gov/epstein/files/DataSet%2012.zip" ];
              sha256 := "B5314B7EFCA98E25D8B35E4B7FAC3EBB3CA2E6CFD0937AA2300CA8B71543BBE2" |}) ].

(** [p.stat().st_size]; a missing file raises [FileNotFoundError]. *)
Definition stat_size (p : Path) : M Z := fun w =>
  match fs w !! p with
  | Some d => (Return (len d), w)
  | None => (Raise OSError, w)
  end.

(** [p.unlink()] *)
Definition unlink (p : Path) : M unit := fun w =>
  match fs w !! p with
  | Some _ => (Return tt, {| fs := delete p (fs w); net := net w |})
  | None => (Raise OSError, w)
  end.

(** [for url in info["urls"]: if download_file(...): success = True; break] *)
Fixpoint mirror_loop (pf : Platform) (mirrors : list string) (zip_path : Path)
    (expected_size_mb : Z) : M bool :=
  match mirrors with
  | [] => mret false
  | url :: rest =>
      ok ← download_file pf url zip_path expected_size_mb;
      if (ok : bool) then mret true
      else mirror_loop pf rest zip_path expected_size_mb
  end.

(** [download_dataset]. The two [mkdir(exist_ok=True)] calls leave the
    files as they are; directories are not part of the world, and the
    lookups of the archive in the download directory are taken to
    succeed. *)
Definition download_dataset (rt : Runtime) (pf : Platform) (dataset_num : Z)
    (skip_verify : bool) : M Z :=
  match DATASETS !! dataset_num with
  | None => mret 0
  | Some info =>
      let zip_filename := "DataSet_" +:+ pretty dataset_num +:+ ".zip" in
      let zip_path := pathlib.joinpath (DOWNLOAD_DIR rt) zip_filename in
      let extract : M Z :=
        try_ (extract_pdfs pf zip_path (DATA_DIR rt) dataset_num)
             [ (BadZipFile, mret 0) ] in
      present ← path_exists zip_path;
      (if (present : bool) then
         actual_size ← stat_size zip_path;
         if size_reaches rt actual_size (size_mb info) then
           if negb skip_verify then
             ok ← verify_hash rt zip_path (sha256 info);
             if negb ok then unlink zip_path else mret tt
           else mret tt
         else mret tt
       else mret tt);;
      present ← path_exists zip_path;
      small ← (if (present : bool)
               then actual_size ← stat_size zip_path; mret (actual_size <? 1000)
               else mret false);
      if negb present || small then
        success ← mirror_loop pf (urls info) zip_path (size_mb info);
        if negb success then mret 0
        else
          (if negb skip_verify
           then verify_hash rt zip_path (sha256 info);; mret tt
           else mret tt);;
          extract
      else extract
  end.

(** ** [load_env] of [upload_to_blob.py] *)

Module dotenv.

(** [c in s] for a one-character [c]. *)
Fixpoint has_char (c : ascii) (s : string) : bool :=
  match s with
  | EmptyString => false
  | String a s' => Ascii.eqb a c || has_char c s'
  end.

(** [s.partition(c)]: the text before the first [c] and the text after
    it; without a [c], the whole text and the empty string. *)
Fixpoint partition (c : ascii) (s : string) : string * string :=
  match s with
  | EmptyString => (EmptyString, EmptyString)
  | String a s' =>
      if Ascii.eqb a c then (EmptyString, s')
      else let '(before, after) := partition c s' in (String a before, after)
  end.

(** [s.lstrip(c)], [s.rstrip(c)] and [s.strip(c)] for a one-character [c]. *)
Fixpoint lstrip_char (c : ascii) (s : string) : string :=
  match s with
  | EmptyString => EmptyString
  | String a s' => if Ascii.eqb a c then lstrip_char c s' else s
  end.

Fixpoint rstrip_char (c : ascii) (s : string) : string :=
  match s with
  | EmptyString => EmptyString
  | String a s' =>
      match rstrip_char c s' with
      | EmptyString => if Ascii.eqb a c then EmptyString else String a EmptyString
      | r => String a r
      end
  end.

Definition strip_char (c : ascii) (s : string) : string :=
  rstrip_char c (lstrip_char c s).

Definition double_quote : ascii := ascii_of_nat 34.
Definition single_quote : ascii := ascii_of_nat 39.

(** What one line of the file contributes: the body of the loop up to
    the test [if key and value]. [strip] is [str.strip()]. *)
Definition entry (strip : string -> string) (line : string) : option (string * string) :=
  if has_char "=" line && negb (String.prefix "#" line) then
    let '(key, value) := partition "=" line in
    let key := strip key in
    let value := strip_char single_quote (strip_char double_quote (strip value)) in
    if negb (String.eqb key EmptyString) && negb (String.eqb value EmptyString)
    then Some (key, value)
    else None
  else None.

(** The NUL character, which a variable of the process environment
    cannot hold. *)
Definition NUL : ascii := ascii_of_nat 0.

(** [os.environ.setdefault(key, value)]: the outcome and the
    environment it leaves.  A key that is set is left alone; setting a
    key calls [putenv], which raises [ValueError] for a key or a value
    with an embedded NUL. *)
Definition setdefault (key value : string) (environ : gmap string string)
    : result unit * gmap string string :=
  match environ !! key with
  | Some _ => (Return tt, environ)
  | None =>
      if has_char NUL key || has_char NUL value then (Raise ValueError, environ)
      else (Return tt, <[key := value]> environ)
  end.

(** [for line in env_file.read_text().splitlines(): ...] *)
Fixpoint load_lines (strip : string -> string) (lines : list string)
    (environ : gmap string string) : result unit * gmap string string :=
  match lines with
  | [] => (Return tt, environ)
  | line :: rest =>
      match entry strip line with
      | Some (key, value) =>
          match setdefault key value environ with
          | (Return _, environ') => load_lines strip rest environ'
          | (Raise e, environ') => (Raise e, environ')
          end
      | None => load_lines strip rest environ
      end
  end.

(** [load_env]: [env_file] is [None] when [.env.local] does not exist,
    and the lines of its text otherwise.  The result is the outcome of
    the call and the process environment after it. *)
Definition load_env (strip : string -> string) (env_file : option (list string))
    (environ : gmap string string) : result unit * gmap string string :=
  match env_file with
  | None => (Return tt, environ)
  | Some lines => load_lines strip lines environ
  end.

(** [str.strip()] on text whose white space is in the ASCII range; the
    properties of [load_env] are proved for any [strip]. *)
Definition is_space (c : ascii) : bool :=
  let n := nat_of_ascii c in
  ((9 <=? n)%nat && (n <=? 13)%nat) || ((28 <=? n)%nat && (n <=? 32)%nat).

Fixpoint lstrip (s : string) : string :=
  match s with
  | EmptyString => EmptyString
  | String a s' => if is_space a then lstrip s' else s
  end.

Fixpoint rstrip (s : string) : string :=
  match s with
  | EmptyString => EmptyString
  | String a s' =>
      match rstrip s' with
      | EmptyString => if is_space a then EmptyString else String a EmptyString
      | r => String a r
      end
  end.

Definition strip (s : string) : string := rstrip (lstrip s).

End dotenv.

(** ** Further scenarios *)

Module Cases.

(** A platform on which the mirrors and the blob host resolve to a
    public address and every request gets the answer [answer]. *)
Definition answering (answer : result Response) : Platform :=
  {| urlparse := Scenario.parse;
     getaddrinfo := fun _ => Return [Scenario.public_v4];
     urlopen := fun _ _ => answer;
     zipfile_ZipFile := fun _ => Return Scenario.archive;
     BLOB_TOKEN := "token";
     os_error := no_refusal;
     redirects := no_redirect;
     http_error_body := empty_body |}.

(** The rest of a file: two bytes in two chunks, status 206. *)
Definition partial_content : Response :=
  {| status := 206; content_length := Return 2;
     chunks := [Return [Byte.x43]; Return [Byte.x44]; Return []];
     json_url := Raise ValueError |}.

(** A whole file of three bytes, status 200. *)
Definition whole_content : Response :=
  {| status := 200; content_length := Return 3;
     chunks := [Return [Byte.x41; Byte.x42]; Return [Byte.x43]];
     json_url := Raise ValueError |}.


(** An answer whose [Content-Length] header is not a number. *)
Definition bad_length : Response :=
  {| status := 200; content_length := Raise ValueError;
     chunks := [Return [Byte.x41]];
     json_url := Raise ValueError |}.

(** The answer of the blob store to an upload. *)
Definition stored : Response :=
  {| status := 200; content_length := Return 0; chunks := [];
     json_url := Return "https://blob.vercel-storage.com/report-Ab12.pdf" |}.


(** A platform on which the blob store answers with an error status
    and closes the connection before the body of the error is
    complete. *)
Definition error_cut_short : Platform :=
  {| urlparse := Scenario.parse;
     getaddrinfo := fun _ => Return [Scenario.public_v4];
     urlopen := fun _ _ => Raise HTTPError;
     zipfile_ZipFile := fun _ => Return Scenario.archive;
     BLOB_TOKEN := "token";
     os_error := no_refusal;
     redirects := no_redirect;
     http_error_body := fun _ => Raise IncompleteRead |}.

(** A platform with the scenario archive, on a system where the lookup
    of any file fails (a directory that cannot be searched, say). *)
Definition unsearchable : Platform :=
  {| urlparse := Scenario.parse;
     getaddrinfo := fun _ => Raise gaierror;
     urlopen := Scenario.no_response;
     zipfile_ZipFile := fun _ => Return Scenario.archive;
     BLOB_TOKEN := "token";
     os_error := fun _ op => match op with op_exists _ => Some OSError | _ => None end;
     redirects := no_redirect;
     http_error_body := empty_body |}.

(** A world with the first two bytes of the archive on disk. *)
Definition half_done : World :=
  {| fs := {[ Scenario.zip_path := [Byte.x41; Byte.x42] ]}; net := [] |}.

Definition report_path : Path := ("/", ["srv"; "data"; "report.pdf"]).

(** A world with one PDF in the data directory. *)
Definition with_pdf : World :=
  {| fs := {[ report_path := [Byte.x25; Byte.x50; Byte.x44; Byte.x46] ]}; net := [] |}.

End Cases.

(** A computation whose requests, appended to those already issued,
    satisfy [P]. *)
Definition emits {A} (P : list (Request * Z) -> Prop) (m : M A) : Prop :=
  forall w, exists reqs, net (snd (m w)) = (net w ++ reqs)%list /\ P reqs.

(** The requests are downloads from [mirrors], in the order of the
    list, each for a URL the validator has accepted. *)
Definition mirror_requests (pf : Platform) (mirrors : list string)
    (reqs : list (Request * Z)) : Prop :=
  sublist (map (fun r => req_url (fst r)) reqs) mirrors /\
  Forall (fun r => is_allowed_download_url pf (req_url (fst r)) = Return true /\
                   snd r = 300) reqs.

Module Runs.

(** A runtime whose digest of every file is the one recorded for
    dataset 8, and for which every file is large enough. *)
Definition runtime : Runtime :=
  {| sha256_hexdigest := fun _ =>
       "8cb7345bf7a0b32f183658ac170fb0b6527895c95f0233d7b99d544579567294";
     size_reaches := fun _ _ => true;
     DOWNLOAD_DIR := ("/", ["srv"; "downloads"]);
     DATA_DIR := Scenario.data_dir |}.

Definition dataset_8_zip : Path := ("/", ["srv"; "downloads"; "DataSet_8.zip"]).

(** A world that holds an archive of dataset 8. *)
Definition with_dataset_8 : World :=
  {| fs := {[ dataset_8_zip := replicate 1000 Byte.x00 ]}; net := [] |}.


(** [urlparse] on the mirrors of dataset 1. *)
Definition parse_mirror (url : string) : result ParseResult :=
  if String.eqb url "https://archive.org/download/data-set-1/DataSet%201.zip"
  then Return {| scheme := "https"; hostname := Some "archive.org" |}
  else if String.eqb url
    "https://copyparty.vvv.systems/DOJ%20Epstein%20Files/justice.gov/DataSet%201.zip"
  then Return {| scheme := "https"; hostname := Some "copyparty.vvv.systems" |}
  else if String.eqb url "https://www.justice.gov/epstein/files/DataSet%201.zip"
  then Return {| scheme := "https"; hostname := Some "www.justice.gov" |}
  else Raise ValueError.


(** A platform on which the mirrors resolve to a public address and
    refuse the connection. *)
Definition refusing : Platform :=
  {| urlparse := parse_mirror;
     getaddrinfo := fun _ => Return [Scenario.public_v4];
     urlopen := fun _ _ => Raise URLError;
     zipfile_ZipFile := fun _ => Return Scenario.archive;
     BLOB_TOKEN := "token";
     os_error := no_refusal;
     redirects := no_redirect;
     http_error_body := empty_body |}.

End Runs.

(** The archive of a dataset: [DOWNLOAD_DIR / f"DataSet_{dataset_num}.zip"]. *)
Definition dataset_zip_path (rt : Runtime) (dataset_num : Z) : Path :=
  pathlib.joinpath (DOWNLOAD_DIR rt) ("DataSet_" +:+ pretty dataset_num +:+ ".zip").

(** The last step of [download_dataset]: extraction, a bad archive
    counting for nothing. *)
Definition extract_dataset (rt : Runtime) (pf : Platform) (dataset_num : Z) : M Z :=
  try_ (extract_pdfs pf (dataset_zip_path rt dataset_num) (DATA_DIR rt) dataset_num)
       [ (BadZipFile, mret 0) ].

Module EnvFile.

(** The lines of an [.env.local] file: a comment, the token in single
    quotes with blanks around it, a second line for the token, a line
    without a value and a line without a name. *)
Definition lines : list string :=
  [ "# storage";
    "BLOB_READ_WRITE_TOKEN = 'vercel_blob_rw_1' ";
    "BLOB_READ_WRITE_TOKEN=other";
    "DEBUG=";
    "=orphan" ].

(** An environment in which [DEBUG] is set. *)
Definition environ : gmap string string := {[ "DEBUG" := "1" ]}.

(** The lines of a file whose second line has a NUL character in its
    value. *)
Definition lines_with_nul : list string :=
  [ "REGION=iad1";
    "BLOB_READ_WRITE_TOKEN=vercel" +:+ String dotenv.NUL "rw";
    "DEBUG=1" ].

End EnvFile.

(** The operating system lets the file at [p] be opened, written and
    closed. *)
Definition writable (pf : Platform) (p : Path) : Prop :=
  forall files mode chunk,
    os_error pf files (op_open p mode) = None /\
    os_error pf files (op_write p chunk) = None /\
    os_error pf files (op_close p) = None.

(** No lookup of a file fails. *)
Definition lookups_succeed (pf : Platform) : Prop :=
  forall files p, os_error pf files (op_exists p) = None.

(** No write of a whole file is refused. *)
Definition writes_succeed (pf : Platform) : Prop :=
  forall files p data, os_error pf files (op_write_bytes p data) = None.

(** A computation that leaves every file outside [S] as it is. *)
Definition confined {A} (S : Path -> Prop) (m : M A) : Prop :=
  forall w q, ~ S q -> fs (snd (m w)) !! q = fs w !! q.

(** [p] is an entry of the directory [d] whose name ends in [".pdf"],
    in any case of the letters. *)
Definition pdf_entry (d p : Path) : Prop :=
  direct_child d p /\ endswith (lower (pathlib.name p)) ".pdf" = true.

(** * Properties *)

(** ** Helper lemmas: the validators *)

Lemma validator_shape allowed v :
  validator allowed v -> v = outbound_validator allowed.
Proof. destruct 1; reflexivity. Qed.

Lemma validator_no_empty_host allowed v :
  validator allowed v -> EmptyString ∉ allowed.
Proof.
  destruct 1; unfold ALLOWED_DOWNLOAD_HOSTS, ALLOWED_UPLOAD_HOSTS;
    rewrite ?elem_of_union, ?elem_of_singleton; intuition discriminate.
Qed.

Lemma disallowed_flagged ip : disallowed ip = true <-> flagged ip.
Proof.
  unfold disallowed, flagged. rewrite !orb_true_iff. tauto.
Qed.

Lemma disallowed_not_flagged ip : disallowed ip = false <-> ~ flagged ip.
Proof.
  rewrite <- disallowed_flagged. destruct (disallowed ip); split; congruence.
Qed.

Lemma addr_info_loop_true l :
  addr_info_loop l = true <-> (forall ip, ip ∈ l -> disallowed ip = false).
Proof.
  induction l as [|a l IH]; simpl.
  - split; [intros _ ip Hin; inversion Hin | reflexivity].
  - destruct (disallowed a) eqn:Ha.
    + split; [discriminate |]. intros H.
      specialize (H a (list_elem_of_here a l)). congruence.
    + rewrite IH. split.
      * intros H ip Hin. apply elem_of_cons in Hin as [-> | Hin]; auto.
      * intros H ip Hin. apply H. apply list_elem_of_further; exact Hin.
Qed.

Lemma addr_info_loop_false l :
  addr_info_loop l = false <-> (exists ip, ip ∈ l /\ disallowed ip = true).
Proof.
  induction l as [|a l IH]; simpl.
  - split; [discriminate | intros (ip & Hin & _); inversion Hin].
  - destruct (disallowed a) eqn:Ha.
    + split; [|reflexivity]. intros _. exists a. split; [apply list_elem_of_here | exact Ha].
    + rewrite IH. split.
      * intros (ip & Hin & Hd). exists ip. split; [apply list_elem_of_further|]; assumption.
      * intros (ip & Hin & Hd). apply elem_of_cons in Hin as [-> | Hin]; [congruence|].
        exists ip. split; assumption.
Qed.

(** Past the scheme, hostname and allowlist checks the result is that of
    the resolution and the loop. *)
Lemma outbound_validator_resolves allowed pf url parsed h :
  EmptyString ∉ allowed ->
  urlparse pf url = Return parsed ->
  scheme parsed = "https" ->
  hostname parsed = Some h ->
  lower h ∈ allowed ->
  outbound_validator allowed pf url =
    match getaddrinfo pf (lower h) with
    | Raise e => if issubclass e gaierror then Return false else Raise e
    | Return addr_info => Return (addr_info_loop addr_info)
    end.
Proof.
  intros Hne Hp Hs Hh Hin. unfold outbound_validator.
  rewrite Hp, Hs, Hh. simpl.
  assert (h <> EmptyString) as Hh0.
  { intros ->. simpl in Hin. contradiction. }
  apply String.eqb_neq in Hh0. rewrite Hh0. simpl.
  rewrite bool_decide_eq_true_2 by exact Hin. reflexivity.
Qed.

(** The validator returns [true] only through the loop. *)
Lemma outbound_validator_true allowed pf url :
  outbound_validator allowed pf url = Return true ->
  exists parsed h addr_info,
    urlparse pf url = Return parsed /\
    scheme parsed = "https" /\
    hostname parsed = Some h /\ h <> EmptyString /\
    lower h ∈ allowed /\
    getaddrinfo pf (lower h) = Return addr_info /\
    addr_info_loop addr_info = true.
Proof.
  unfold outbound_validator. intros H.
  destruct (urlparse pf url) as [parsed|e] eqn:Hp.
  2:{ destruct (issubclass e ValueError); discriminate. }
  destruct (String.eqb (scheme parsed) "https") eqn:Hs; simpl in H; [|discriminate].
  destruct (hostname parsed) as [h|] eqn:Hh; simpl in H; [|discriminate].
  destruct (String.eqb h EmptyString) eqn:Hh0; simpl in H; [discriminate|].
  destruct (bool_decide (lower h ∈ allowed)) eqn:Hin; simpl in H; [|discriminate].
  destruct (getaddrinfo pf (lower h)) as [addr_info|e] eqn:Hg.
  2:{ destruct (issubclass e gaierror); discriminate. }
  exists parsed, h, addr_info.
  apply String.eqb_eq in Hs. apply String.eqb_neq in Hh0.
  apply bool_decide_eq_true_1 in Hin.
  repeat split; try assumption; try reflexivity. congruence.
Qed.

(** One flagged address among the resolved ones makes the validator
    return false, whatever the scheme and the host. *)
Lemma outbound_validator_flagged allowed pf url parsed h addr_info :
  urlparse pf url = Return parsed ->
  hostname parsed = Some h ->
  getaddrinfo pf (lower h) = Return addr_info ->
  (exists ip, ip ∈ addr_info /\ flagged ip) ->
  outbound_validator allowed pf url = Return false.
Proof.
  intros Hp Hh Hg (ip & Hin & Hf).
  assert (addr_info_loop addr_info = false) as Hloop.
  { apply addr_info_loop_false. exists ip. split; [exact Hin|].
    apply disallowed_flagged; exact Hf. }
  unfold outbound_validator. rewrite Hp, Hh. simpl.
  destruct (negb (String.eqb (scheme parsed) "https")
            || negb (negb (String.eqb h EmptyString))); [reflexivity|].
  destruct (negb (bool_decide (lower h ∈ allowed))); [reflexivity|].
  rewrite Hg, Hloop. reflexivity.
Qed.

(** ** C1 *)

(** C1. For either validator: when the hostname of the parsed URL
    resolves to a list of addresses of which at least one is private,
    loopback, link-local, multicast, reserved or unspecified, the
    validator returns false; when moreover the scheme is https, the
    lowercased hostname is in the host set and no resolved address is so
    flagged, it returns true. *)
Theorem C1_one_flagged_address_rejects :
  forall allowed v pf url parsed h addr_info,
    validator allowed v ->
    urlparse pf url = Return parsed ->
    hostname parsed = Some h ->
    getaddrinfo pf (lower h) = Return addr_info ->
    ((exists ip, ip ∈ addr_info /\ flagged ip) -> v pf url = Return false) /\
    (scheme parsed = "https" -> lower h ∈ allowed ->
     (forall ip, ip ∈ addr_info -> ~ flagged ip) -> v pf url = Return true).
Proof.
  intros allowed v pf url parsed h addr_info Hv Hp Hh Hg.
  pose proof (validator_no_empty_host _ _ Hv) as Hne.
  rewrite (validator_shape _ _ Hv). split.
  - apply (outbound_validator_flagged allowed pf url parsed h addr_info Hp Hh Hg).
  - intros Hs Hin Hall.
    rewrite (outbound_validator_resolves allowed pf url parsed h Hne Hp Hs Hh Hin), Hg.
    f_equal. apply addr_info_loop_true. intros ip Hip.
    apply disallowed_not_flagged. auto.
Qed.

(** Scenario of C1: a mirror URL resolving to a public and a loopback
    address is rejected; resolving to the public address only, it is
    accepted. *)
Lemma C1_witness :
  is_allowed_download_url
    (Scenario.resolving (Return [Scenario.public_v4; Scenario.loopback_v4]))
    Scenario.mirror_url = Return false /\
  is_allowed_download_url
    (Scenario.resolving (Return [Scenario.public_v4]))
    Scenario.mirror_url = Return true.
Proof.
  split.
  - apply (proj1 (C1_one_flagged_address_rejects
             ALLOWED_DOWNLOAD_HOSTS is_allowed_download_url
             (Scenario.resolving (Return [Scenario.public_v4; Scenario.loopback_v4]))
             Scenario.mirror_url
             {| scheme := "https"; hostname := Some "archive.org" |}
             "archive.org" [Scenario.public_v4; Scenario.loopback_v4]
             validator_download eq_refl eq_refl eq_refl)).
    exists Scenario.loopback_v4. split.
    + apply list_elem_of_further, list_elem_of_here.
    + left. vm_compute. reflexivity.
  - apply (proj2 (C1_one_flagged_address_rejects
             ALLOWED_DOWNLOAD_HOSTS is_allowed_download_url
             (Scenario.resolving (Return [Scenario.public_v4]))
             Scenario.mirror_url
             {| scheme := "https"; hostname := Some "archive.org" |}
             "archive.org" [Scenario.public_v4]
             validator_download eq_refl eq_refl eq_refl)).
    + reflexivity.
    + apply (bool_decide_unpack _). vm_compute. exact I.
    + intros ip Hip. apply elem_of_cons in Hip as [-> | Hip]; [|inversion Hip].
      apply disallowed_not_flagged. vm_compute. reflexivity.
Defined.

(** ** C2 *)

Lemma download_hosts_exact x :
  x ∈ ALLOWED_DOWNLOAD_HOSTS <->
  x = "archive.org" \/ x = "copyparty.vvv.systems" \/ x = "www.justice.gov".
Proof.
  unfold ALLOWED_DOWNLOAD_HOSTS. rewrite !elem_of_union, !elem_of_singleton. tauto.
Qed.

Lemma upload_hosts_exact x :
  x ∈ ALLOWED_UPLOAD_HOSTS <-> x = "blob.vercel-storage.com".
Proof. unfold ALLOWED_UPLOAD_HOSTS. apply elem_of_singleton. Qed.

(** C2. For either validator and whatever the resolver would answer: a
    URL whose lowercased hostname is not a member of the host set is
    rejected. Membership is equality with one of the listed names, so a
    URL is accepted only if its lowercased hostname is equal to one of
    them. *)
Theorem C2_host_outside_allowlist_rejected :
  forall allowed v pf url parsed,
    validator allowed v ->
    urlparse pf url = Return parsed ->
    (forall h, hostname parsed = Some h -> lower h ∉ allowed) ->
    v pf url = Return false /\
    (forall x, x ∈ ALLOWED_DOWNLOAD_HOSTS <->
       x = "archive.org" \/ x = "copyparty.vvv.systems" \/ x = "www.justice.gov") /\
    (forall x, x ∈ ALLOWED_UPLOAD_HOSTS <-> x = "blob.vercel-storage.com").
Proof.
  intros allowed v pf url parsed Hv Hp Hout.
  split; [| split; [exact download_hosts_exact | exact upload_hosts_exact]].
  rewrite (validator_shape _ _ Hv). unfold outbound_validator. rewrite Hp.
  destruct (negb (String.eqb (scheme parsed) "https") || negb (truthy (hostname parsed)))
    eqn:Hgate; [reflexivity|].
  destruct (hostname parsed) as [h|] eqn:Hh.
  - simpl. rewrite bool_decide_eq_false_2 by (apply Hout; reflexivity). reflexivity.
  - simpl in Hgate. rewrite orb_true_r in Hgate. discriminate.
Qed.

(** Scenario of C2: a subdomain of an allowlisted mirror is rejected
    although it resolves to a public address. *)
Lemma C2_witness :
  is_allowed_download_url (Scenario.resolving (Return [Scenario.public_v4]))
    "https://data.archive.org/x.zip" = Return false.
Proof.
  apply (C2_host_outside_allowlist_rejected
           ALLOWED_DOWNLOAD_HOSTS is_allowed_download_url
           (Scenario.resolving (Return [Scenario.public_v4]))
           "https://data.archive.org/x.zip"
           {| scheme := "https"; hostname := Some "data.archive.org" |}
           validator_download eq_refl).
  intros h [= <-]. rewrite download_hosts_exact. vm_compute.
  intros [H | [H | H]]; discriminate H.
Defined.

(** ** C3 *)

(** The mapped address of an IPv6 address is an IPv4 address. *)
Lemma ipv4_mapped_some ip m :
  ipv4_mapped ip = Some m -> m = IPv4Address (Z.land ip 0xFFFFFFFF).
Proof.
  unfold ipv4_mapped. destruct (negb (Z.shiftr ip 32 =? 0xFFFF)); congruence.
Qed.

Lemma not_private_global_or_shared ip :
  is_private ip = false ->
  is_global ip = true \/ contains v4._public_network (deciding ip) = true.
Proof.
  intros H. destruct ip as [ip|ip]; unfold is_global, deciding.
  - rewrite H.
    destruct (contains v4._public_network (IPv4Address ip)); [right | left]; reflexivity.
  - unfold is_private in H.
    destruct (ipv4_mapped ip) as [m|] eqn:Hm; cbn [default].
    + rewrite (ipv4_mapped_some _ _ Hm) in *. cbn [is_private]. rewrite H.
      destruct (contains v4._public_network _); [right | left]; reflexivity.
    + left. unfold is_private. rewrite Hm, H. reflexivity.
Qed.

(** C3, as stated, fails: [archive.org] resolving to 100.64.0.1, an
    address of the shared address space that is not globally routable,
    is accepted. *)
Lemma C3_counterexample :
  getaddrinfo (Scenario.resolving (Return [Scenario.shared_v4])) "archive.org"
    = Return [Scenario.shared_v4] /\
  is_global Scenario.shared_v4 = false /\
  is_allowed_download_url (Scenario.resolving (Return [Scenario.shared_v4]))
    Scenario.mirror_url = Return true.
Proof. vm_compute. repeat split. Qed.

(** C3, amended. Either validator returns true only when every address
    the hostname resolves to is none of private, loopback, link-local,
    multicast, reserved and unspecified; such an address is globally
    routable, or it lies in the shared address space 100.64.0.0/10,
    itself or, for an IPv6 address that maps an IPv4 address, the
    address it maps. For every resolved address that is not globally
    routable and is outside that space in both ways, the validator
    returns false. *)
Theorem C3_accepted_addresses_unflagged :
  forall allowed v pf url,
    validator allowed v ->
    (v pf url = Return true ->
     exists parsed h addr_info,
       urlparse pf url = Return parsed /\
       hostname parsed = Some h /\
       getaddrinfo pf (lower h) = Return addr_info /\
       forall ip, ip ∈ addr_info ->
         ~ flagged ip /\
         (is_global ip = true \/ contains v4._public_network (deciding ip) = true)) /\
    (forall parsed h addr_info ip,
       urlparse pf url = Return parsed ->
       hostname parsed = Some h ->
       getaddrinfo pf (lower h) = Return addr_info ->
       ip ∈ addr_info ->
       is_global ip = false ->
       contains v4._public_network (deciding ip) = false ->
       v pf url = Return false).
Proof.
  intros allowed v pf url Hv. rewrite (validator_shape _ _ Hv). split.
  - intros Htrue.
    destruct (outbound_validator_true _ _ _ Htrue)
      as (parsed & h & addr_info & Hp & _ & Hh & _ & _ & Hg & Hloop).
    exists parsed, h, addr_info. repeat split; try assumption.
    + apply disallowed_not_flagged. revert ip H. apply addr_info_loop_true. exact Hloop.
    + apply not_private_global_or_shared.
      pose proof (proj1 (addr_info_loop_true addr_info) Hloop ip H) as Hd.
      unfold disallowed in Hd. rewrite !orb_false_iff in Hd. tauto.
  - intros parsed h addr_info ip Hp Hh Hg Hin Hglobal Hshared.
    apply (outbound_validator_flagged allowed pf url parsed h addr_info Hp Hh Hg).
    exists ip. split; [exact Hin|]. left.
    destruct (is_private ip) eqn:Hpriv; [reflexivity|].
    destruct (not_private_global_or_shared ip Hpriv); congruence.
Qed.

(** Scenario of C3: the mirror resolving to a public address is
    accepted, and that address is globally routable; resolving to the
    loopback address, it is rejected. *)
Lemma C3_witness :
  (exists parsed h addr_info,
     urlparse (Scenario.resolving (Return [Scenario.public_v4])) Scenario.mirror_url
       = Return parsed /\
     hostname parsed = Some h /\
     getaddrinfo (Scenario.resolving (Return [Scenario.public_v4])) (lower h)
       = Return addr_info /\
     forall ip, ip ∈ addr_info ->
       ~ flagged ip /\
       (is_global ip = true \/ contains v4._public_network (deciding ip) = true)) /\
  is_allowed_download_url (Scenario.resolving (Return [Scenario.loopback_v4]))
    Scenario.mirror_url = Return false.
Proof.
  split.
  - apply (proj1 (C3_accepted_addresses_unflagged
             ALLOWED_DOWNLOAD_HOSTS is_allowed_download_url
             (Scenario.resolving (Return [Scenario.public_v4])) Scenario.mirror_url
             validator_download)).
    vm_compute. reflexivity.
  - apply (proj2 (C3_accepted_addresses_unflagged
             ALLOWED_DOWNLOAD_HOSTS is_allowed_download_url
             (Scenario.resolving (Return [Scenario.loopback_v4])) Scenario.mirror_url
             validator_download)
             {| scheme := "https"; hostname := Some "archive.org" |}
             "archive.org" [Scenario.loopback_v4] Scenario.loopback_v4
             eq_refl eq_refl eq_refl).
    + apply list_elem_of_here.
    + vm_compute. reflexivity.
    + vm_compute. reflexivity.
Defined.

(** ** C4 *)

(** C4. For either validator and every input string: the validator
    returns false, and does not raise, when [urlparse] raises
    [ValueError], when the scheme is not ["https"], and when the parsed
    URL has no hostname. *)
Theorem C4_fails_closed_before_resolution :
  forall allowed v pf url,
    validator allowed v ->
    (forall e, urlparse pf url = Raise e -> issubclass e ValueError = true ->
       v pf url = Return false) /\
    (forall parsed, urlparse pf url = Return parsed -> scheme parsed <> "https" ->
       v pf url = Return false) /\
    (forall parsed, urlparse pf url = Return parsed ->
       hostname parsed = None \/ hostname parsed = Some EmptyString ->
       v pf url = Return false).
Proof.
  intros allowed v pf url Hv. rewrite (validator_shape _ _ Hv).
  unfold outbound_validator. repeat split.
  - intros e Hp He. rewrite Hp, He. reflexivity.
  - intros parsed Hp Hs. rewrite Hp. apply String.eqb_neq in Hs. rewrite Hs. reflexivity.
  - intros parsed Hp Hh. rewrite Hp.
    assert (truthy (hostname parsed) = false) as ->
      by (destruct Hh as [-> | ->]; reflexivity).
    simpl. rewrite orb_true_r. reflexivity.
Qed.

Lemma C4_witness :
  is_allowed_download_url (Scenario.resolving (Return [Scenario.public_v4]))
    "https://[archive.org/x.zip" = Return false /\
  is_allowed_download_url (Scenario.resolving (Return [Scenario.public_v4]))
    "http://archive.org/x.zip" = Return false /\
  is_allowed_upload_url (Scenario.resolving (Return [Scenario.public_v4]))
    "https:///x.zip" = Return false.
Proof.
  split; [|split].
  - apply (proj1 (C4_fails_closed_before_resolution _ _
             (Scenario.resolving (Return [Scenario.public_v4]))
             "https://[archive.org/x.zip" validator_download) ValueError);
      reflexivity.
  - apply (proj1 (proj2 (C4_fails_closed_before_resolution _ _
             (Scenario.resolving (Return [Scenario.public_v4]))
             "http://archive.org/x.zip" validator_download))
             {| scheme := "http"; hostname := Some "archive.org" |});
      [reflexivity | discriminate].
  - apply (proj2 (proj2 (C4_fails_closed_before_resolution _ _
             (Scenario.resolving (Return [Scenario.public_v4]))
             "https:///x.zip" validator_upload))
             {| scheme := "https"; hostname := None |});
      [reflexivity | left; reflexivity].
Defined.

(** ** C5 *)

(** C5, as stated, fails: a resolution of [archive.org] that fails with
    an [OSError] other than [socket.gaierror] (the resolver out of file
    descriptors, say) makes the validator raise that error; it does not
    return false. *)
Lemma C5_counterexample :
  getaddrinfo (Scenario.resolving (Raise OSError)) "archive.org" = Raise OSError /\
  is_allowed_download_url (Scenario.resolving (Raise OSError)) Scenario.mirror_url
    = Raise OSError /\
  is_allowed_download_url (Scenario.resolving (Raise OSError)) Scenario.mirror_url
    <> Return false.
Proof. vm_compute. repeat split. discriminate. Qed.

(** C5, amended. For either validator: on an https URL whose lowercased
    hostname is in the host set, a resolution that raises
    [socket.gaierror] makes the validator return false; a resolution
    that raises anything else makes the validator raise it. *)
Theorem C5_resolution_failure_rejected :
  forall allowed v pf url parsed h e,
    validator allowed v ->
    urlparse pf url = Return parsed ->
    scheme parsed = "https" ->
    hostname parsed = Some h ->
    lower h ∈ allowed ->
    getaddrinfo pf (lower h) = Raise e ->
    (issubclass e gaierror = true -> v pf url = Return false) /\
    (issubclass e gaierror = false -> v pf url = Raise e).
Proof.
  intros allowed v pf url parsed h e Hv Hp Hs Hh Hin Hg.
  rewrite (validator_shape _ _ Hv).
  rewrite (outbound_validator_resolves allowed pf url parsed h
             (validator_no_empty_host _ _ Hv) Hp Hs Hh Hin), Hg.
  split; intros ->; reflexivity.
Qed.

Lemma C5_witness :
  is_allowed_upload_url (Scenario.resolving (Raise gaierror)) Scenario.blob_url
    = Return false /\
  is_allowed_upload_url (Scenario.resolving (Raise OSError)) Scenario.blob_url
    = Raise OSError.
Proof.
  split.
  - apply (C5_resolution_failure_rejected ALLOWED_UPLOAD_HOSTS is_allowed_upload_url
             (Scenario.resolving (Raise gaierror)) Scenario.blob_url
             {| scheme := "https"; hostname := Some "blob.vercel-storage.com" |}
             "blob.vercel-storage.com" gaierror validator_upload eq_refl eq_refl eq_refl).
    + apply (bool_decide_unpack _). vm_compute. exact I.
    + reflexivity.
    + reflexivity.
  - apply (C5_resolution_failure_rejected ALLOWED_UPLOAD_HOSTS is_allowed_upload_url
             (Scenario.resolving (Raise OSError)) Scenario.blob_url
             {| scheme := "https"; hostname := Some "blob.vercel-storage.com" |}
             "blob.vercel-storage.com" OSError validator_upload eq_refl eq_refl eq_refl).
    + apply (bool_decide_unpack _). vm_compute. exact I.
    + reflexivity.
    + reflexivity.
Defined.

(** ** C10 *)

(** C10. For either validator: on an https URL whose lowercased hostname
    is in the host set, a resolution that succeeds with an empty list of
    addresses makes the validator return true. *)
Theorem C10_empty_resolution_accepted :
  forall allowed v pf url parsed h,
    validator allowed v ->
    urlparse pf url = Return parsed ->
    scheme parsed = "https" ->
    hostname parsed = Some h ->
    lower h ∈ allowed ->
    getaddrinfo pf (lower h) = Return [] ->
    v pf url = Return true.
Proof.
  intros allowed v pf url parsed h Hv Hp Hs Hh Hin Hg.
  rewrite (validator_shape _ _ Hv).
  rewrite (outbound_validator_resolves allowed pf url parsed h
             (validator_no_empty_host _ _ Hv) Hp Hs Hh Hin), Hg.
  reflexivity.
Qed.

Lemma C10_witness :
  is_allowed_download_url (Scenario.resolving (Return [])) Scenario.mirror_url
    = Return true.
Proof.
  apply (C10_empty_resolution_accepted ALLOWED_DOWNLOAD_HOSTS is_allowed_download_url
           (Scenario.resolving (Return [])) Scenario.mirror_url
           {| scheme := "https"; hostname := Some "archive.org" |}
           "archive.org" validator_download eq_refl eq_refl eq_refl).
  - apply (bool_decide_unpack _). vm_compute. exact I.
  - reflexivity.
Defined.

(** ** C8 *)

Lemma quiet_ret {A} (x : A) : quiet (mret x).
Proof. intros w. reflexivity. Qed.

Lemma quiet_lift {A} (r : result A) : quiet (lift r).
Proof. intros w. reflexivity. Qed.

Lemma quiet_bind {A B} (m : M A) (k : A -> M B) :
  quiet m -> (forall a, quiet (k a)) -> quiet (m ≫= k).
Proof.
  intros Hm Hk w. unfold mbind, M_bind. specialize (Hm w).
  destruct (m w) as [[a|e] w1]; simpl in *.
  - rewrite Hk. exact Hm.
  - exact Hm.
Qed.

Lemma quiet_handle {A} e (clauses : list (exn * M A)) :
  Forall (fun c => quiet (snd c)) clauses -> quiet (handle e clauses).
Proof.
  induction 1 as [|[c h] clauses Hh _ IH]; simpl.
  - apply quiet_lift.
  - destruct (issubclass e c); [exact Hh | exact IH].
Qed.

Lemma quiet_open pf dest mode : quiet (open_ pf dest mode).
Proof. intros w. unfold open_. destruct (os_error _ _ _), mode; reflexivity. Qed.

Lemma quiet_f_write pf dest chunk : quiet (f_write pf dest chunk).
Proof. intros w. unfold f_write. destruct (os_error _ _ _); reflexivity. Qed.

Lemma quiet_f_close pf dest : quiet (f_close pf dest).
Proof. intros w. unfold f_close. destruct (os_error _ _ _); reflexivity. Qed.

Lemma quiet_finally {A} (body : M A) (exit : M unit) :
  quiet body -> quiet exit -> quiet (finally_ body exit).
Proof.
  intros Hb He w. unfold finally_. specialize (Hb w).
  destruct (body w) as [r w1]. specialize (He w1).
  destruct (exit w1) as [[u|e] w2]; simpl in *; congruence.
Qed.

Lemma quiet_read_loop pf dest cs downloaded : quiet (read_loop pf dest cs downloaded).
Proof.
  revert downloaded. induction cs as [|c cs IH]; intros downloaded; simpl.
  - apply quiet_ret.
  - apply quiet_bind; [apply quiet_lift|]. intros [|b chunk].
    + apply quiet_ret.
    + apply quiet_bind; [apply quiet_f_write | intros _; apply IH].
Qed.

(** A guarded block that starts with [urlopen] issues exactly that
    request when the rest of the block and the handlers are quiet. *)
Lemma try_urlopen_net {A} pf req t (k : Response -> M A) clauses w :
  (forall resp, quiet (k resp)) ->
  Forall (fun c => quiet (snd c)) clauses ->
  net (snd (try_ (do_urlopen pf req t ≫= k) clauses w)) = (net w ++ [(req, t)])%list.
Proof.
  intros Hk Hc. unfold try_, mbind, M_bind, do_urlopen.
  destruct (urlopen pf req t) as [resp|e]; simpl.
  - specialize (Hk resp {| fs := fs w; net := (net w ++ [(req, t)])%list |}).
    destruct (k resp _) as [[a|e] w1]; simpl in *; [exact Hk|].
    rewrite (quiet_handle e clauses Hc). exact Hk.
  - rewrite (quiet_handle e clauses Hc). reflexivity.
Qed.

Lemma bind_lift {A B} (r : result A) (k : A -> M B) w :
  (lift r ≫= k) w = match r with Return a => k a w | Raise e => (Raise e, w) end.
Proof. destruct r; reflexivity. Qed.

Lemma download_file_rejected pf url dest sz w :
  is_allowed_download_url pf url = Return false ->
  download_file pf url dest sz w = (Return false, w).
Proof.
  intros H. unfold download_file. rewrite bind_lift, H. reflexivity.
Qed.

(** The network requests of a list of calls of [urlopen], call by call. *)
Lemma connections_app pf calls1 calls2 :
  connections pf (calls1 ++ calls2) =
  (connections pf calls1 ++ connections pf calls2)%list.
Proof. unfold connections. rewrite map_app, concat_app. reflexivity. Qed.

Lemma connections_one pf req t :
  connections pf [(req, t)] = requested_urls pf req.
Proof. unfold connections. cbn [map concat fst]. apply app_nil_r. Qed.

(** When the validator has accepted the URL, [download_file] hands one
    request to [urlopen]: a [GET] for that URL. *)
Lemma download_file_net_accepted pf url dest sz w :
  is_allowed_download_url pf url = Return true ->
  exists req, req_url req = url /\ follows_redirects req = true /\
    net (snd (download_file pf url dest sz w)) = (net w ++ [(req, 300)])%list.
Proof.
  intros Hv. unfold download_file. rewrite bind_lift, Hv. simpl.
  unfold mbind at 1, M_bind at 1, size_if_exists. cbv zeta.
  eexists. split; [| split; [| apply try_urlopen_net]].
  - reflexivity.
  - reflexivity.
  - intros resp. apply quiet_bind; [apply quiet_lift|]. intros total.
    apply quiet_bind; [apply quiet_open|]. intros _.
    apply quiet_bind; [|intros _; apply quiet_ret].
    apply quiet_finally; [apply quiet_read_loop | apply quiet_f_close].
  - repeat constructor; apply quiet_ret.
Qed.

(** [download_file] issues no request, or the validator accepted the URL
    and one request is handed to [urlopen]: a [GET] for that URL. *)
Lemma download_file_net_get pf url dest sz w :
  net (snd (download_file pf url dest sz w)) = net w \/
  (is_allowed_download_url pf url = Return true /\
   exists req, req_url req = url /\ follows_redirects req = true /\
     net (snd (download_file pf url dest sz w)) = (net w ++ [(req, 300)])%list).
Proof.
  destruct (is_allowed_download_url pf url) as [[|]|e] eqn:Hv.
  - right. split; [reflexivity|]. apply download_file_net_accepted. exact Hv.
  - left. unfold download_file. rewrite bind_lift, Hv. reflexivity.
  - left. unfold download_file. rewrite bind_lift, Hv. reflexivity.
Qed.

Lemma download_file_net pf url dest sz w :
  net (snd (download_file pf url dest sz w)) = net w \/
  (is_allowed_download_url pf url = Return true /\
   exists req, req_url req = url /\
     net (snd (download_file pf url dest sz w)) = (net w ++ [(req, 300)])%list).
Proof.
  destruct (download_file_net_get pf url dest sz w) as [H | (Hv & req & Hu & _ & H)];
    [left; exact H | right].
  split; [exact Hv|]. exists req. split; assumption.
Qed.

Lemma bind_read_file {B} p (k : bytes -> M B) w :
  (read_file p ≫= k) w =
  match fs w !! p with Some d => k d w | None => (Raise OSError, w) end.
Proof. unfold mbind, M_bind, read_file. destruct (fs w !! p); reflexivity. Qed.

Lemma upload_file_rejected pf pdf_path data w :
  fs w !! pdf_path = Some data ->
  is_allowed_upload_url pf (upload_url pdf_path) = Return false ->
  upload_file pf pdf_path w = (Return None, w).
Proof.
  intros Hf H. unfold upload_file. fold (upload_url pdf_path).
  rewrite bind_read_file, Hf, bind_lift, H. reflexivity.
Qed.

Lemma quiet_try {A} (m : M A) clauses :
  quiet m -> Forall (fun c => quiet (snd c)) clauses -> quiet (try_ m clauses).
Proof.
  intros Hm Hc w. unfold try_. specialize (Hm w).
  destruct (m w) as [[a|e] w1]; simpl in *; [exact Hm|].
  rewrite (quiet_handle e clauses Hc). exact Hm.
Qed.

(** [upload_file] issues no request, or the validator accepted the URL
    and one request is handed to [urlopen]: a [PUT] for that URL, which
    [urlopen] does not redirect. *)
Lemma upload_file_net_put pf pdf_path w :
  net (snd (upload_file pf pdf_path w)) = net w \/
  (is_allowed_upload_url pf (upload_url pdf_path) = Return true /\
   exists req, req_url req = upload_url pdf_path /\ follows_redirects req = false /\
     net (snd (upload_file pf pdf_path w)) = (net w ++ [(req, 120)])%list).
Proof.
  unfold upload_file. fold (upload_url pdf_path). rewrite bind_read_file.
  destruct (fs w !! pdf_path) as [data|]; [|left; reflexivity].
  rewrite bind_lift.
  destruct (is_allowed_upload_url pf (upload_url pdf_path)) as [[|]|e] eqn:Hv; simpl;
    [| left; reflexivity | left; reflexivity].
  right. split; [reflexivity|].
  eexists. split; [| split; [| apply try_urlopen_net]].
  - reflexivity.
  - reflexivity.
  - intros resp. apply quiet_bind; [apply quiet_lift|]. intros u. apply quiet_ret.
  - constructor; [|repeat constructor; apply quiet_ret].
    apply quiet_bind; [|intros _; apply quiet_ret].
    apply quiet_try; [|repeat constructor; apply quiet_ret].
    apply quiet_bind; [apply quiet_lift | intros _; apply quiet_ret].
Qed.

Lemma upload_file_net pf pdf_path w :
  net (snd (upload_file pf pdf_path w)) = net w \/
  (is_allowed_upload_url pf (upload_url pdf_path) = Return true /\
   exists req, req_url req = upload_url pdf_path /\
     net (snd (upload_file pf pdf_path w)) = (net w ++ [(req, 120)])%list).
Proof.
  destruct (upload_file_net_put pf pdf_path w) as [H | (Hv & req & Hu & _ & H)];
    [left; exact H | right].
  split; [exact Hv|]. exists req. split; assumption.
Qed.

(** C8, as stated, fails at the level of the network. [download_file]
    validates the URL it is given and hands it to [urlopen]; [urlopen]
    follows the redirect of the answer and requests the target, which
    the validator never saw: here the mirror's plain-HTTP address,
    which the validator rejects. *)
Lemma C8_counterexample :
  is_allowed_download_url Scenario.redirecting Scenario.mirror_url = Return true /\
  connections Scenario.redirecting
    (net (snd (download_file Scenario.redirecting Scenario.mirror_url
                 Scenario.zip_path 1230 Scenario.empty_world)))
    = [Scenario.mirror_url; "http://archive.org/x.zip"] /\
  is_allowed_download_url Scenario.redirecting "http://archive.org/x.zip"
    = Return false.
Proof. vm_compute. repeat split. Qed.

(** C8, amended. A request is handed to [urlopen] only after the
    validator has returned true for its URL. In [download_file] and in
    [upload_file], when the validator returns false the function returns
    its failure value ([False], [None]) and leaves the world as it was:
    no request has gone out. In every run the requests handed to
    [urlopen] so far are unchanged, or the validator returned true and
    the one request appended is for the validated URL. Over the network,
    the [GET] of [download_file] is followed by the requests for the
    redirect targets, which are not validated; the [PUT] of
    [upload_file] is the only request of its call. *)
Theorem C8_request_only_after_validation :
  forall pf w,
    (forall url dest sz,
       (is_allowed_download_url pf url = Return false ->
        download_file pf url dest sz w = (Return false, w)) /\
       (net (snd (download_file pf url dest sz w)) = net w \/
        (is_allowed_download_url pf url = Return true /\
         exists req, req_url req = url /\
           net (snd (download_file pf url dest sz w)) = (net w ++ [(req, 300)])%list /\
           connections pf (net (snd (download_file pf url dest sz w)))
           = (connections pf (net w) ++ url :: redirects pf req)%list))) /\
    (forall pdf_path,
       (forall data, fs w !! pdf_path = Some data ->
        is_allowed_upload_url pf (upload_url pdf_path) = Return false ->
        upload_file pf pdf_path w = (Return None, w)) /\
       (net (snd (upload_file pf pdf_path w)) = net w \/
        (is_allowed_upload_url pf (upload_url pdf_path) = Return true /\
         exists req, req_url req = upload_url pdf_path /\
           net (snd (upload_file pf pdf_path w)) = (net w ++ [(req, 120)])%list /\
           connections pf (net (snd (upload_file pf pdf_path w)))
           = (connections pf (net w) ++ [upload_url pdf_path])%list))).
Proof.
  intros pf w. split.
  - intros url dest sz. split.
    + apply download_file_rejected.
    + destruct (download_file_net_get pf url dest sz w)
        as [H | (Hv & req & Hu & Hget & H)]; [left; exact H | right].
      split; [exact Hv|]. exists req. repeat split; try assumption.
      rewrite H, connections_app, connections_one.
      unfold requested_urls. rewrite Hget, Hu. reflexivity.
  - intros pdf_path. split.
    + intros data. apply upload_file_rejected.
    + destruct (upload_file_net_put pf pdf_path w)
        as [H | (Hv & req & Hu & Hput & H)]; [left; exact H | right].
      split; [exact Hv|]. exists req. repeat split; try assumption.
      rewrite H, connections_app, connections_one.
      unfold requested_urls. rewrite Hput, Hu. reflexivity.
Qed.

(** Scenario of C8: the mirror resolves to the loopback address, and
    [download_file] gives up before any request. *)
Lemma C8_witness :
  download_file (Scenario.resolving (Return [Scenario.loopback_v4]))
    Scenario.mirror_url ("/", ["downloads"; "DataSet_1.zip"]) 1230
    {| fs := ∅; net := [] |}
  = (Return false, {| fs := ∅; net := [] |}).
Proof.
  apply (proj1 (proj1 (C8_request_only_after_validation
           (Scenario.resolving (Return [Scenario.loopback_v4]))
           {| fs := ∅; net := [] |})
           Scenario.mirror_url ("/", ["downloads"; "DataSet_1.zip"]) 1230)).
  vm_compute. reflexivity.
Defined.

(** ** Helper lemmas: strings and paths *)

Lemma lower_ascii_sep c : Ascii.eqb (lower_ascii c) "/" = Ascii.eqb c "/".
Proof.
  destruct c as [[] [] [] [] [] [] [] []]; vm_compute; reflexivity.
Qed.

Lemma has_sep_lower s : has_sep (lower s) = has_sep s.
Proof.
  induction s as [|c s IH]; simpl; [reflexivity|].
  rewrite lower_ascii_sep, IH. reflexivity.
Qed.

Lemma split_sep_not_nil s : pathlib.split_sep s <> [].
Proof.
  destruct s as [|c s]; simpl; [discriminate|].
  destruct (Ascii.eqb c "/"); [discriminate|].
  destruct (pathlib.split_sep s); discriminate.
Qed.

Lemma split_sep_whole s : has_sep s = false -> pathlib.split_sep s = [s].
Proof.
  induction s as [|c s IH]; simpl; [reflexivity|].
  intros H. apply orb_false_iff in H as [Hc Hs].
  rewrite Hc, (IH Hs). reflexivity.
Qed.

Lemma split_sep_parts s x : x ∈ pathlib.split_sep s -> has_sep x = false.
Proof.
  revert x. induction s as [|c s IH]; simpl; intros x Hx.
  - apply list_elem_of_singleton in Hx as ->. reflexivity.
  - destruct (Ascii.eqb c "/") eqn:Hc.
    + apply elem_of_cons in Hx as [-> | Hx]; [reflexivity | auto].
    + destruct (pathlib.split_sep s) as [|h t] eqn:Hsp.
      * apply list_elem_of_singleton in Hx as ->. simpl. rewrite Hc. reflexivity.
      * apply elem_of_cons in Hx as [-> | Hx].
        -- simpl. rewrite Hc. apply IH. apply list_elem_of_here.
        -- apply IH. apply list_elem_of_further. exact Hx.
Qed.

Lemma endswith_cons c s suf :
  endswith (String c s) suf = String.eqb (String c s) suf || endswith s suf.
Proof. reflexivity. Qed.

Lemma lower_cons c s : lower (String c s) = String (lower_ascii c) (lower s).
Proof. reflexivity. Qed.

Lemma last_cons_not_nil {A} (x : A) l d : l <> [] -> List.last (x :: l) d = List.last l d.
Proof. destruct l; [congruence | reflexivity]. Qed.

Lemma last_elem_of {A} (l : list A) d : l <> [] -> List.last l d ∈ l.
Proof.
  induction l as [|x l IH]; [congruence|]. intros _.
  destruct l as [|y l'].
  - apply list_elem_of_here.
  - apply list_elem_of_further. apply IH. discriminate.
Qed.

(** The component after the last separator keeps the [".pdf"] ending. *)
Lemma last_component_pdf s :
  endswith (lower s) ".pdf" = true ->
  endswith (lower (List.last (pathlib.split_sep s) EmptyString)) ".pdf" = true.
Proof.
  induction s as [|c s IH]; [discriminate|].
  intros H. rewrite lower_cons, endswith_cons in H.
  apply orb_true_iff in H as [Heq | Htail].
  - assert (has_sep (String c s) = false) as Hsep.
    { rewrite <- has_sep_lower, lower_cons.
      apply String.eqb_eq in Heq. rewrite Heq. reflexivity. }
    rewrite (split_sep_whole _ Hsep).
    change (List.last [String c s] EmptyString) with (String c s).
    rewrite lower_cons, endswith_cons, Heq. reflexivity.
  - specialize (IH Htail).
    change (pathlib.split_sep (String c s)) with
      (if Ascii.eqb c "/" then EmptyString :: pathlib.split_sep s
       else match pathlib.split_sep s with
            | [] => [String c EmptyString]
            | h :: t => String c h :: t
            end).
    destruct (Ascii.eqb c "/").
    + rewrite last_cons_not_nil by apply split_sep_not_nil. exact IH.
    + destruct (pathlib.split_sep s) as [|h t] eqn:Hsp.
      * exfalso. exact (split_sep_not_nil s Hsp).
      * destruct t as [|h' t'].
        -- change (List.last [h] EmptyString) with h in IH.
           change (List.last [String c h] EmptyString) with (String c h).
           rewrite lower_cons, endswith_cons, IH. apply orb_true_r.
        -- exact IH.
Qed.

Lemma last_filter {A} (P : A -> Prop) `{forall x, Decision (P x)} (l : list A) d :
  l <> [] -> P (List.last l d) -> List.last (filter P l) d = List.last l d.
Proof.
  induction l as [|x l IH]; [congruence|]. intros _ HP.
  destruct l as [|y l'].
  - simpl in HP. rewrite filter_cons_True by exact HP. reflexivity.
  - change (List.last (x :: y :: l') d) with (List.last (y :: l') d) in HP |- *.
    assert (List.last (filter P (y :: l')) d = List.last (y :: l') d) as Hrec
      by (apply IH; [discriminate | exact HP]).
    assert (filter P (y :: l') <> []) as Hne.
    { intros Hnil. rewrite Hnil in Hrec. simpl in Hrec.
      assert (List.last (y :: l') d ∈ filter P (y :: l')) as Hin.
      { apply list_elem_of_filter. split; [exact HP|].
        apply last_elem_of. discriminate. }
      rewrite Hnil in Hin. inversion Hin. }
    destruct (decide (P x)).
    + rewrite filter_cons_True by assumption.
      rewrite last_cons_not_nil by exact Hne. exact Hrec.
    + rewrite filter_cons_False by assumption. exact Hrec.
Qed.

Lemma pdf_name_is_file n :
  endswith (lower n) ".pdf" = true -> n <> EmptyString /\ n <> "." /\ n <> "..".
Proof.
  intros H. repeat split; intros ->; vm_compute in H; discriminate.
Qed.

(** The name of a member that ends in [".pdf"]: the text after its last
    separator, a file name. *)
Lemma pdf_member_name member :
  endswith (lower member) ".pdf" = true ->
  pathlib.name (pathlib.PurePath member) = List.last (pathlib.split_sep member) EmptyString /\
  endswith (lower (pathlib.name (pathlib.PurePath member))) ".pdf" = true /\
  has_sep (pathlib.name (pathlib.PurePath member)) = false.
Proof.
  intros H. pose proof (last_component_pdf member H) as Hlast.
  destruct (pdf_name_is_file _ Hlast) as (Hne & Hdot & _).
  assert (pathlib.name (pathlib.PurePath member)
          = List.last (pathlib.split_sep member) EmptyString) as Hname.
  { unfold pathlib.name, pathlib.PurePath. simpl snd.
    apply last_filter; [apply split_sep_not_nil|].
    unfold pathlib.is_part. apply String.eqb_neq in Hne, Hdot.
    rewrite Hne, Hdot. reflexivity. }
  rewrite Hname. repeat split; [exact Hlast|].
  apply (split_sep_parts member). apply last_elem_of, split_sep_not_nil.
Qed.

Lemma splitroot_no_sep n : has_sep n = false -> pathlib.splitroot n = EmptyString.
Proof.
  destruct n as [|c n]; [reflexivity|]. simpl. intros H.
  apply orb_false_iff in H as [Hc _].
  destruct c as [[] [] [] [] [] [] [] []]; try reflexivity. discriminate Hc.
Qed.

(** Joining a directory with a file name appends one component. *)
Lemma joinpath_file_name d n :
  has_sep n = false -> n <> EmptyString -> n <> "." ->
  pathlib.joinpath d n = (fst d, (snd d ++ [n])%list).
Proof.
  intros Hsep Hne Hdot. unfold pathlib.joinpath, pathlib.PurePath. simpl fst. simpl snd.
  rewrite (splitroot_no_sep n Hsep), (split_sep_whole n Hsep). simpl negb. cbv iota.
  rewrite filter_cons_True.
  - reflexivity.
  - unfold pathlib.is_part. apply String.eqb_neq in Hne, Hdot.
    rewrite Hne, Hdot. reflexivity.
Qed.

Lemma pdf_member_direct_child d member :
  endswith (lower member) ".pdf" = true ->
  direct_child d (pathlib.joinpath d (pathlib.name (pathlib.PurePath member))).
Proof.
  intros H. destruct (pdf_member_name member H) as (_ & Hpdf & Hsep).
  destruct (pdf_name_is_file _ Hpdf) as (Hne & Hdot & Hdd).
  exists (pathlib.name (pathlib.PurePath member)).
  split; [apply joinpath_file_name; assumption|]. repeat split; assumption.
Qed.

(** ** C9 *)

Lemma issubclass_Exception e : issubclass e Exception = true.
Proof. destruct e; reflexivity. Qed.

(** One turn of the loop of [extract_pdfs]. *)
Lemma extract_loop_cons pf zf dest_dir member rest count w :
  extract_loop pf zf dest_dir (member :: rest) count w =
  if endswith (lower member) ".pdf" then
    let dest_path := pathlib.joinpath dest_dir (pathlib.name (pathlib.PurePath member)) in
    if String.eqb (pathlib.name (pathlib.PurePath member)) EmptyString
    then extract_loop pf zf dest_dir rest count w
    else match os_error pf (fs w) (op_exists dest_path) with
         | Some e => (Raise e, w)
         | None =>
             if bool_decide (is_Some (fs w !! dest_path))
             then extract_loop pf zf dest_dir rest count w
             else match zf_read zf member with
                  | Return data =>
                      match os_error pf (fs w) (op_write_bytes dest_path data) with
                      | Some _ => extract_loop pf zf dest_dir rest count w
                      | None =>
                          extract_loop pf zf dest_dir rest (count + 1)
                            {| fs := <[dest_path := data]> (fs w); net := net w |}
                      end
                  | Raise _ => extract_loop pf zf dest_dir rest count w
                  end
         end
  else extract_loop pf zf dest_dir rest count w.
Proof.
  simpl extract_loop. destruct (endswith (lower member) ".pdf"); [|reflexivity].
  cbv zeta. destruct (String.eqb _ EmptyString); [reflexivity|].
  unfold mbind at 1, M_bind at 1, exists_or_raise.
  destruct (os_error pf (fs w) (op_exists _)); [reflexivity|].
  destruct (bool_decide _); [reflexivity|].
  unfold mbind at 1, M_bind at 1, try_. rewrite bind_lift.
  destruct (zf_read zf member) as [data|e].
  - unfold mbind at 1, M_bind at 1, write_bytes.
    destruct (os_error pf (fs w) (op_write_bytes _ _)); [|reflexivity].
    simpl handle. rewrite issubclass_Exception. reflexivity.
  - simpl handle. rewrite issubclass_Exception. reflexivity.
Qed.

(** What a run of the loop does to the files: a path keeps its content,
    or it was free and now holds the content of a ".pdf" member whose
    name is its last component. The loop issues no request. *)
Lemma extract_loop_spec pf zf dest_dir members count w :
  net (snd (extract_loop pf zf dest_dir members count w)) = net w /\
  forall p,
    fs (snd (extract_loop pf zf dest_dir members count w)) !! p = fs w !! p \/
    (fs w !! p = None /\
     exists member data,
       member ∈ members /\
       endswith (lower member) ".pdf" = true /\
       p = pathlib.joinpath dest_dir (pathlib.name (pathlib.PurePath member)) /\
       zf_read zf member = Return data /\
       fs (snd (extract_loop pf zf dest_dir members count w)) !! p = Some data).
Proof.
  revert count w. induction members as [|member rest IH]; intros count w.
  - simpl. split; [reflexivity|]. intros p. left. reflexivity.
  - rewrite extract_loop_cons.
    assert (forall c,
      net (snd (extract_loop pf zf dest_dir rest c w)) = net w /\
      forall p,
        fs (snd (extract_loop pf zf dest_dir rest c w)) !! p = fs w !! p \/
        (fs w !! p = None /\
         exists m data,
           m ∈ member :: rest /\
           endswith (lower m) ".pdf" = true /\
           p = pathlib.joinpath dest_dir (pathlib.name (pathlib.PurePath m)) /\
           zf_read zf m = Return data /\
           fs (snd (extract_loop pf zf dest_dir rest c w)) !! p = Some data)) as Hskip.
    { intros c. destruct (IH c w) as (Hnet & Hfs).
      split; [exact Hnet|]. intros p.
      destruct (Hfs p) as [Hsame | (Hnone & m & data & Hin & Hpdf & Hp & Hread & Hnew)];
        [left; exact Hsame|].
      right. split; [exact Hnone|]. exists m, data.
      split; [apply list_elem_of_further; exact Hin|]. tauto. }
    destruct (endswith (lower member) ".pdf") eqn:Hpdf; [|apply Hskip].
    cbv zeta. destruct (String.eqb _ EmptyString); [apply Hskip|].
    destruct (os_error pf (fs w) (op_exists _)).
    { split; [reflexivity|]. intros p. left. reflexivity. }
    destruct (bool_decide _) eqn:Hex; [apply Hskip|].
    destruct (zf_read zf member) as [data|e] eqn:Hread; [|apply Hskip].
    destruct (os_error pf (fs w) (op_write_bytes _ _)); [apply Hskip|].
    apply bool_decide_eq_false_1 in Hex.
    assert (fs w !! pathlib.joinpath dest_dir (pathlib.name (pathlib.PurePath member)) = None)
      as Hfree by (apply eq_None_not_Some; exact Hex).
    set (dest_path := pathlib.joinpath dest_dir (pathlib.name (pathlib.PurePath member))) in *.
    set (w1 := {| fs := <[dest_path := data]> (fs w); net := net w |}).
    destruct (IH (count + 1) w1) as (Hnet & Hfs).
    split; [exact Hnet|]. intros p.
    destruct (Hfs p) as [Hsame | (Hnone & m & d & Hin & Hm & Hp & Hr & Hnew)].
    + destruct (decide (p = dest_path)) as [-> | Hne].
      * right. split; [exact Hfree|]. exists member, data.
        split; [apply list_elem_of_here|]. split; [exact Hpdf|]. split; [reflexivity|].
        split; [exact Hread|]. rewrite Hsame. simpl. apply lookup_insert_eq.
      * left. rewrite Hsame. simpl. apply lookup_insert_ne. congruence.
    + right. simpl in Hnone.
      destruct (decide (p = dest_path)) as [-> | Hne].
      * rewrite lookup_insert_eq in Hnone. discriminate.
      * rewrite lookup_insert_ne in Hnone by congruence.
        split; [exact Hnone|]. exists m, d.
        split; [apply list_elem_of_further; exact Hin|]. tauto.
Qed.

Lemma extract_loop_keeps_files pf zf dest_dir members count w p data :
  fs w !! p = Some data ->
  fs (snd (extract_loop pf zf dest_dir members count w)) !! p = Some data.
Proof.
  intros H. destruct (extract_loop_spec pf zf dest_dir members count w) as (_ & Hfs).
  destruct (Hfs p) as [Hsame | (Hnone & _)]; congruence.
Qed.

(** The loop over [before ++ after] is the loop over [after], started
    where the loop over [before] ends; it stops where the loop over
    [before] stops with an exception. *)
Lemma extract_loop_app pf zf dest_dir before after count w :
  extract_loop pf zf dest_dir (before ++ after) count w =
  match extract_loop pf zf dest_dir before count w with
  | (Return count', w') => extract_loop pf zf dest_dir after count' w'
  | (Raise e, w') => (Raise e, w')
  end.
Proof.
  revert count w. induction before as [|member rest IH]; intros count w.
  - reflexivity.
  - change ((member :: rest) ++ after)%list with (member :: (rest ++ after))%list.
    rewrite !extract_loop_cons.
    destruct (endswith (lower member) ".pdf"); [|apply IH].
    cbv zeta. destruct (String.eqb _ EmptyString); [apply IH|].
    destruct (os_error pf (fs w) (op_exists _)); [reflexivity|].
    destruct (bool_decide _); [apply IH|].
    destruct (zf_read zf member); [|apply IH].
    destruct (os_error pf (fs w) (op_write_bytes _ _)); apply IH.
Qed.

(** C9. [extract_pdfs] writes a member only to [dest_dir] joined with
    the final component of the member's name, and that path is an entry
    of [dest_dir] itself, whatever separators or [".."] the member name
    contains; a member whose final component is empty is skipped; a
    path that holds a file, from before the run or written earlier in
    it, keeps its content. *)
Theorem C9_extract_pdfs_writes_inside_dest_dir :
  forall pf zip_path dest_dir dataset_num w,
    (forall p,
       fs (snd (extract_pdfs pf zip_path dest_dir dataset_num w)) !! p <> fs w !! p ->
       fs w !! p = None /\
       exists zf member data,
         zipfile_ZipFile pf zip_path = Return zf /\
         member ∈ namelist zf /\
         zf_read zf member = Return data /\
         fs (snd (extract_pdfs pf zip_path dest_dir dataset_num w)) !! p = Some data /\
         p = pathlib.joinpath dest_dir (pathlib.name (pathlib.PurePath member)) /\
         direct_child dest_dir p) /\
    (forall p data,
       fs w !! p = Some data ->
       fs (snd (extract_pdfs pf zip_path dest_dir dataset_num w)) !! p = Some data) /\
    (forall zf before after p data,
       zipfile_ZipFile pf zip_path = Return zf ->
       namelist zf = (before ++ after)%list ->
       fs (snd (extract_loop pf zf dest_dir before 0 w)) !! p = Some data ->
       fs (snd (extract_pdfs pf zip_path dest_dir dataset_num w)) !! p = Some data) /\
    (forall zf member rest count w0,
       pathlib.name (pathlib.PurePath member) = EmptyString ->
       extract_loop pf zf dest_dir (member :: rest) count w0 =
       extract_loop pf zf dest_dir rest count w0).
Proof.
  intros pf zip_path dest_dir dataset_num w.
  unfold extract_pdfs. rewrite bind_lift.
  destruct (zipfile_ZipFile pf zip_path) as [zf|e] eqn:Hzip.
  - destruct (extract_loop_spec pf zf dest_dir (namelist zf) 0 w) as (_ & Hfs).
    repeat split.
    + destruct (Hfs p) as [Hsame | (Hnone & _)]; [contradiction | exact Hnone].
    + destruct (Hfs p) as [Hsame | (_ & member & data & Hin & Hpdf & Hp & Hread & Hnew)];
        [contradiction|].
      exists zf, member, data. repeat split; try assumption.
      rewrite Hp. apply pdf_member_direct_child. exact Hpdf.
    + intros p data. apply extract_loop_keeps_files.
    + intros zf' before after p data [= <-] Hsplit Hp.
      rewrite Hsplit, extract_loop_app.
      destruct (extract_loop pf zf dest_dir before 0 w) as [[c|e] w1]; simpl in Hp.
      * apply extract_loop_keeps_files. exact Hp.
      * exact Hp.
    + intros zf' member rest count w0 Hname. rewrite extract_loop_cons, Hname.
      destruct (endswith (lower member) ".pdf"); reflexivity.
  - repeat split.
    + simpl in H. contradiction.
    + simpl in H. contradiction.
    + intros p data Hp. exact Hp.
    + intros zf before after p data [=].
    + intros zf' member rest count w0 Hname. rewrite extract_loop_cons, Hname.
      destruct (endswith (lower member) ".pdf"); reflexivity.
Qed.

(** ** C7 *)

Module RateLimiterFacts.
Import RateLimiter.

Lemma state_of_insert store key c :
  state_of (<[key := c]> store) key = Active (count c) (window_start c).
Proof. unfold state_of. rewrite lookup_insert_eq. reflexivity. Qed.

(** The step relation is a function of the state and the time. *)
Lemma step_deterministic window_seconds max_requests now s d1 s1 d2 s2 :
  step window_seconds max_requests now s d1 s1 ->
  step window_seconds max_requests now s d2 s2 ->
  d1 = d2 /\ s1 = s2.
Proof.
  intros H1 H2. inversion H1; subst; inversion H2; subst;
    try (split; reflexivity); lia.
Qed.

Lemma check_and_increment_step key window_seconds max_requests now store :
  step window_seconds max_requests now (state_of store key)
    (fst (check_and_increment key window_seconds max_requests now store))
    (state_of (snd (check_and_increment key window_seconds max_requests now store)) key).
Proof.
  unfold check_and_increment, state_of at 1.
  destruct (store !! key) as [c|] eqn:Hc.
  - destruct (Z.leb_spec window_seconds (now - window_start c)).
    + simpl. rewrite state_of_insert. simpl. apply step_reset. lia.
    + destruct (Z.ltb_spec (count c) max_requests).
      * simpl. rewrite state_of_insert. simpl. apply step_increment; lia.
      * simpl. unfold state_of. rewrite Hc. apply step_reject; lia.
  - simpl. rewrite state_of_insert. simpl. apply step_create.
Qed.

Lemma check_and_increment_other key window_seconds max_requests now store k :
  k <> key ->
  snd (check_and_increment key window_seconds max_requests now store) !! k = store !! k.
Proof.
  intros Hk. unfold check_and_increment.
  destruct (store !! key) as [c|].
  - destruct (window_seconds <=? now - window_start c); simpl;
      [apply lookup_insert_ne; congruence|].
    destruct (count c <? max_requests); simpl;
      [apply lookup_insert_ne; congruence | reflexivity].
  - simpl. apply lookup_insert_ne. congruence.
Qed.

Lemma check_and_increment_rejected key window_seconds max_requests now store :
  fst (check_and_increment key window_seconds max_requests now store) = RateLimited ->
  snd (check_and_increment key window_seconds max_requests now store) = store.
Proof.
  unfold check_and_increment.
  destruct (store !! key) as [c|]; [|discriminate].
  destruct (window_seconds <=? now - window_start c); [discriminate|].
  destruct (count c <? max_requests); [discriminate | reflexivity].
Qed.

(** Calls inside a running window: admitted while the count is under
    the limit, rejected from then on. *)
Lemma calls_in_window key window_seconds max_requests times :
  forall store c,
    store !! key = Some c ->
    Forall (fun t => t - window_start c < window_seconds) times ->
    fst (calls key window_seconds max_requests times store) =
      (replicate (Nat.min (length times) (Z.to_nat (max_requests - count c))) Allowed
       ++ replicate (length times - Z.to_nat (max_requests - count c)) RateLimited)%list.
Proof.
  induction times as [|now rest IH]; intros store c Hc Hin.
  - reflexivity.
  - apply Forall_cons in Hin as [Hnow Hrest].
    simpl calls. unfold check_and_increment. rewrite Hc.
    destruct (Z.leb_spec window_seconds (now - window_start c)); [lia|].
    destruct (Z.ltb_spec (count c) max_requests).
    + match goal with |- context [calls _ _ _ _ ?st] =>
        specialize (IH st _ (lookup_insert_eq _ _ _) Hrest);
        destruct (calls key window_seconds max_requests rest st) as [ds st'] end.
      simpl in IH |- *. rewrite IH.
      replace (Z.to_nat (max_requests - count c))
        with (S (Z.to_nat (max_requests - (count c + 1)))) by lia.
      reflexivity.
    + specialize (IH store c Hc Hrest).
      destruct (calls key window_seconds max_requests rest store) as [ds st'].
      simpl in IH |- *. rewrite IH.
      replace (Z.to_nat (max_requests - count c)) with 0%nat by lia.
      rewrite !Nat.min_0_r, !Nat.sub_0_r. reflexivity.
Qed.

(** The first call of a window is admitted and leaves a count of one. *)
Lemma first_call_opens key window_seconds max_requests t0 store :
  window_opens store key window_seconds t0 ->
  check_and_increment key window_seconds max_requests t0 store =
    (Allowed, <[key := {| count := 1; window_start := t0 |}]> store).
Proof.
  unfold window_opens, check_and_increment.
  destruct (store !! key) as [c|]; [|reflexivity].
  intros H. destruct (Z.leb_spec window_seconds (t0 - window_start c)); [reflexivity | lia].
Qed.

Lemma calls_from_window_start key window_seconds max_requests t0 rest store :
  1 <= max_requests ->
  window_opens store key window_seconds t0 ->
  Forall (fun t => t - t0 < window_seconds) rest ->
  fst (calls key window_seconds max_requests (t0 :: rest) store) =
    (replicate (Nat.min (S (length rest)) (Z.to_nat max_requests)) Allowed
     ++ replicate (S (length rest) - Z.to_nat max_requests) RateLimited)%list.
Proof.
  intros Hmax Hopen Hin. simpl calls.
  rewrite (first_call_opens _ _ _ _ _ Hopen).
  pose proof (calls_in_window key window_seconds max_requests rest
                (<[key := {| count := 1; window_start := t0 |}]> store)
                {| count := 1; window_start := t0 |}
                (lookup_insert_eq _ _ _) Hin) as Hrest.
  destruct (calls key window_seconds max_requests rest _) as [ds st'].
  simpl in Hrest |- *. rewrite Hrest.
  replace (Z.to_nat max_requests) with (S (Z.to_nat (max_requests - 1))) by lia.
  reflexivity.
Qed.

End RateLimiterFacts.

(** C7. For every key, store and time, a call of the limiter is a step
    of the per-key state machine and the only one: from [NoEntry] the
    call is allowed and creates [Active 1 now]; from [Active count
    window_start] it is allowed and restarts at [Active 1 now] when
    [now - window_start >= window_seconds], else allowed with
    [Active (count + 1) window_start] when [count < max_requests], else
    rejected with the state as it was. A rejected call leaves the whole
    store unchanged, and no call touches another key. *)
Theorem C7_limiter_is_the_state_machine :
  forall key window_seconds max_requests now store,
    RateLimiter.step window_seconds max_requests now
      (RateLimiter.state_of store key)
      (fst (RateLimiter.check_and_increment key window_seconds max_requests now store))
      (RateLimiter.state_of
         (snd (RateLimiter.check_and_increment key window_seconds max_requests now store))
         key) /\
    (forall d s',
       RateLimiter.step window_seconds max_requests now
         (RateLimiter.state_of store key) d s' ->
       d = fst (RateLimiter.check_and_increment key window_seconds max_requests now store) /\
       s' = RateLimiter.state_of
              (snd (RateLimiter.check_and_increment key window_seconds max_requests now store))
              key) /\
    (fst (RateLimiter.check_and_increment key window_seconds max_requests now store)
       = RateLimiter.RateLimited ->
     snd (RateLimiter.check_and_increment key window_seconds max_requests now store) = store) /\
    (forall k, k <> key ->
       snd (RateLimiter.check_and_increment key window_seconds max_requests now store) !! k
       = store !! k).
Proof.
  intros key window_seconds max_requests now store.
  split; [apply RateLimiterFacts.check_and_increment_step|].
  split.
  - intros d s' Hstep.
    apply (RateLimiterFacts.step_deterministic _ _ _ _ _ _ _ _ Hstep
             (RateLimiterFacts.check_and_increment_step key window_seconds max_requests now store)).
  - split.
    + apply RateLimiterFacts.check_and_increment_rejected.
    + intros k. apply RateLimiterFacts.check_and_increment_other.
Qed.

(** ** C6 *)

(** C6, as stated, fails for a limit of zero: the first call of a
    window is admitted whatever the limit, so with [max_requests = 0]
    one call succeeds, not none, and it is the second call, not the
    first, that is rejected. *)
Lemma C6_counterexample :
  RateLimiter.window_opens ∅ "report:alice" 60 100 /\
  fst (RateLimiter.calls "report:alice" 60 0 [100; 101] ∅)
    = [RateLimiter.Allowed; RateLimiter.RateLimited].
Proof. split; [exact I | vm_compute; reflexivity]. Qed.

(** C6, amended. With a limit of at least one: when a window opens at
    the first of a series of calls for one key and every call of the
    series falls inside that window, the calls numbered below
    [max_requests] are allowed and every later one, the
    [(max_requests + 1)]-th first, is rejected. An allowed call is
    answered with status 200 or 503, a rejected one with 429. *)
Theorem C6_limit_per_window :
  forall key window_seconds max_requests t0 rest store,
    1 <= max_requests ->
    RateLimiter.window_opens store key window_seconds t0 ->
    Forall (fun t => t - t0 < window_seconds) (t0 :: rest) ->
    let decisions :=
      fst (RateLimiter.calls key window_seconds max_requests (t0 :: rest) store) in
    length decisions = S (length rest) /\
    (forall i, (i < S (length rest))%nat -> (i < Z.to_nat max_requests)%nat ->
       decisions !! i = Some RateLimiter.Allowed) /\
    (forall i, (i < S (length rest))%nat -> (Z.to_nat max_requests <= i)%nat ->
       decisions !! i = Some RateLimiter.RateLimited) /\
    (forall h, RateLimiter.http_status RateLimiter.Allowed h = 200 \/
               RateLimiter.http_status RateLimiter.Allowed h = 503) /\
    (forall h, RateLimiter.http_status RateLimiter.RateLimited h = 429).
Proof.
  intros key window_seconds max_requests t0 rest store Hmax Hopen Hin decisions.
  apply Forall_cons in Hin as [_ Hin].
  assert (decisions =
    (replicate (Nat.min (S (length rest)) (Z.to_nat max_requests)) RateLimiter.Allowed
     ++ replicate (S (length rest) - Z.to_nat max_requests) RateLimiter.RateLimited)%list)
    as Hd by (apply RateLimiterFacts.calls_from_window_start; assumption).
  rewrite Hd. split; [|split; [|split; [|split]]].
  - rewrite length_app, !length_replicate. lia.
  - intros i Hi Hlt. rewrite lookup_app_l by (rewrite length_replicate; lia).
    apply lookup_replicate_2. lia.
  - intros i Hi Hge. rewrite lookup_app_r by (rewrite length_replicate; lia).
    apply lookup_replicate_2. rewrite length_replicate. lia.
  - intros []; [left | right]; reflexivity.
  - intros h. reflexivity.
Qed.

(** Scenario of C6: a window of 60 seconds and a limit of 5; of six
    calls in quick succession the first five are allowed, the sixth is
    rejected. *)
Lemma C6_witness :
  fst (RateLimiter.calls "report:alice" 60 5 [100; 100; 101; 101; 102; 102] ∅) !! 4%nat
    = Some RateLimiter.Allowed /\
  fst (RateLimiter.calls "report:alice" 60 5 [100; 100; 101; 101; 102; 102] ∅) !! 5%nat
    = Some RateLimiter.RateLimited.
Proof.
  assert (1 <= 5) as Hmax by lia.
  assert (RateLimiter.window_opens ∅ "report:alice" 60 100) as Hopen by exact I.
  assert (Forall (fun t => t - 100 < 60) [100; 100; 101; 101; 102; 102]) as Hin
    by (repeat constructor; lia).
  destruct (C6_limit_per_window "report:alice" 60 5 100 [100; 101; 101; 102; 102] ∅
              Hmax Hopen Hin) as (_ & Hallowed & Hrejected & _).
  split; [apply Hallowed | apply Hrejected]; simpl; lia.
Defined.

(** ** Scenarios *)

(** Scenario of C7: with the limit used up, a call inside the window
    is rejected and the store stays as it is; a call after the window
    is allowed and starts a new window with a count of one. *)
Lemma C7_witness :
  snd (RateLimiter.check_and_increment "report:alice" 60 5 120 Scenario.exhausted)
    = Scenario.exhausted /\
  RateLimiter.step 60 5 160 (RateLimiter.Active 5 100)
    RateLimiter.Allowed (RateLimiter.Active 1 160).
Proof.
  split.
  - apply (proj1 (proj2 (proj2
             (C7_limiter_is_the_state_machine "report:alice" 60 5 120 Scenario.exhausted)))).
    vm_compute. reflexivity.
  - exact (proj1 (C7_limiter_is_the_state_machine "report:alice" 60 5 160 Scenario.exhausted)).
Defined.

(** Scenario of C9: the file that is already in the data directory
    survives the extraction of an archive that holds a member of the
    same name. *)
Lemma C9_witness :
  fs (snd (extract_pdfs Scenario.unzipping Scenario.zip_path Scenario.data_dir 1
             Scenario.world_with_report))
    !! ("/", ["srv"; "data"; "Report.PDF"]) = Some [Byte.x00].
Proof.
  apply (proj1 (proj2 (C9_extract_pdfs_writes_inside_dest_dir
           Scenario.unzipping Scenario.zip_path Scenario.data_dir 1
           Scenario.world_with_report))).
  vm_compute. reflexivity.
Defined.

(** The whole run on the scenario archive: one file is written, under
    the final component of the first traversal name; the second member
    of that name, the unreadable member and the other members leave no
    trace. *)
Example extract_pdfs_scenario :
  extract_pdfs Scenario.unzipping Scenario.zip_path Scenario.data_dir 1
    Scenario.world_with_report
  = (Return 1,
     {| fs := {[ ("/", ["srv"; "data"; "Report.PDF"]) := [Byte.x00];
                 ("/", ["srv"; "data"; "evil.pdf"]) := [Byte.x41] ]};
        net := [] |}).
Proof. vm_compute. reflexivity. Qed.

(** A mirror that resolves to a public address: the download goes out
    as one request, here answered by an error. *)
Example download_file_scenario :
  download_file (Scenario.resolving (Return [Scenario.public_v4]))
    Scenario.mirror_url Scenario.zip_path 1230 Scenario.empty_world
  = (Return false,
     {| fs := ∅;
        net := [ ({| req_url := Scenario.mirror_url; req_data := None;
                     req_headers := [("User-Agent", USER_AGENT)];
                     req_method := None |}, 300) ] |}).
Proof. vm_compute. reflexivity. Qed.

(** ** Checks of the model on known values *)

Example loopback_is_private :
  is_private (IPv4Address (quad 127 0 0 1)) = true.
Proof. vm_compute. reflexivity. Qed.

Example shared_space_not_private :
  is_private (IPv4Address (quad 100 64 0 1)) = false.
Proof. vm_compute. reflexivity. Qed.

Example shared_space_not_global :
  is_global (IPv4Address (quad 100 64 0 1)) = false.
Proof. vm_compute. reflexivity. Qed.

Example public_address_is_global :
  is_global (IPv4Address (quad 140 82 114 6)) = true.
Proof. vm_compute. reflexivity. Qed.

Example mapped_loopback_is_private :
  is_private (IPv6Address (hextets [0;0;0;0;0;0xffff;0x7f00;1])) = true.
Proof. vm_compute. reflexivity. Qed.

Example public_v6_not_reserved :
  is_reserved (IPv6Address (hextets [0x2606;0x50c0;0x8000;0;0;0;0;0x153])) = false.
Proof. vm_compute. reflexivity. Qed.

(** [::ffff:8.8.8.8] has the flags of [8.8.8.8]: none. *)
Example mapped_public_not_flagged :
  disallowed (IPv6Address (hextets [0;0;0;0;0;0xffff;0x0808;0x0808])) = false.
Proof. vm_compute. reflexivity. Qed.

(** [::ffff:100.64.0.1] is accepted, and is not globally routable. *)
Example mapped_shared_space_accepted :
  is_allowed_download_url (Scenario.resolving (Return [Scenario.mapped_shared_v6]))
    Scenario.mirror_url = Return true /\
  is_global Scenario.mapped_shared_v6 = false /\
  contains v4._public_network (deciding Scenario.mapped_shared_v6) = true.
Proof. vm_compute. repeat split. Qed.

(** [3fff::1], an address of the documentation prefix [3fff::/20]. *)
Example documentation_v6_is_private :
  is_private (IPv6Address (hextets [0x3fff;0;0;0;0;0;0;1])) = true.
Proof. vm_compute. reflexivity. Qed.

Example lower_host :
  lower "ArcHive.ORG" = "archive.org".
Proof. vm_compute. reflexivity. Qed.

Example endswith_pdf :
  endswith "a/b.pdf" ".pdf" = true.
Proof. vm_compute. reflexivity. Qed.

Example issubclass_hierarchy :
  issubclass HTTPError OSError = true /\ issubclass gaierror ValueError = false.
Proof. vm_compute. auto. Qed.

Example archive_org_allowed :
  bool_decide ("archive.org" ∈ ({["archive.org"; "copyparty.vvv.systems"; "www.justice.gov"]} : gset string)) = true.
Proof. vm_compute. reflexivity. Qed.


(** * Further properties of the scripts *)

(** ** Address ranges the validators reject *)

Lemma testbit_above W ip n : 0 <= ip < 2 ^ W -> W <= n -> Z.testbit ip n = false.
Proof.
  intros [Hlo Hhi] Hn.
  destruct (Z.eq_dec ip 0) as [-> | Hne]; [apply Z.bits_0|].
  apply Z.bits_above_log2; [exact Hlo|].
  assert (Z.log2 ip < W) by (apply Z.log2_lt_pow2; lia). lia.
Qed.

(** The network mask of prefix length [W - k] keeps the bits from [k] up. *)
Lemma land_prefix_mask W k ip :
  0 <= k <= W -> 0 <= ip < 2 ^ W ->
  Z.land ip (Z.lxor (Z.ones W) (Z.shiftr (Z.ones W) (W - k)))
  = Z.shiftl (Z.shiftr ip k) k.
Proof.
  intros Hk Hip. apply Z.bits_inj'. intros n Hn.
  rewrite Z.land_spec, Z.lxor_spec, Z.shiftr_spec, Z.shiftl_spec by lia.
  rewrite !Z.testbit_ones by lia.
  destruct (Z.ltb_spec n k).
  - rewrite (Z.testbit_neg_r _ (n - k)) by lia.
    replace (0 <=? n) with true by (symmetry; apply Z.leb_le; lia).
    replace (n <? W) with true by (symmetry; apply Z.ltb_lt; lia).
    replace (0 <=? n + (W - k)) with true by (symmetry; apply Z.leb_le; lia).
    replace (n + (W - k) <? W) with true by (symmetry; apply Z.ltb_lt; lia).
    apply andb_false_r.
  - rewrite Z.shiftr_spec by lia. replace (n - k + k) with n by lia.
    destruct (Z.ltb_spec n W).
    + replace (0 <=? n) with true by (symmetry; apply Z.leb_le; lia).
      replace (n + (W - k) <? W) with false by (symmetry; apply Z.ltb_ge; lia).
      rewrite andb_false_r. simpl. apply andb_true_r.
    + rewrite (testbit_above W ip n) by lia. reflexivity.
Qed.

(** Masking an address with a network mask clears its host bits. *)
Lemma land_netmask v a p ip :
  0 <= p <= max_prefixlen v ->
  0 <= ip < 2 ^ max_prefixlen v ->
  Z.land ip (netmask (Network v a p))
  = ip / 2 ^ (max_prefixlen v - p) * 2 ^ (max_prefixlen v - p).
Proof.
  intros Hp Hip. unfold netmask, ALL_ONES. simpl net_version. simpl prefixlen.
  set (W := max_prefixlen v) in *.
  replace (2 ^ W - 1) with (Z.ones W) by (rewrite Z.ones_equiv; lia).
  replace p with (W - (W - p)) at 1 by lia.
  rewrite land_prefix_mask by lia.
  rewrite Z.shiftr_div_pow2, Z.shiftl_mul_pow2 by lia. reflexivity.
Qed.

(** A network whose address is aligned on its prefix contains the
    addresses from its network address up to its broadcast address, and
    no other. *)
Lemma contains_range v a p ip :
  0 <= p <= max_prefixlen v ->
  0 <= ip < 2 ^ max_prefixlen v ->
  a mod 2 ^ (max_prefixlen v - p) = 0 ->
  (Z.land ip (netmask (Network v a p)) =? a)
  = (a <=? ip) && (ip <? a + 2 ^ (max_prefixlen v - p)).
Proof.
  intros Hp Hip Hal. rewrite land_netmask by assumption.
  set (P := 2 ^ (max_prefixlen v - p)) in *.
  assert (0 < P) by (apply Z.pow_pos_nonneg; lia).
  apply Z.mod_divide in Hal; [|lia]. destruct Hal as [q ->].
  pose proof (Z.div_mod ip P ltac:(lia)) as Hdm.
  pose proof (Z.mod_pos_bound ip P ltac:(lia)) as Hr.
  set (d := ip / P) in *. set (r := ip mod P) in *.
  destruct (Z.eqb_spec (d * P) (q * P)) as [Heq | Hne].
  - symmetry. apply andb_true_iff. rewrite Z.leb_le, Z.ltb_lt. lia.
  - symmetry. apply andb_false_iff. rewrite Z.leb_gt, Z.ltb_ge.
    assert (d <> q) by congruence.
    destruct (Z.lt_total d q) as [Hlt | [? | Hgt]]; [left | contradiction | right].
    + assert ((d + 1) * P <= q * P) by (apply Z.mul_le_mono_nonneg_r; lia). lia.
    + assert ((q + 1) * P <= d * P) by (apply Z.mul_le_mono_nonneg_r; lia). lia.
Qed.

Lemma contains_v4_range a p ip :
  0 <= p <= 32 -> 0 <= ip < 2 ^ 32 -> a mod 2 ^ (32 - p) = 0 ->
  contains (Network 4 a p) (IPv4Address ip) = (a <=? ip) && (ip <? a + 2 ^ (32 - p)).
Proof. intros. unfold contains. simpl negb. cbv iota. apply (contains_range 4); assumption. Qed.

Lemma contains_v6_range a p ip :
  0 <= p <= 128 -> 0 <= ip < 2 ^ 128 -> a mod 2 ^ (128 - p) = 0 ->
  contains (Network 6 a p) (IPv6Address ip) = (a <=? ip) && (ip <? a + 2 ^ (128 - p)).
Proof. intros. unfold contains. simpl negb. cbv iota. apply (contains_range 6); assumption. Qed.

(** Replace the closed numeric terms of a goal by their values. *)
Ltac eval_closed :=
  repeat match goal with
    | |- context [quad ?a ?b ?c ?d] =>
        let x := eval vm_compute in (quad a b c d) in change (quad a b c d) with x
    | |- context [hextets ?l] =>
        let x := eval vm_compute in (hextets l) in change (hextets l) with x
    | |- context [2 ^ ?k] =>
        let x := eval vm_compute in (2 ^ k) in change (2 ^ k) with x
    | H : context [quad ?a ?b ?c ?d] |- _ =>
        let x := eval vm_compute in (quad a b c d) in change (quad a b c d) with x in H
    | H : context [hextets ?l] |- _ =>
        let x := eval vm_compute in (hextets l) in change (hextets l) with x in H
    | H : context [2 ^ ?k] |- _ =>
        let x := eval vm_compute in (2 ^ k) in change (2 ^ k) with x in H
    end.

Ltac network_side :=
  first [ assumption
        | vm_compute; reflexivity
        | split; vm_compute; discriminate ].

(** The six-way test on an IPv4 address, as comparisons. *)
Lemma disallowed_v4_ranges ip :
  0 <= ip < 2 ^ 32 ->
  (disallowed (IPv4Address ip) = true <->
   ip <= quad 0 255 255 255 \/
   quad 10 0 0 0 <= ip <= quad 10 255 255 255 \/
   quad 127 0 0 0 <= ip <= quad 127 255 255 255 \/
   quad 169 254 0 0 <= ip <= quad 169 254 255 255 \/
   quad 172 16 0 0 <= ip <= quad 172 31 255 255 \/
   (quad 192 0 0 0 <= ip <= quad 192 0 0 255 /\
    ip <> quad 192 0 0 9 /\ ip <> quad 192 0 0 10) \/
   quad 192 0 2 0 <= ip <= quad 192 0 2 255 \/
   quad 192 168 0 0 <= ip <= quad 192 168 255 255 \/
   quad 198 18 0 0 <= ip <= quad 198 19 255 255 \/
   quad 198 51 100 0 <= ip <= quad 198 51 100 255 \/
   quad 203 0 113 0 <= ip <= quad 203 0 113 255 \/
   quad 224 0 0 0 <= ip).
Proof.
  intros Hip.
  unfold disallowed, is_private, is_private_v4, is_loopback, is_link_local,
    is_multicast, is_reserved, is_unspecified, any_contains, all_not_contains,
    v4._private_networks, v4._private_networks_exceptions, v4._loopback_network,
    v4._linklocal_network, v4._multicast_network, v4._reserved_network,
    v4._unspecified_address, IPv4Network.
  cbn [existsb forallb].
  rewrite !contains_v4_range by network_side.
  eval_closed.
  rewrite !orb_true_iff, !andb_true_iff, !orb_true_iff, !negb_true_iff,
    !andb_false_iff, !andb_true_iff, !Z.leb_le, !Z.ltb_lt, !Z.leb_gt, !Z.ltb_ge, Z.eqb_eq.
  lia.
Qed.

(** Decide the comparisons of the goal one after the other; the cases
    that contradict the comparisons made so far are dropped at once. *)
Ltac split_comparisons :=
  repeat match goal with
    | |- context [?a <=? ?b] => destruct (Z.leb_spec a b); try lia
    | |- context [?a <? ?b] => destruct (Z.ltb_spec a b); try lia
    | |- context [?a =? ?b] => destruct (Z.eqb_spec a b); try lia
    end.

(** The IPv6 addresses that map an IPv4 address are those of
    [::ffff:0:0/96], and the address mapped is in the low 32 bits. *)
Lemma ipv4_mapped_range ip :
  0 <= ip < 2 ^ 128 ->
  (hextets [0; 0; 0; 0; 0; 0xffff; 0; 0] <= ip
     <= hextets [0; 0; 0; 0; 0; 0xffff; 0xffff; 0xffff] /\
   0 <= ip - hextets [0; 0; 0; 0; 0; 0xffff; 0; 0] < 2 ^ 32 /\
   ipv4_mapped ip = Some (IPv4Address (ip - hextets [0; 0; 0; 0; 0; 0xffff; 0; 0]))) \/
  (~ (hextets [0; 0; 0; 0; 0; 0xffff; 0; 0] <= ip
        <= hextets [0; 0; 0; 0; 0; 0xffff; 0xffff; 0xffff]) /\
   ipv4_mapped ip = None).
Proof.
  intros Hip. unfold ipv4_mapped.
  pose proof (Z.div_mod ip (2 ^ 32) ltac:(lia)) as Hdm.
  pose proof (Z.mod_pos_bound ip (2 ^ 32) ltac:(lia)) as Hr.
  rewrite Z.shiftr_div_pow2 by lia.
  destruct (Z.eqb_spec (ip / 2 ^ 32) 0xFFFF) as [Hm | Hm]; cbn [negb].
  - left. change 0xFFFFFFFF with (Z.ones 32). rewrite Z.land_ones by lia.
    rewrite Hm in Hdm. eval_closed.
    replace (ip - 281470681743360) with (ip mod 4294967296) by lia.
    repeat split; lia.
  - right. split; [|reflexivity]. eval_closed. intros [Hlo Hhi]. apply Hm.
    symmetry. apply (Z.div_unique ip 4294967296 65535 (ip - 281470681743360)); lia.
Qed.

(** An IPv6 address that maps an IPv4 address has the flags of that
    IPv4 address. *)
Lemma disallowed_mapped ip m :
  ipv4_mapped ip = Some (IPv4Address m) ->
  disallowed (IPv6Address ip) = disallowed (IPv4Address m).
Proof.
  intros Hm.
  unfold disallowed, is_private, is_loopback, is_link_local, is_multicast,
    is_reserved, is_unspecified.
  rewrite Hm. reflexivity.
Qed.

(** The six-way test on an IPv6 address that maps no IPv4 address, as
    comparisons. *)
Lemma disallowed_v6_ranges ip :
  0 <= ip < 2 ^ 128 ->
  ~ (hextets [0; 0; 0; 0; 0; 0xffff; 0; 0] <= ip
       <= hextets [0; 0; 0; 0; 0; 0xffff; 0xffff; 0xffff]) ->
  ipv4_mapped ip = None ->
  (disallowed (IPv6Address ip) = true <->
   ip < hextets [0x2000; 0; 0; 0; 0; 0; 0; 0] \/
   (hextets [0x2001; 0; 0; 0; 0; 0; 0; 0] <= ip
      <= hextets [0x2001; 0x1ff; 0xffff; 0xffff; 0xffff; 0xffff; 0xffff; 0xffff] /\
    ip <> hextets [0x2001; 1; 0; 0; 0; 0; 0; 1] /\
    ip <> hextets [0x2001; 1; 0; 0; 0; 0; 0; 2] /\
    ~ (hextets [0x2001; 3; 0; 0; 0; 0; 0; 0] <= ip
         <= hextets [0x2001; 3; 0xffff; 0xffff; 0xffff; 0xffff; 0xffff; 0xffff]) /\
    ~ (hextets [0x2001; 4; 0x112; 0; 0; 0; 0; 0] <= ip
         <= hextets [0x2001; 4; 0x112; 0xffff; 0xffff; 0xffff; 0xffff; 0xffff]) /\
    ~ (hextets [0x2001; 0x20; 0; 0; 0; 0; 0; 0] <= ip
         <= hextets [0x2001; 0x3f; 0xffff; 0xffff; 0xffff; 0xffff; 0xffff; 0xffff])) \/
   hextets [0x2001; 0xdb8; 0; 0; 0; 0; 0; 0] <= ip
     <= hextets [0x2001; 0xdb8; 0xffff; 0xffff; 0xffff; 0xffff; 0xffff; 0xffff] \/
   hextets [0x2002; 0; 0; 0; 0; 0; 0; 0] <= ip
     <= hextets [0x2002; 0xffff; 0xffff; 0xffff; 0xffff; 0xffff; 0xffff; 0xffff] \/
   hextets [0x3fff; 0; 0; 0; 0; 0; 0; 0] <= ip
     <= hextets [0x3fff; 0xfff; 0xffff; 0xffff; 0xffff; 0xffff; 0xffff; 0xffff] \/
   hextets [0x4000; 0; 0; 0; 0; 0; 0; 0] <= ip
     < hextets [0xfec0; 0; 0; 0; 0; 0; 0; 0] \/
   hextets [0xff00; 0; 0; 0; 0; 0; 0; 0] <= ip).
Proof.
  intros Hip Hout Hnone.
  unfold disallowed, is_private, is_loopback, is_link_local, is_multicast,
    is_reserved, is_unspecified.
  rewrite Hnone.
  unfold any_contains, all_not_contains, v6._private_networks,
    v6._private_networks_exceptions, v6._linklocal_network, v6._multicast_network,
    v6._reserved_networks, IPv6Network.
  cbn [existsb forallb].
  rewrite !contains_v6_range by network_side.
  eval_closed.
  split_comparisons; simpl;
    (split; [first [discriminate | intros _; lia] | first [reflexivity | lia]]).
Qed.

(** X1. For either validator, on an https URL of an allowlisted host
    that resolves to one IPv4 address: the validator returns a verdict,
    and the verdict is false exactly when the address lies in 0.0.0.0/8,
    10.0.0.0/8, 127.0.0.0/8, 169.254.0.0/16, 172.16.0.0/12, 192.0.0.0/24
    (192.0.0.9 and 192.0.0.10 apart), 192.0.2.0/24, 192.168.0.0/16,
    198.18.0.0/15, 198.51.100.0/24, 203.0.113.0/24, or at 224.0.0.0 and
    above. *)
Theorem X1_ipv4_verdict_by_range :
  forall allowed v pf url parsed h ip,
    validator allowed v ->
    urlparse pf url = Return parsed ->
    scheme parsed = "https" ->
    hostname parsed = Some h ->
    lower h ∈ allowed ->
    getaddrinfo pf (lower h) = Return [IPv4Address ip] ->
    0 <= ip < 2 ^ 32 ->
    exists verdict,
      v pf url = Return verdict /\
      (verdict = false <->
       ip <= quad 0 255 255 255 \/
       quad 10 0 0 0 <= ip <= quad 10 255 255 255 \/
       quad 127 0 0 0 <= ip <= quad 127 255 255 255 \/
       quad 169 254 0 0 <= ip <= quad 169 254 255 255 \/
       quad 172 16 0 0 <= ip <= quad 172 31 255 255 \/
       (quad 192 0 0 0 <= ip <= quad 192 0 0 255 /\
        ip <> quad 192 0 0 9 /\ ip <> quad 192 0 0 10) \/
       quad 192 0 2 0 <= ip <= quad 192 0 2 255 \/
       quad 192 168 0 0 <= ip <= quad 192 168 255 255 \/
       quad 198 18 0 0 <= ip <= quad 198 19 255 255 \/
       quad 198 51 100 0 <= ip <= quad 198 51 100 255 \/
       quad 203 0 113 0 <= ip <= quad 203 0 113 255 \/
       quad 224 0 0 0 <= ip).
Proof.
  intros allowed v pf url parsed h ip Hv Hp Hs Hh Hin Hg Hip.
  exists (negb (disallowed (IPv4Address ip))). split.
  - rewrite (validator_shape _ _ Hv).
    rewrite (outbound_validator_resolves allowed pf url parsed h
               (validator_no_empty_host _ _ Hv) Hp Hs Hh Hin), Hg.
    cbn [addr_info_loop]. destruct (disallowed (IPv4Address ip)); reflexivity.
  - rewrite negb_false_iff. apply disallowed_v4_ranges. exact Hip.
Qed.

(** Scenario of X1: 172.20.1.1 is in 172.16.0.0/12, and the mirror
    resolving to it is rejected. *)
Lemma X1_witness :
  exists verdict,
    is_allowed_download_url
      (Scenario.resolving (Return [IPv4Address (quad 172 20 1 1)]))
      Scenario.mirror_url = Return verdict /\
    (verdict = false <->
     quad 172 20 1 1 <= quad 0 255 255 255 \/
     quad 10 0 0 0 <= quad 172 20 1 1 <= quad 10 255 255 255 \/
     quad 127 0 0 0 <= quad 172 20 1 1 <= quad 127 255 255 255 \/
     quad 169 254 0 0 <= quad 172 20 1 1 <= quad 169 254 255 255 \/
     quad 172 16 0 0 <= quad 172 20 1 1 <= quad 172 31 255 255 \/
     (quad 192 0 0 0 <= quad 172 20 1 1 <= quad 192 0 0 255 /\
      quad 172 20 1 1 <> quad 192 0 0 9 /\ quad 172 20 1 1 <> quad 192 0 0 10) \/
     quad 192 0 2 0 <= quad 172 20 1 1 <= quad 192 0 2 255 \/
     quad 192 168 0 0 <= quad 172 20 1 1 <= quad 192 168 255 255 \/
     quad 198 18 0 0 <= quad 172 20 1 1 <= quad 198 19 255 255 \/
     quad 198 51 100 0 <= quad 172 20 1 1 <= quad 198 51 100 255 \/
     quad 203 0 113 0 <= quad 172 20 1 1 <= quad 203 0 113 255 \/
     quad 224 0 0 0 <= quad 172 20 1 1).
Proof.
  apply (X1_ipv4_verdict_by_range ALLOWED_DOWNLOAD_HOSTS is_allowed_download_url
           (Scenario.resolving (Return [IPv4Address (quad 172 20 1 1)]))
           Scenario.mirror_url
           {| scheme := "https"; hostname := Some "archive.org" |}
           "archive.org" (quad 172 20 1 1)
           validator_download eq_refl eq_refl eq_refl).
  - apply (bool_decide_unpack _). vm_compute. exact I.
  - reflexivity.
  - vm_compute. split; [discriminate | reflexivity].
Defined.

(** X2. For either validator, on an https URL of an allowlisted host
    that resolves to one IPv6 address. For an address of ::ffff:0:0/96,
    which maps an IPv4 address, the verdict is false exactly when the
    mapped IPv4 address is private, loopback, link-local, multicast,
    reserved or unspecified. For any other address the verdict is false
    exactly when the address lies below 2000::, in 2001::/23 (the
    carve-outs 2001:1::1, 2001:1::2, 2001:3::/32, 2001:4:112::/48 and
    2001:20::/27 apart), in 2001:db8::/32, in 2002::/16, in 3fff::/20,
    from 4000:: up to fec0:: (excluded), or at ff00:: and above.
    Addresses of fec0::/10 and of the rest of 2000::/3 pass. *)
Theorem X2_ipv6_verdict_by_range :
  forall allowed v pf url parsed h ip,
    validator allowed v ->
    urlparse pf url = Return parsed ->
    scheme parsed = "https" ->
    hostname parsed = Some h ->
    lower h ∈ allowed ->
    getaddrinfo pf (lower h) = Return [IPv6Address ip] ->
    0 <= ip < 2 ^ 128 ->
    exists verdict,
      v pf url = Return verdict /\
      (hextets [0; 0; 0; 0; 0; 0xffff; 0; 0] <= ip
         <= hextets [0; 0; 0; 0; 0; 0xffff; 0xffff; 0xffff] ->
       0 <= ip - hextets [0; 0; 0; 0; 0; 0xffff; 0; 0] < 2 ^ 32 /\
       (verdict = false <->
        flagged (IPv4Address (ip - hextets [0; 0; 0; 0; 0; 0xffff; 0; 0])))) /\
      (~ (hextets [0; 0; 0; 0; 0; 0xffff; 0; 0] <= ip
            <= hextets [0; 0; 0; 0; 0; 0xffff; 0xffff; 0xffff]) ->
       (verdict = false <->
        ip < hextets [0x2000; 0; 0; 0; 0; 0; 0; 0] \/
        (hextets [0x2001; 0; 0; 0; 0; 0; 0; 0] <= ip
           <= hextets [0x2001; 0x1ff; 0xffff; 0xffff; 0xffff; 0xffff; 0xffff; 0xffff] /\
         ip <> hextets [0x2001; 1; 0; 0; 0; 0; 0; 1] /\
         ip <> hextets [0x2001; 1; 0; 0; 0; 0; 0; 2] /\
         ~ (hextets [0x2001; 3; 0; 0; 0; 0; 0; 0] <= ip
              <= hextets [0x2001; 3; 0xffff; 0xffff; 0xffff; 0xffff; 0xffff; 0xffff]) /\
         ~ (hextets [0x2001; 4; 0x112; 0; 0; 0; 0; 0] <= ip
              <= hextets [0x2001; 4; 0x112; 0xffff; 0xffff; 0xffff; 0xffff; 0xffff]) /\
         ~ (hextets [0x2001; 0x20; 0; 0; 0; 0; 0; 0] <= ip
              <= hextets [0x2001; 0x3f; 0xffff; 0xffff; 0xffff; 0xffff; 0xffff; 0xffff])) \/
        hextets [0x2001; 0xdb8; 0; 0; 0; 0; 0; 0] <= ip
          <= hextets [0x2001; 0xdb8; 0xffff; 0xffff; 0xffff; 0xffff; 0xffff; 0xffff] \/
        hextets [0x2002; 0; 0; 0; 0; 0; 0; 0] <= ip
          <= hextets [0x2002; 0xffff; 0xffff; 0xffff; 0xffff; 0xffff; 0xffff; 0xffff] \/
        hextets [0x3fff; 0; 0; 0; 0; 0; 0; 0] <= ip
          <= hextets [0x3fff; 0xfff; 0xffff; 0xffff; 0xffff; 0xffff; 0xffff; 0xffff] \/
        hextets [0x4000; 0; 0; 0; 0; 0; 0; 0] <= ip
          < hextets [0xfec0; 0; 0; 0; 0; 0; 0; 0] \/
        hextets [0xff00; 0; 0; 0; 0; 0; 0; 0] <= ip)).
Proof.
  intros allowed v pf url parsed h ip Hv Hp Hs Hh Hin Hg Hip.
  exists (negb (disallowed (IPv6Address ip))). split; [|split].
  - rewrite (validator_shape _ _ Hv).
    rewrite (outbound_validator_resolves allowed pf url parsed h
               (validator_no_empty_host _ _ Hv) Hp Hs Hh Hin), Hg.
    cbn [addr_info_loop]. destruct (disallowed (IPv6Address ip)); reflexivity.
  - intros Hmapped.
    destruct (ipv4_mapped_range ip Hip) as [(_ & Hlow & Hm) | (Hout & _)];
      [|contradiction].
    split; [exact Hlow|].
    rewrite negb_false_iff, (disallowed_mapped _ _ Hm). apply disallowed_flagged.
  - intros Hout.
    destruct (ipv4_mapped_range ip Hip) as [(Hmapped & _) | (_ & Hnone)];
      [contradiction|].
    rewrite negb_false_iff. apply disallowed_v6_ranges; assumption.
Qed.

(** Scenario of X2: the blob host resolving to the IPv4-mapped loopback
    address ::ffff:127.0.0.1 is rejected, and so is the mirror resolving
    to 3fff::1. *)
Lemma X2_witness :
  is_allowed_upload_url
    (Scenario.resolving (Return [IPv6Address (hextets [0; 0; 0; 0; 0; 0xffff; 0x7f00; 1])]))
    Scenario.blob_url = Return false /\
  is_allowed_download_url
    (Scenario.resolving (Return [IPv6Address (hextets [0x3fff; 0; 0; 0; 0; 0; 0; 1])]))
    Scenario.mirror_url = Return false.
Proof.
  split.
  - assert ("blob.vercel-storage.com" ∈ ALLOWED_UPLOAD_HOSTS) as Hin
      by (apply (bool_decide_unpack _); vm_compute; exact I).
    assert (0 <= hextets [0; 0; 0; 0; 0; 0xffff; 0x7f00; 1] < 2 ^ 128) as Hip
      by (vm_compute; split; [discriminate | reflexivity]).
    destruct (X2_ipv6_verdict_by_range ALLOWED_UPLOAD_HOSTS is_allowed_upload_url
                (Scenario.resolving
                   (Return [IPv6Address (hextets [0; 0; 0; 0; 0; 0xffff; 0x7f00; 1])]))
                Scenario.blob_url
                {| scheme := "https"; hostname := Some "blob.vercel-storage.com" |}
                "blob.vercel-storage.com" (hextets [0; 0; 0; 0; 0; 0xffff; 0x7f00; 1])
                validator_upload eq_refl eq_refl eq_refl Hin eq_refl Hip)
      as (verdict & Hverdict & Hmapped & _).
    rewrite Hverdict. f_equal. apply Hmapped.
    + vm_compute. split; discriminate.
    + left. vm_compute. reflexivity.
  - assert ("archive.org" ∈ ALLOWED_DOWNLOAD_HOSTS) as Hin
      by (apply (bool_decide_unpack _); vm_compute; exact I).
    assert (0 <= hextets [0x3fff; 0; 0; 0; 0; 0; 0; 1] < 2 ^ 128) as Hip
      by (vm_compute; split; [discriminate | reflexivity]).
    destruct (X2_ipv6_verdict_by_range ALLOWED_DOWNLOAD_HOSTS is_allowed_download_url
                (Scenario.resolving
                   (Return [IPv6Address (hextets [0x3fff; 0; 0; 0; 0; 0; 0; 1])]))
                Scenario.mirror_url
                {| scheme := "https"; hostname := Some "archive.org" |}
                "archive.org" (hextets [0x3fff; 0; 0; 0; 0; 0; 0; 1])
                validator_download eq_refl eq_refl eq_refl Hin eq_refl Hip)
      as (verdict & Hverdict & _ & Hother).
    rewrite Hverdict. f_equal. apply Hother.
    + vm_compute. intros [_ H]. apply H. reflexivity.
    + do 4 right. left. vm_compute. split; discriminate.
Defined.

(** ** [download_file]: what ends up on disk *)

Lemma world_eta w : {| fs := fs w; net := net w |} = w.
Proof. destruct w; reflexivity. Qed.

Lemma len_app a b : len (a ++ b)%list = len a + len b.
Proof. unfold len. rewrite length_app. lia. Qed.

(** The three [except] clauses of the scripts catch the [OSError]s. *)
Lemma handle_os_errors {A} (x : A) e w :
  handle e [ (HTTPError, mret x); (URLError, mret x); (OSError, mret x) ] w
  = if issubclass e OSError then (Return x, w) else (Raise e, w).
Proof. destruct e; reflexivity. Qed.

(** The reading loop appends what it receives to the open file, when
    no write is refused. *)
Lemma read_loop_received pf dest cs : forall downloaded w old,
  (forall files chunk, os_error pf files (op_write dest chunk) = None) ->
  fs w !! dest = Some old ->
  read_loop pf dest cs downloaded w =
    (match snd (received cs) with
     | None => Return (downloaded + len (fst (received cs)))
     | Some e => Raise e
     end,
     {| fs := <[dest := (old ++ fst (received cs))%list]> (fs w); net := net w |}).
Proof.
  induction cs as [|c cs IH]; intros downloaded w old Hw Hold.
  - simpl. unfold mret, M_ret. rewrite app_nil_r, insert_id by exact Hold.
    rewrite world_eta, Z.add_0_r. reflexivity.
  - destruct c as [chunk|e].
    + destruct chunk as [|b chunk].
      * simpl. unfold mbind, M_bind, lift, mret, M_ret.
        rewrite app_nil_r, insert_id by exact Hold.
        rewrite world_eta, Z.add_0_r. reflexivity.
      * transitivity (read_loop pf dest cs (downloaded + len (b :: chunk))
                        {| fs := <[dest := (default [] (fs w !! dest) ++ b :: chunk)%list]> (fs w);
                           net := net w |}).
        { cbn [read_loop]. rewrite bind_lift.
          unfold mbind at 1, M_bind at 1, f_write. rewrite Hw. reflexivity. }
        rewrite (IH _ _ (old ++ b :: chunk)%list)
          by (first [exact Hw | simpl; rewrite Hold; apply lookup_insert_eq]).
        change (received (Return (b :: chunk) :: cs))
          with (let '(data, stop) := received cs in (((b :: chunk) ++ data)%list, stop)).
        destruct (received cs) as [data stop]. simpl fst. simpl snd. simpl fs. simpl net.
        rewrite insert_insert_eq, <- app_assoc.
        replace (len (b :: chunk ++ data)) with (len (b :: chunk) + len data)
          by (rewrite <- len_app; reflexivity).
        rewrite Z.add_assoc. reflexivity.
    + simpl. unfold mbind, M_bind, lift.
      rewrite app_nil_r, insert_id by exact Hold. rewrite world_eta. reflexivity.
Qed.

Lemma bind_size_if_exists {B} p (k : Z -> M B) w :
  (size_if_exists p ≫= k) w = k (len (default [] (fs w !! p))) w.
Proof. unfold mbind, M_bind, size_if_exists. destruct (fs w !! p); reflexivity. Qed.

(** A close that is not refused leaves the outcome of the block. *)
Lemma finally_close {A} pf p (body : M A) w :
  (forall files, os_error pf files (op_close p) = None) ->
  finally_ body (f_close pf p) w = body w.
Proof.
  intros H. unfold finally_, f_close. destruct (body w) as [r w1].
  rewrite H. reflexivity.
Qed.

(** [download_file] once the validator has accepted the URL and the
    server has answered, when the destination can be opened, written
    and closed. *)
Lemma download_file_answered pf url dest sz w resp total :
  writable pf dest ->
  is_allowed_download_url pf url = Return true ->
  urlopen pf (download_request url (len (default [] (fs w !! dest)))) 300 = Return resp ->
  content_length resp = Return total ->
  download_file pf url dest sz w =
    (match snd (received (chunks resp)) with
     | None => Return true
     | Some e => if issubclass e OSError then Return false else Raise e
     end,
     {| fs := <[dest :=
                 ((if (0 <? len (default [] (fs w !! dest))) && (status resp =? 206)
                   then default [] (fs w !! dest) else [])
                  ++ fst (received (chunks resp)))%list]> (fs w);
        net := (net w ++ [(download_request url (len (default [] (fs w !! dest))), 300)])%list |}).
Proof.
  intros Hw Hv Hopen Hlen. unfold download_file.
  rewrite bind_lift, Hv. cbn [negb]. rewrite bind_size_if_exists. cbv zeta.
  fold (download_request url (len (default [] (fs w !! dest)))).
  set (old := default [] (fs w !! dest)) in *.
  set (req := download_request url (len old)) in *.
  unfold try_. unfold mbind at 1, M_bind at 1, do_urlopen. rewrite Hopen.
  rewrite bind_lift, Hlen.
  set (w1 := {| fs := fs w; net := (net w ++ [(req, 300)])%list |}).
  set (mode := if (0 <? (if (0 <? len old) && negb (status resp =? 206) then 0 else len old))
                  && (status resp =? 206) then ab else wb).
  set (kept := if (0 <? len old) && (status resp =? 206) then old else []).
  assert (open_ pf dest mode w1 =
          (Return tt, {| fs := <[dest := kept]> (fs w); net := net w1 |})) as Hmode.
  { unfold open_. rewrite (proj1 (Hw _ _ [])). unfold mode, kept.
    destruct (0 <? len old) eqn:Hpos; destruct (status resp =? 206); simpl;
      rewrite ?Hpos; simpl; reflexivity. }
  unfold mbind at 1, M_bind at 1. rewrite Hmode.
  unfold mbind at 1, M_bind at 1.
  rewrite finally_close by (intros files; apply (Hw files wb [])).
  rewrite (read_loop_received pf dest (chunks resp) _ _ kept)
    by (first [ intros files chunk; apply (proj1 (proj2 (Hw files wb chunk)))
              | simpl; apply lookup_insert_eq ]).
  simpl fs. simpl net. rewrite insert_insert_eq.
  destruct (snd (received (chunks resp))) as [e|].
  - rewrite handle_os_errors. destruct (issubclass e OSError); reflexivity.
  - reflexivity.
Qed.




(** X3. Resuming: when the destination already holds bytes, the request
    asks for the rest with a [Range] header that starts at the size on
    disk; when the server answers 206, the destination can be opened,
    written and closed and the body is read to its end, [download_file]
    returns true and the file is the old content followed by the
    received bytes. *)
Theorem X3_download_file_resumes :
  forall pf url dest sz w old resp total,
    is_allowed_download_url pf url = Return true ->
    fs w !! dest = Some old ->
    old <> [] ->
    urlopen pf (download_request url (len old)) 300 = Return resp ->
    status resp = 206 ->
    content_length resp = Return total ->
    snd (received (chunks resp)) = None ->
    writable pf dest ->
    download_file pf url dest sz w =
      (Return true,
       {| fs := <[dest := (old ++ fst (received (chunks resp)))%list]> (fs w);
          net := (net w ++ [(download_request url (len old), 300)])%list |}) /\
    req_headers (download_request url (len old)) =
      [ ("User-Agent", USER_AGENT);
        ("Range", "bytes=" +:+ pretty (len old) +:+ "-") ].
Proof.
  intros pf url dest sz w old resp total Hv Hold Hne Hopen Hst Hlen Hend Hw.
  assert (0 < len old) as Hpos by (unfold len; destruct old; [congruence | simpl; lia]).
  apply Z.ltb_lt in Hpos. split.
  - rewrite (download_file_answered pf url dest sz w resp total Hw Hv);
      rewrite ?Hold; simpl default; try assumption.
    rewrite Hend, Hst, Hpos. reflexivity.
  - unfold download_request. simpl req_headers. rewrite Hpos. reflexivity.
Qed.

(** Scenario of X3: two bytes on disk, two more received with status
    206; the file holds the four bytes and the request asked for
    [bytes=2-]. *)
Lemma X3_witness :
  download_file (Cases.answering (Return Cases.partial_content))
    Scenario.mirror_url Scenario.zip_path 1230 Cases.half_done
  = (Return true,
     {| fs := {[ Scenario.zip_path := [Byte.x41; Byte.x42; Byte.x43; Byte.x44] ]};
        net := [ ({| req_url := Scenario.mirror_url; req_data := None;
                     req_headers := [ ("User-Agent", USER_AGENT); ("Range", "bytes=2-") ];
                     req_method := None |}, 300) ] |}).
Proof.
  destruct (X3_download_file_resumes (Cases.answering (Return Cases.partial_content))
              Scenario.mirror_url Scenario.zip_path 1230 Cases.half_done
              [Byte.x41; Byte.x42] Cases.partial_content 2) as [Hrun _].
  - vm_compute. reflexivity.
  - vm_compute. reflexivity.
  - discriminate.
  - reflexivity.
  - reflexivity.
  - reflexivity.
  - reflexivity.
  - intros files mode chunk. repeat split.
  - rewrite Hrun. vm_compute. reflexivity.
Defined.

(** X4. Starting over: when the server does not answer 206 (or nothing
    is on disk) and the destination can be opened, written and closed,
    the body read to its end replaces whatever the destination held;
    [download_file] returns true and the file is exactly the received
    bytes. *)
Theorem X4_download_file_starts_over :
  forall pf url dest sz w resp total,
    is_allowed_download_url pf url = Return true ->
    urlopen pf (download_request url (len (default [] (fs w !! dest)))) 300 = Return resp ->
    status resp <> 206 \/ fs w !! dest = None ->
    content_length resp = Return total ->
    snd (received (chunks resp)) = None ->
    writable pf dest ->
    download_file pf url dest sz w =
      (Return true,
       {| fs := <[dest := fst (received (chunks resp))]> (fs w);
          net := (net w ++ [(download_request url (len (default [] (fs w !! dest))), 300)])%list |}).
Proof.
  intros pf url dest sz w resp total Hv Hopen Hfresh Hlen Hend Hw.
  assert ((0 <? len (default [] (fs w !! dest))) && (status resp =? 206) = false) as Hkept.
  { destruct Hfresh as [Hst | Hnone].
    - apply andb_false_iff. right. apply Z.eqb_neq. exact Hst.
    - unfold bytes in *. rewrite Hnone. reflexivity. }
  rewrite (download_file_answered pf url dest sz w resp total Hw Hv Hopen Hlen), Hend, Hkept.
  reflexivity.
Qed.

(** Scenario of X4: two stale bytes on disk and a server that answers
    200 with the whole file. *)
Lemma X4_witness :
  download_file (Cases.answering (Return Cases.whole_content))
    Scenario.mirror_url Scenario.zip_path 1230 Cases.half_done
  = (Return true,
     {| fs := <[Scenario.zip_path := [Byte.x41; Byte.x42; Byte.x43]]> (fs Cases.half_done);
        net := [ (download_request Scenario.mirror_url 2, 300) ] |}).
Proof.
  apply (X4_download_file_starts_over (Cases.answering (Return Cases.whole_content))
           Scenario.mirror_url Scenario.zip_path 1230 Cases.half_done
           Cases.whole_content 3).
  - vm_compute. reflexivity.
  - reflexivity.
  - left. discriminate.
  - reflexivity.
  - reflexivity.
  - intros files mode chunk. repeat split.
Defined.



(** X6. An exception that is not an [OSError] escapes: when the
    [Content-Length] header of the answer does not convert to an
    integer, [download_file] raises the [ValueError]; the request has
    gone out and the destination is untouched. *)
Theorem X6_download_file_bad_content_length :
  forall pf url dest sz w resp e,
    is_allowed_download_url pf url = Return true ->
    urlopen pf (download_request url (len (default [] (fs w !! dest)))) 300 = Return resp ->
    content_length resp = Raise e ->
    issubclass e OSError = false ->
    download_file pf url dest sz w =
      (Raise e,
       {| fs := fs w;
          net := (net w ++ [(download_request url (len (default [] (fs w !! dest))), 300)])%list |}).
Proof.
  intros pf url dest sz w resp e Hv Hopen Hlen He. unfold download_file.
  rewrite bind_lift, Hv. cbn [negb]. rewrite bind_size_if_exists. cbv zeta.
  fold (download_request url (len (default [] (fs w !! dest)))).
  unfold try_. unfold mbind at 1, M_bind at 1, do_urlopen. rewrite Hopen.
  rewrite bind_lift, Hlen. rewrite handle_os_errors, He. reflexivity.
Qed.

Lemma X6_witness :
  download_file (Cases.answering (Return Cases.bad_length))
    Scenario.mirror_url Scenario.zip_path 1230 Cases.half_done
  = (Raise ValueError,
     {| fs := fs Cases.half_done;
        net := [ (download_request Scenario.mirror_url 2, 300) ] |}).
Proof.
  apply (X6_download_file_bad_content_length (Cases.answering (Return Cases.bad_length))
           Scenario.mirror_url Scenario.zip_path 1230 Cases.half_done
           Cases.bad_length ValueError).
  - vm_compute. reflexivity.
  - reflexivity.
  - reflexivity.
  - reflexivity.
Defined.

(** ** [upload_file]: what is sent and what comes back *)

(** The [except] clauses of [upload_file]: an [HTTPError] has the body
    of the error response read and decoded, the other [OSError]s are
    reported at once. *)
Lemma upload_handlers pf req e w :
  handle e
    [ (HTTPError,
       try_ (error_body ← lift (http_error_body pf req); mret tt)
            [ (UnicodeDecodeError, mret tt); (OSError, mret tt) ];;
       mret (None : option UploadResult));
      (URLError, mret None);
      (OSError, mret None) ] w
  = (if issubclass e HTTPError then
       match http_error_body pf req with
       | Return _ => Return None
       | Raise e' =>
           if issubclass e' UnicodeDecodeError || issubclass e' OSError
           then Return None else Raise e'
       end
     else if issubclass e OSError then Return None else Raise e, w).
Proof.
  destruct e; try reflexivity.
  cbn [handle]. change (issubclass HTTPError HTTPError) with true. cbv iota.
  unfold mbind, M_bind, try_, lift.
  destruct (http_error_body pf req) as [body|e']; [reflexivity|].
  destruct e'; reflexivity.
Qed.

(** [upload_file] once the file has been read and its URL accepted. *)
Lemma upload_file_sent pf pdf_path data w :
  fs w !! pdf_path = Some data ->
  is_allowed_upload_url pf (upload_url pdf_path) = Return true ->
  upload_file pf pdf_path w =
    (let failure (e : exn) : result (option UploadResult) :=
       if issubclass e HTTPError then
         match http_error_body pf (upload_request pf pdf_path data) with
         | Return _ => Return None
         | Raise e' =>
             if issubclass e' UnicodeDecodeError || issubclass e' OSError
             then Return None else Raise e'
         end
       else if issubclass e OSError then Return None else Raise e in
     match urlopen pf (upload_request pf pdf_path data) 120 with
     | Return resp =>
         match json_url resp with
         | Return u =>
             Return (Some {| up_filename := pathlib.name pdf_path;
                             up_url := u; up_size := len data |})
         | Raise e => failure e
         end
     | Raise e => failure e
     end,
     {| fs := fs w; net := (net w ++ [(upload_request pf pdf_path data, 120)])%list |}).
Proof.
  intros Hf Hv. unfold upload_file. fold (upload_url pdf_path).
  rewrite bind_read_file, Hf, bind_lift, Hv. cbn [negb].
  fold (upload_request pf pdf_path data).
  unfold try_. unfold mbind at 1, M_bind at 1, do_urlopen. cbv zeta.
  destruct (urlopen pf (upload_request pf pdf_path data) 120) as [resp|e].
  - rewrite bind_lift. destruct (json_url resp) as [u|e]; [reflexivity|].
    apply upload_handlers.
  - apply upload_handlers.
Qed.

(** X7. A successful upload: when the file is readable, its URL is
    accepted and the store answers with a JSON object, [upload_file]
    has sent exactly one request, a [PUT] of the file's bytes to
    [https://blob.vercel-storage.com/<name>] with the bearer token, and
    returns the file's name, the [url] field of the answer and the
    number of bytes of the file. *)
Theorem X7_upload_file_success :
  forall pf pdf_path data w resp u,
    fs w !! pdf_path = Some data ->
    is_allowed_upload_url pf (upload_url pdf_path) = Return true ->
    urlopen pf (upload_request pf pdf_path data) 120 = Return resp ->
    json_url resp = Return u ->
    upload_file pf pdf_path w =
      (Return (Some {| up_filename := pathlib.name pdf_path;
                       up_url := u; up_size := len data |}),
       {| fs := fs w;
          net := (net w ++
                  [ ({| req_url := "https://blob.vercel-storage.com/"
                                   +:+ pathlib.name pdf_path;
                        req_data := Some data;
                        req_headers :=
                          [ ("Authorization", "Bearer " +:+ BLOB_TOKEN pf);
                            ("Content-Type", "application/pdf");
                            ("x-api-version", "7") ];
                        req_method := Some "PUT" |}, 120) ])%list |}).
Proof.
  intros pf pdf_path data w resp u Hf Hv Hopen Hjson.
  rewrite (upload_file_sent pf pdf_path data w Hf Hv), Hopen, Hjson. reflexivity.
Qed.

Lemma X7_witness :
  fst (upload_file (Cases.answering (Return Cases.stored)) Cases.report_path Cases.with_pdf)
  = Return (Some {| up_filename := "report.pdf";
                    up_url := "https://blob.vercel-storage.com/report-Ab12.pdf";
                    up_size := 4 |}).
Proof.
  rewrite (X7_upload_file_success (Cases.answering (Return Cases.stored))
             Cases.report_path [Byte.x25; Byte.x50; Byte.x44; Byte.x46] Cases.with_pdf
             Cases.stored "https://blob.vercel-storage.com/report-Ab12.pdf").
  - reflexivity.
  - vm_compute. reflexivity.
  - vm_compute. reflexivity.
  - reflexivity.
  - reflexivity.
Defined.

(** X8. [upload_file] never changes a file. A file that cannot be read
    makes it raise [OSError] before the URL is validated and before any
    request. A network failure of the upload ([OSError] and its
    subclasses) other than an error status of the store makes it return
    [None]. On an error status ([HTTPError]) the body of the error
    response is read and decoded: [upload_file] returns [None] when
    that succeeds and when it fails with a [UnicodeDecodeError] or an
    [OSError], and any other exception of the read leaves
    [upload_file]. *)
Theorem X8_upload_file_leaves_files :
  forall pf pdf_path w,
    fs (snd (upload_file pf pdf_path w)) = fs w /\
    (fs w !! pdf_path = None -> upload_file pf pdf_path w = (Raise OSError, w)) /\
    (forall data e,
       fs w !! pdf_path = Some data ->
       is_allowed_upload_url pf (upload_url pdf_path) = Return true ->
       urlopen pf (upload_request pf pdf_path data) 120 = Raise e ->
       issubclass e OSError = true ->
       issubclass e HTTPError = false ->
       fst (upload_file pf pdf_path w) = Return None) /\
    (forall data e,
       fs w !! pdf_path = Some data ->
       is_allowed_upload_url pf (upload_url pdf_path) = Return true ->
       urlopen pf (upload_request pf pdf_path data) 120 = Raise e ->
       issubclass e HTTPError = true ->
       fst (upload_file pf pdf_path w) =
         match http_error_body pf (upload_request pf pdf_path data) with
         | Return _ => Return None
         | Raise e' =>
             if issubclass e' UnicodeDecodeError || issubclass e' OSError
             then Return None else Raise e'
         end).
Proof.
  intros pf pdf_path w. split; [|split; [|split]].
  - destruct (fs w !! pdf_path) as [data|] eqn:Hf.
    + destruct (is_allowed_upload_url pf (upload_url pdf_path)) as [[|]|e] eqn:Hv.
      * rewrite (upload_file_sent pf pdf_path data w Hf Hv). reflexivity.
      * rewrite (upload_file_rejected pf pdf_path data w Hf Hv). reflexivity.
      * unfold upload_file. fold (upload_url pdf_path).
        rewrite bind_read_file, Hf, bind_lift, Hv. reflexivity.
    + unfold upload_file. rewrite bind_read_file, Hf. reflexivity.
  - intros Hf. unfold upload_file. rewrite bind_read_file, Hf. reflexivity.
  - intros data e Hf Hv Hopen He Hhttp.
    rewrite (upload_file_sent pf pdf_path data w Hf Hv), Hopen.
    cbv beta iota zeta. rewrite Hhttp, He. reflexivity.
  - intros data e Hf Hv Hopen Hhttp.
    rewrite (upload_file_sent pf pdf_path data w Hf Hv), Hopen.
    cbv beta iota zeta. rewrite Hhttp. reflexivity.
Qed.

(** Scenario of X8: without the file, [upload_file] raises; and when the
    store answers with an error status whose body breaks off, the
    [IncompleteRead] of the read leaves [upload_file]. *)
Lemma X8_witness :
  upload_file (Cases.answering (Return Cases.stored)) Cases.report_path Scenario.empty_world
    = (Raise OSError, Scenario.empty_world) /\
  fst (upload_file Cases.error_cut_short Cases.report_path Cases.with_pdf)
    = Raise IncompleteRead.
Proof.
  split.
  - apply (proj1 (proj2 (X8_upload_file_leaves_files
             (Cases.answering (Return Cases.stored)) Cases.report_path Scenario.empty_world))).
    reflexivity.
  - rewrite (proj2 (proj2 (proj2 (X8_upload_file_leaves_files
               Cases.error_cut_short Cases.report_path Cases.with_pdf)))
               [Byte.x25; Byte.x50; Byte.x44; Byte.x46] HTTPError).
    + reflexivity.
    + reflexivity.
    + vm_compute. reflexivity.
    + reflexivity.
    + reflexivity.
Defined.

(** ** [extract_pdfs]: what a run creates *)


(** The loop returns when no lookup fails. *)
Lemma extract_loop_returns pf zf dest_dir members :
  lookups_succeed pf ->
  forall count w, exists count', fst (extract_loop pf zf dest_dir members count w) = Return count'.
Proof.
  intros Hlook. induction members as [|member rest IH]; intros count w.
  - exists count. reflexivity.
  - rewrite extract_loop_cons.
    destruct (endswith (lower member) ".pdf"); [|apply IH].
    cbv zeta. destruct (String.eqb _ EmptyString); [apply IH|].
    rewrite Hlook.
    destruct (bool_decide _); [apply IH|].
    destruct (zf_read zf member) as [data|e]; [|apply IH].
    destruct (os_error pf (fs w) (op_write_bytes _ _)); apply IH.
Qed.



(** Where the lookup of the first destination fails, the run stops
    with that error and nothing is written. *)
Example extract_pdfs_lookup_fails :
  extract_pdfs Cases.unsearchable Scenario.zip_path Scenario.data_dir 1
    Scenario.world_with_report
  = (Raise OSError, Scenario.world_with_report).
Proof. vm_compute. reflexivity. Qed.

(** After a run of the loop in which no lookup fails and no write is
    refused, every ".pdf" member has its destination on disk or cannot
    be read. *)
Lemma extract_loop_covers pf zf dest_dir members :
  lookups_succeed pf -> writes_succeed pf ->
  forall count w member,
  member ∈ members ->
  endswith (lower member) ".pdf" = true ->
  is_Some (fs (snd (extract_loop pf zf dest_dir members count w))
             !! pathlib.joinpath dest_dir (pathlib.name (pathlib.PurePath member))) \/
  exists e, zf_read zf member = Raise e.
Proof.
  intros Hlook Hwrite.
  induction members as [|m rest IH]; intros count w member Hin Hpdf.
  - inversion Hin.
  - apply elem_of_cons in Hin as [-> | Hin].
    + rewrite extract_loop_cons, Hpdf. cbv zeta.
      destruct (pdf_member_name m Hpdf) as (_ & Hname & _).
      destruct (pdf_name_is_file _ Hname) as (Hne & _).
      apply String.eqb_neq in Hne. rewrite Hne, Hlook.
      destruct (bool_decide _) eqn:Hex.
      * apply bool_decide_eq_true_1 in Hex. destruct Hex as [d Hd].
        left. exists d. apply extract_loop_keeps_files. exact Hd.
      * destruct (zf_read zf m) as [data|e]; [|right; exists e; reflexivity].
        rewrite Hwrite.
        left. exists data. apply extract_loop_keeps_files. simpl. apply lookup_insert_eq.
    + rewrite extract_loop_cons.
      destruct (endswith (lower m) ".pdf"); [|apply IH; assumption].
      cbv zeta. destruct (String.eqb _ EmptyString); [apply IH; assumption|].
      rewrite Hlook.
      destruct (bool_decide _); [apply IH; assumption|].
      destruct (zf_read zf m); [|apply IH; assumption].
      rewrite Hwrite. apply IH; assumption.
Qed.

(** A run of the loop over members that are all on disk or unreadable
    does nothing, when no lookup fails. *)
Lemma extract_loop_nothing_left pf zf dest_dir members :
  lookups_succeed pf ->
  forall count w,
  (forall member, member ∈ members -> endswith (lower member) ".pdf" = true ->
     is_Some (fs w !! pathlib.joinpath dest_dir (pathlib.name (pathlib.PurePath member))) \/
     exists e, zf_read zf member = Raise e) ->
  extract_loop pf zf dest_dir members count w = (Return count, w).
Proof.
  intros Hlook.
  induction members as [|m rest IH]; intros count w Hall.
  - reflexivity.
  - assert (extract_loop pf zf dest_dir rest count w = (Return count, w)) as Hrest.
    { apply IH. intros member Hin. apply Hall. apply list_elem_of_further. exact Hin. }
    rewrite extract_loop_cons.
    destruct (endswith (lower m) ".pdf") eqn:Hpdf; [|exact Hrest].
    cbv zeta. destruct (String.eqb _ EmptyString); [exact Hrest|].
    rewrite Hlook.
    destruct (Hall m (list_elem_of_here _ _) Hpdf) as [Hsome | [e He]].
    + rewrite bool_decide_eq_true_2 by exact Hsome. exact Hrest.
    + destruct (bool_decide _); [exact Hrest|]. rewrite He. exact Hrest.
Qed.

(** X10. On a system where no lookup fails and no write is refused,
    extracting the same archive again does nothing: the second run
    returns 0 and leaves the world as the first run left it. *)
Theorem X10_extract_pdfs_idempotent :
  forall pf zip_path dest_dir dataset_num dataset_num' w zf,
    zipfile_ZipFile pf zip_path = Return zf ->
    lookups_succeed pf ->
    writes_succeed pf ->
    extract_pdfs pf zip_path dest_dir dataset_num'
      (snd (extract_pdfs pf zip_path dest_dir dataset_num w))
    = (Return 0, snd (extract_pdfs pf zip_path dest_dir dataset_num w)).
Proof.
  intros pf zip_path dest_dir dataset_num dataset_num' w zf Hzip Hlook Hwrite.
  unfold extract_pdfs. rewrite !bind_lift, Hzip.
  apply extract_loop_nothing_left; [exact Hlook|]. intros member Hin Hpdf.
  apply extract_loop_covers; assumption.
Qed.

Lemma X10_witness :
  extract_pdfs Scenario.unzipping Scenario.zip_path Scenario.data_dir 1
    (snd (extract_pdfs Scenario.unzipping Scenario.zip_path Scenario.data_dir 1
            Scenario.world_with_report))
  = (Return 0,
     snd (extract_pdfs Scenario.unzipping Scenario.zip_path Scenario.data_dir 1
            Scenario.world_with_report)).
Proof.
  apply (X10_extract_pdfs_idempotent Scenario.unzipping Scenario.zip_path
           Scenario.data_dir 1 1 Scenario.world_with_report Scenario.archive).
  - reflexivity.
  - intros files p. reflexivity.
  - intros files p data. reflexivity.
Defined.

(** X11. Which member wins: when no lookup fails, a readable ".pdf"
    member whose destination is free before the run, which no readable
    earlier member shares its destination with, and whose write is not
    refused, is extracted; after the run its destination holds its
    content, whatever comes later in the archive. *)
Theorem X11_extract_pdfs_first_member_wins :
  forall pf zip_path dest_dir dataset_num w zf before member after data,
    zipfile_ZipFile pf zip_path = Return zf ->
    namelist zf = (before ++ member :: after)%list ->
    endswith (lower member) ".pdf" = true ->
    zf_read zf member = Return data ->
    fs w !! pathlib.joinpath dest_dir (pathlib.name (pathlib.PurePath member)) = None ->
    (forall m, m ∈ before -> endswith (lower m) ".pdf" = true ->
       pathlib.joinpath dest_dir (pathlib.name (pathlib.PurePath m))
       = pathlib.joinpath dest_dir (pathlib.name (pathlib.PurePath member)) ->
       exists e, zf_read zf m = Raise e) ->
    lookups_succeed pf ->
    (forall files,
       os_error pf files
         (op_write_bytes
            (pathlib.joinpath dest_dir (pathlib.name (pathlib.PurePath member))) data)
       = None) ->
    fs (snd (extract_pdfs pf zip_path dest_dir dataset_num w))
      !! pathlib.joinpath dest_dir (pathlib.name (pathlib.PurePath member)) = Some data.
Proof.
  intros pf zip_path dest_dir dataset_num w zf before member after data
    Hzip Hsplit Hpdf Hread Hfree Hfirst Hlook Hwrite.
  unfold extract_pdfs. rewrite bind_lift, Hzip, Hsplit, extract_loop_app.
  set (p := pathlib.joinpath dest_dir (pathlib.name (pathlib.PurePath member))) in *.
  assert (fs (snd (extract_loop pf zf dest_dir before 0 w)) !! p = None) as Hstill.
  { destruct (extract_loop_spec pf zf dest_dir before 0 w) as (_ & Hfs).
    destruct (Hfs p) as [Hsame | (_ & m & d & Hin & Hm & Hp & Hr & _)]; [congruence|].
    destruct (Hfirst m Hin Hm (eq_sym Hp)) as [e He]. congruence. }
  destruct (extract_loop_returns pf zf dest_dir before Hlook 0 w) as [c Hc].
  destruct (extract_loop pf zf dest_dir before 0 w) as [[c'|e] w1];
    simpl in Hc, Hstill; [|discriminate].
  rewrite extract_loop_cons, Hpdf. cbv zeta.
  destruct (pdf_member_name member Hpdf) as (_ & Hname & _).
  destruct (pdf_name_is_file _ Hname) as (Hne & _).
  apply String.eqb_neq in Hne. rewrite Hne.
  fold p. rewrite Hlook.
  rewrite bool_decide_eq_false_2 by (rewrite Hstill; apply is_Some_None).
  rewrite Hread, Hwrite. apply extract_loop_keeps_files. simpl. apply lookup_insert_eq.
Qed.

Lemma X11_witness :
  fs (snd (extract_pdfs Scenario.unzipping Scenario.zip_path Scenario.data_dir 1
             Scenario.world_with_report))
    !! ("/", ["srv"; "data"; "evil.pdf"]) = Some [Byte.x41].
Proof.
  apply (X11_extract_pdfs_first_member_wins Scenario.unzipping Scenario.zip_path
           Scenario.data_dir 1 Scenario.world_with_report Scenario.archive
           [] "../../evil.pdf"
           ["docs/Report.PDF"; "other/evil.pdf"; "broken.pdf"; "notes.txt"; "docs/"]
           [Byte.x41]).
  - reflexivity.
  - reflexivity.
  - vm_compute. reflexivity.
  - vm_compute. reflexivity.
  - vm_compute. reflexivity.
  - intros m Hm. inversion Hm.
  - intros files p. reflexivity.
  - intros files. reflexivity.
Defined.

(** ** [verify_hash] *)

Lemma upper_lower_ascii c : upper_ascii (lower_ascii c) = upper_ascii c.
Proof. destruct c as [[] [] [] [] [] [] [] []]; vm_compute; reflexivity. Qed.

Lemma upper_upper_ascii c : upper_ascii (upper_ascii c) = upper_ascii c.
Proof. destruct c as [[] [] [] [] [] [] [] []]; vm_compute; reflexivity. Qed.

Lemma upper_lower s : upper (lower s) = upper s.
Proof. induction s as [|c s IH]; simpl; [reflexivity|]. rewrite upper_lower_ascii, IH. reflexivity. Qed.

Lemma upper_upper s : upper (upper s) = upper s.
Proof. induction s as [|c s IH]; simpl; [reflexivity|]. rewrite upper_upper_ascii, IH. reflexivity. Qed.

(** X12. [verify_hash] compares without regard to case: for an ASCII
    expected hash, writing it in lower or in upper case gives the same
    outcome. It changes nothing, and a file that does not exist makes
    it raise [OSError]. *)
Theorem X12_verify_hash_ignores_case :
  forall rt file_path expected_hash w,
    is_ascii expected_hash = true ->
    verify_hash rt file_path (lower expected_hash) w
      = verify_hash rt file_path expected_hash w /\
    verify_hash rt file_path (upper expected_hash) w
      = verify_hash rt file_path expected_hash w /\
    snd (verify_hash rt file_path expected_hash w) = w /\
    (fs w !! file_path = None ->
     fst (verify_hash rt file_path expected_hash w) = Raise OSError).
Proof.
  intros rt file_path expected_hash w _. unfold verify_hash.
  rewrite !bind_read_file. destruct (fs w !! file_path) as [data|].
  - cbv zeta. rewrite upper_lower, upper_upper. repeat split. discriminate.
  - repeat split.
Qed.

(** Scenario of X12: the digest recorded for dataset 8 is written in
    lower case; in upper case it is accepted as well. *)
Lemma X12_witness :
  verify_hash Runs.runtime Runs.dataset_8_zip
    (upper "8cb7345bf7a0b32f183658ac170fb0b6527895c95f0233d7b99d544579567294")
    Runs.with_dataset_8
  = verify_hash Runs.runtime Runs.dataset_8_zip
      "8cb7345bf7a0b32f183658ac170fb0b6527895c95f0233d7b99d544579567294"
      Runs.with_dataset_8.
Proof.
  apply (proj1 (proj2 (X12_verify_hash_ignores_case Runs.runtime Runs.dataset_8_zip
           "8cb7345bf7a0b32f183658ac170fb0b6527895c95f0233d7b99d544579567294"
           Runs.with_dataset_8 eq_refl))).
Defined.

(** ** [download_dataset]: mirrors and requests *)

Lemma quiet_emits {A} (P : list (Request * Z) -> Prop) (m : M A) :
  P [] -> quiet m -> emits P m.
Proof. intros HP Hq w. exists []. rewrite app_nil_r. split; [apply Hq | exact HP]. Qed.

Lemma emits_bind_quiet_l {A B} P (m : M A) (k : A -> M B) :
  quiet m -> (forall a, emits P (k a)) -> P [] -> emits P (m ≫= k).
Proof.
  intros Hm Hk HP w. unfold mbind, M_bind. specialize (Hm w).
  destruct (m w) as [[a|e] w1]; simpl in *.
  - destruct (Hk a w1) as (reqs & Hnet & Hreqs). exists reqs. rewrite Hnet, Hm. auto.
  - exists []. rewrite app_nil_r. auto.
Qed.

Lemma emits_bind_quiet_r {A B} P (m : M A) (k : A -> M B) :
  emits P m -> (forall a, quiet (k a)) -> emits P (m ≫= k).
Proof.
  intros Hm Hk w. unfold mbind, M_bind. destruct (Hm w) as (reqs & Hnet & Hreqs).
  destruct (m w) as [[a|e] w1]; simpl in *.
  - exists reqs. rewrite Hk. auto.
  - exists reqs. auto.
Qed.

Lemma quiet_stat_size p : quiet (stat_size p).
Proof. intros w. unfold stat_size. destruct (fs w !! p); reflexivity. Qed.

Lemma quiet_unlink p : quiet (unlink p).
Proof. intros w. unfold unlink. destruct (fs w !! p); reflexivity. Qed.

Lemma quiet_read_file p : quiet (read_file p).
Proof. intros w. unfold read_file. destruct (fs w !! p); reflexivity. Qed.

Lemma quiet_exists p : quiet (path_exists p).
Proof. intros w. reflexivity. Qed.

Lemma quiet_verify_hash rt p h : quiet (verify_hash rt p h).
Proof.
  unfold verify_hash. apply quiet_bind; [apply quiet_read_file|].
  intros data. apply quiet_ret.
Qed.

Lemma quiet_extract_pdfs pf zip_path dest_dir n : quiet (extract_pdfs pf zip_path dest_dir n).
Proof.
  unfold extract_pdfs. apply quiet_bind; [apply quiet_lift|]. intros zf w.
  apply (extract_loop_spec pf zf dest_dir (namelist zf) 0 w).
Qed.

Lemma mirror_requests_nil pf mirrors : mirror_requests pf mirrors [].
Proof. split; [apply sublist_nil_l | constructor]. Qed.

(** The requests of the mirror loop. *)
Lemma mirror_loop_emits pf mirrors zip_path sz :
  emits (mirror_requests pf mirrors) (mirror_loop pf mirrors zip_path sz).
Proof.
  induction mirrors as [|url rest IH]; intros w.
  - exists []. rewrite app_nil_r. split; [reflexivity | apply mirror_requests_nil].
  - simpl mirror_loop. unfold mbind, M_bind.
    pose proof (download_file_net pf url zip_path sz w) as Hnet.
    destruct (download_file pf url zip_path sz w) as [[ok|e] w1]; simpl in Hnet.
    + assert (exists first, net w1 = (net w ++ first)%list /\
                            mirror_requests pf [url] first) as (first & Hw1 & Hfirst).
      { destruct Hnet as [Hsame | (Hv & req & Hurl & Hone)].
        - exists []. rewrite app_nil_r. split; [exact Hsame | apply mirror_requests_nil].
        - exists [(req, 300)]. split; [exact Hone|]. split.
          + simpl. rewrite Hurl. reflexivity.
          + repeat constructor. simpl. rewrite Hurl. exact Hv. }
      destruct Hfirst as [Hsub Hall].
      destruct ok.
      * exists first. split; [exact Hw1|]. split; [|exact Hall].
        pose proof (sublist_app _ _ _ _ Hsub (sublist_nil_l rest)) as Hsub'.
        rewrite app_nil_r in Hsub'. exact Hsub'.
      * destruct (IH w1) as (more & Hmore & [Hsub' Hall']).
        exists (first ++ more)%list. rewrite Hmore, Hw1, app_assoc.
        split; [reflexivity|]. split.
        -- rewrite map_app. exact (sublist_app _ _ _ _ Hsub Hsub').
        -- apply Forall_app. split; assumption.
    + destruct Hnet as [Hsame | (Hv & req & Hurl & Hone)].
      * exists []. rewrite app_nil_r. split; [exact Hsame | apply mirror_requests_nil].
      * exists [(req, 300)]. split; [exact Hone|]. split.
        -- simpl. rewrite Hurl. apply sublist_skip, sublist_nil_l.
        -- repeat constructor. simpl. rewrite Hurl. exact Hv.
Qed.

(** X13. Every request of [download_dataset] is a download from a
    mirror of that dataset: the requested URLs follow the order of the
    dataset's list of mirrors, the validator has accepted each of them,
    and each request has the timeout of 300 seconds. A dataset that is
    not configured gives no request. *)
Theorem X13_download_dataset_requests_mirrors :
  forall rt pf dataset_num skip_verify w,
    exists reqs,
      net (snd (download_dataset rt pf dataset_num skip_verify w)) = (net w ++ reqs)%list /\
      sublist (map (fun r => req_url (fst r)) reqs)
              (match DATASETS !! dataset_num with
               | Some info => urls info
               | None => []
               end) /\
      Forall (fun r => is_allowed_download_url pf (req_url (fst r)) = Return true /\
                       snd r = 300) reqs.
Proof.
  intros rt pf dataset_num skip_verify. unfold download_dataset.
  destruct (DATASETS !! dataset_num) as [info|].
  2:{ intros w. exists []. rewrite app_nil_r. split; [reflexivity|].
      split; [apply sublist_nil_l | constructor]. }
  cbv zeta.
  set (zip_path := pathlib.joinpath (DOWNLOAD_DIR rt) _).
  assert (quiet (try_ (extract_pdfs pf zip_path (DATA_DIR rt) dataset_num)
                      [(BadZipFile, mret 0)])) as Hextract.
  { apply quiet_try; [apply quiet_extract_pdfs|]. constructor; [apply quiet_ret | constructor]. }
  change (emits (mirror_requests pf (urls info))
    (path_exists zip_path ≫= fun present : bool =>
       (if present
        then stat_size zip_path ≫= fun actual_size =>
               if size_reaches rt actual_size (size_mb info)
               then if negb skip_verify
                    then verify_hash rt zip_path (sha256 info) ≫= fun ok =>
                           if negb ok then unlink zip_path else mret tt
                    else mret tt
               else mret tt
        else mret tt) ≫= fun _ =>
       path_exists zip_path ≫= fun present : bool =>
       (if present
        then stat_size zip_path ≫= fun actual_size => mret (actual_size <? 1000)
        else mret false) ≫= fun small : bool =>
       if negb present || small
       then mirror_loop pf (urls info) zip_path (size_mb info) ≫= fun success =>
              if negb success then mret 0
              else (if negb skip_verify
                    then verify_hash rt zip_path (sha256 info) ≫= fun _ => mret tt
                    else mret tt) ≫= fun _ =>
                   try_ (extract_pdfs pf zip_path (DATA_DIR rt) dataset_num)
                        [(BadZipFile, mret 0)]
       else try_ (extract_pdfs pf zip_path (DATA_DIR rt) dataset_num)
                 [(BadZipFile, mret 0)])).
  apply emits_bind_quiet_l; [apply quiet_exists | | apply mirror_requests_nil].
  intros present.
  apply emits_bind_quiet_l; [| | apply mirror_requests_nil].
  { destruct present; [|apply quiet_ret].
    apply quiet_bind; [apply quiet_stat_size|]. intros actual_size.
    destruct (size_reaches rt actual_size (size_mb info)); [|apply quiet_ret].
    destruct (negb skip_verify); [|apply quiet_ret].
    apply quiet_bind; [apply quiet_verify_hash|]. intros ok.
    destruct (negb ok); [apply quiet_unlink | apply quiet_ret]. }
  intros _.
  apply emits_bind_quiet_l; [apply quiet_exists | | apply mirror_requests_nil].
  intros present'.
  apply emits_bind_quiet_l; [| | apply mirror_requests_nil].
  { destruct present'; [|apply quiet_ret].
    apply quiet_bind; [apply quiet_stat_size|]. intros ?. apply quiet_ret. }
  intros small.
  destruct (negb present' || small).
  - apply emits_bind_quiet_r; [apply mirror_loop_emits|].
    intros success. destruct (negb success); [apply quiet_ret|].
    apply quiet_bind; [|intros _; exact Hextract].
    destruct (negb skip_verify); [|apply quiet_ret].
    apply quiet_bind; [apply quiet_verify_hash | intros _; apply quiet_ret].
  - apply quiet_emits; [apply mirror_requests_nil | exact Hextract].
Qed.

(** Scenario of X13: the three mirrors of dataset 1 refuse the
    connection; each is asked once, in the order of the list, and the
    run gives 0. *)
Example download_dataset_scenario :
  download_dataset Runs.runtime Runs.refusing 1 true Scenario.empty_world
  = (Return 0,
     {| fs := ∅;
        net := [ (download_request "https://archive.org/download/data-set-1/DataSet%201.zip" 0, 300);
                 (download_request
                    "https://copyparty.vvv.systems/DOJ%20Epstein%20Files/justice.gov/DataSet%201.zip" 0, 300);
                 (download_request "https://www.justice.gov/epstein/files/DataSet%201.zip" 0, 300) ] |}).
Proof. vm_compute. reflexivity. Qed.

Lemma extract_pdfs_keeps_files pf zip_path dest_dir n w p d :
  fs w !! p = Some d ->
  fs (snd (extract_pdfs pf zip_path dest_dir n w)) !! p = Some d.
Proof.
  intros H. unfold extract_pdfs. rewrite bind_lift.
  destruct (zipfile_ZipFile pf zip_path) as [zf|e]; [|exact H].
  apply extract_loop_keeps_files. exact H.
Qed.

Lemma bind_path_exists {B} p (k : bool -> M B) w :
  (path_exists p ≫= k) w = k (bool_decide (is_Some (fs w !! p))) w.
Proof. reflexivity. Qed.

Lemma bind_stat_size {B} p (k : Z -> M B) w d :
  fs w !! p = Some d -> (stat_size p ≫= k) w = k (len d) w.
Proof. intros H. unfold mbind, M_bind, stat_size. rewrite H. reflexivity. Qed.


Lemma bind_verify_hash {B} rt p h (k : bool -> M B) w d :
  fs w !! p = Some d ->
  (verify_hash rt p h ≫= k) w
  = k (String.eqb (upper (sha256_hexdigest rt d)) (upper h)) w.
Proof.
  intros H. unfold verify_hash, mbind, M_bind, read_file. rewrite H. reflexivity.
Qed.

Lemma bind_unlink {B} p (k : unit -> M B) w d :
  fs w !! p = Some d ->
  (unlink p ≫= k) w = k tt {| fs := delete p (fs w); net := net w |}.
Proof. intros H. unfold mbind, M_bind, unlink. rewrite H. reflexivity. Qed.


(** X14. An archive on disk is kept: when the archive of the dataset
    exists and has at least 1000 bytes, and verification is skipped, or
    the archive is under nine tenths of the expected size (it is then
    not verified), or its digest is the recorded one, [download_dataset]
    asks no mirror and goes on to the extraction of that archive. *)
Theorem X14_download_dataset_keeps_archive :
  forall rt pf dataset_num skip_verify w info d,
    DATASETS !! dataset_num = Some info ->
    fs w !! dataset_zip_path rt dataset_num = Some d ->
    1000 <= len d ->
    skip_verify = true \/
    size_reaches rt (len d) (size_mb info) = false \/
    upper (sha256_hexdigest rt d) = upper (sha256 info) ->
    download_dataset rt pf dataset_num skip_verify w
      = extract_dataset rt pf dataset_num w /\
    net (snd (download_dataset rt pf dataset_num skip_verify w)) = net w /\
    fs (snd (download_dataset rt pf dataset_num skip_verify w))
      !! dataset_zip_path rt dataset_num = Some d.
Proof.
  intros rt pf dataset_num skip_verify w info d Hinfo Hzip Hsize Hkeep.
  assert (download_dataset rt pf dataset_num skip_verify w
          = extract_dataset rt pf dataset_num w) as Hrun.
  { unfold download_dataset, extract_dataset. rewrite Hinfo. cbv zeta.
    fold (dataset_zip_path rt dataset_num).
    set (zip_path := dataset_zip_path rt dataset_num) in *.
    assert (bool_decide (is_Some (fs w !! zip_path)) = true) as Hex
      by (apply bool_decide_eq_true_2; rewrite Hzip; eexists; reflexivity).
    assert ((len d <? 1000) = false) as Hbig by (apply Z.ltb_ge; lia).
    rewrite bind_path_exists, Hex.
    assert (forall (k : unit -> M Z),
      ((stat_size zip_path ≫= fun actual_size =>
          if size_reaches rt actual_size (size_mb info)
          then if negb skip_verify
               then verify_hash rt zip_path (sha256 info) ≫= fun ok =>
                      if negb ok then unlink zip_path else mret tt
               else mret tt
          else mret tt) ≫= k) w = k tt w) as Hcheck.
    { intros k. unfold mbind at 1, M_bind at 1. rewrite (bind_stat_size _ _ _ d Hzip).
      destruct (size_reaches rt (len d) (size_mb info)) eqn:Hreach; [|reflexivity].
      destruct skip_verify; [reflexivity|]. cbn [negb]. cbv iota.
      rewrite (bind_verify_hash _ _ _ _ _ d Hzip).
      destruct Hkeep as [Hk | [Hk | Hk]]; [discriminate | discriminate |].
      rewrite Hk, String.eqb_refl. reflexivity. }
    rewrite Hcheck. rewrite bind_path_exists, Hex.
    unfold mbind at 1, M_bind at 1. rewrite (bind_stat_size _ _ _ d Hzip).
    unfold mret at 1, M_ret at 1. rewrite Hbig. reflexivity. }
  split; [exact Hrun|]. rewrite Hrun. unfold extract_dataset. split.
  - apply quiet_try; [apply quiet_extract_pdfs|].
    constructor; [apply quiet_ret | constructor].
  - unfold try_.
    pose proof (extract_pdfs_keeps_files pf (dataset_zip_path rt dataset_num)
                  (DATA_DIR rt) dataset_num w _ _ Hzip) as Hkept.
    destruct (extract_pdfs pf (dataset_zip_path rt dataset_num) (DATA_DIR rt) dataset_num w)
      as [[count|e] w1]; simpl in *; [exact Hkept|].
    destruct (issubclass e BadZipFile); simpl; exact Hkept.
Qed.

(** Scenario of X14: an archive of dataset 8 of 1000 bytes, and a run
    that skips verification. *)
Lemma X14_witness :
  net (snd (download_dataset Runs.runtime Runs.refusing 8 true Runs.with_dataset_8)) = [].
Proof.
  apply (proj1 (proj2 (X14_download_dataset_keeps_archive Runs.runtime Runs.refusing 8 true
           Runs.with_dataset_8
           {| size_mb := 10670;
              urls := [ "https://archive.org/download/data-set-8/DataSet%208.zip";
                        "https://copyparty.vvv.systems/DOJ%20Epstein%20Files/justice.gov/DataSet%208.zip";
                        "https://www.justice.gov/epstein/files/DataSet%208.zip" ];
              sha256 := "8cb7345bf7a0b32f183658ac170fb0b6527895c95f0233d7b99d544579567294" |}
           (replicate 1000 Byte.x00)
           ltac:(vm_compute; reflexivity) ltac:(vm_compute; reflexivity)
           ltac:(vm_compute; discriminate) (or_introl eq_refl)))).
Defined.







(** ** [load_env] *)

Module dotenv_facts.
Import dotenv.

Lemma setdefault_keeps key value (environ : gmap string string) k v :
  environ !! k = Some v -> snd (setdefault key value environ) !! k = Some v.
Proof.
  intros H. unfold setdefault. destruct (environ !! key) eqn:Hkey; [exact H|].
  destruct (has_char NUL key || has_char NUL value); [exact H|].
  simpl. rewrite lookup_insert_ne; [exact H|]. intros ->. congruence.
Qed.

(** A call that raises leaves the environment as it was. *)
Lemma setdefault_raises key value (environ : gmap string string) e :
  fst (setdefault key value environ) = Raise e ->
  setdefault key value environ = (Raise ValueError, environ) /\ e = ValueError /\
  environ !! key = None /\ has_char NUL key || has_char NUL value = true.
Proof.
  unfold setdefault. destruct (environ !! key) eqn:Hkey; [discriminate|].
  destruct (has_char NUL key || has_char NUL value); [|discriminate].
  intros [= <-]. repeat split.
Qed.

(** A call that returns leaves the key set. *)
Lemma setdefault_sets key value (environ : gmap string string) :
  fst (setdefault key value environ) = Return tt ->
  is_Some (snd (setdefault key value environ) !! key).
Proof.
  unfold setdefault. destruct (environ !! key) eqn:Hkey.
  - intros _. simpl. rewrite Hkey. eexists; reflexivity.
  - destruct (has_char NUL key || has_char NUL value); [discriminate|].
    intros _. simpl. rewrite lookup_insert_eq. eexists; reflexivity.
Qed.

(** One turn of the loop of [load_env]. *)
Lemma load_lines_cons strip line rest (environ : gmap string string) :
  load_lines strip (line :: rest) environ =
  match entry strip line with
  | Some (key, value) =>
      match fst (setdefault key value environ) with
      | Return _ => load_lines strip rest (snd (setdefault key value environ))
      | Raise e => (Raise e, snd (setdefault key value environ))
      end
  | None => load_lines strip rest environ
  end.
Proof.
  simpl. destruct (entry strip line) as [[key value]|]; [|reflexivity].
  destruct (setdefault key value environ) as [[u|e] environ']; reflexivity.
Qed.

Lemma load_lines_keeps strip lines : forall (environ : gmap string string) k v,
  environ !! k = Some v -> snd (load_lines strip lines environ) !! k = Some v.
Proof.
  induction lines as [|line rest IH]; intros environ k v H; [exact H|].
  rewrite load_lines_cons.
  destruct (entry strip line) as [[key value]|]; [|apply IH; exact H].
  pose proof (setdefault_keeps key value environ k v H) as Hkept.
  destruct (fst (setdefault key value environ)); [apply IH|]; exact Hkept.
Qed.

(** Where a variable of the result comes from. *)
Lemma load_lines_origin strip lines : forall (environ : gmap string string) k v,
  snd (load_lines strip lines environ) !! k = Some v ->
  environ !! k = Some v \/
  (environ !! k = None /\ exists line, line ∈ lines /\ entry strip line = Some (k, v)).
Proof.
  induction lines as [|line rest IH]; intros environ k v H; [left; exact H|].
  rewrite load_lines_cons in H.
  destruct (entry strip line) as [[key value]|] eqn:Hentry.
  - assert (snd (setdefault key value environ) !! k = Some v ->
            environ !! k = Some v \/
            (environ !! k = None /\ exists line0, line0 ∈ line :: rest /\
               entry strip line0 = Some (k, v))) as Hstep.
    { unfold setdefault. destruct (environ !! key) eqn:Hkey; [left; assumption|].
      destruct (has_char NUL key || has_char NUL value); [left; assumption|].
      simpl. intros Hset.
      destruct (decide (key = k)) as [-> | Hne].
      - rewrite lookup_insert_eq in Hset. injection Hset as ->.
        right. split; [exact Hkey|]. exists line. split; [apply list_elem_of_here | exact Hentry].
      - rewrite lookup_insert_ne in Hset by exact Hne. left. exact Hset. }
    destruct (fst (setdefault key value environ)); [|apply Hstep; exact H].
    destruct (IH _ _ _ H) as [Hset | (Hnone & l & Hin & Hl)]; [apply Hstep; exact Hset|].
    right. split.
    + destruct (environ !! k) eqn:Hk; [|reflexivity].
      rewrite (setdefault_keeps key value environ k _ Hk) in Hnone. discriminate.
    + exists l. split; [apply list_elem_of_further; exact Hin | exact Hl].
  - destruct (IH _ _ _ H) as [Hset | (Hnone & l & Hin & Hl)]; [left; exact Hset|].
    right. split; [exact Hnone|]. exists l.
    split; [apply list_elem_of_further; exact Hin | exact Hl].
Qed.

(** What a contributing line looks like. *)
Lemma entry_shape strip line key value :
  entry strip line = Some (key, value) ->
  has_char "=" line = true /\ String.prefix "#" line = false /\
  key <> EmptyString /\ value <> EmptyString /\
  key = strip (fst (partition "=" line)) /\
  value = strip_char single_quote
            (strip_char double_quote (strip (snd (partition "=" line)))).
Proof.
  unfold entry. intros H.
  destruct (has_char "=" line) eqn:Heq; [|discriminate].
  destruct (String.prefix "#" line) eqn:Hc; [discriminate|]. simpl in H.
  destruct (partition "=" line) as [before after].
  destruct (String.eqb (strip before) EmptyString) eqn:Hk; [discriminate|].
  destruct (String.eqb _ EmptyString) eqn:Hv in H; [discriminate|].
  simpl in H. injection H as <- <-.
  apply String.eqb_neq in Hk, Hv. repeat split; assumption.
Qed.

(** After a run that returns, the name of every contributing line is
    set. *)
Lemma load_lines_covers strip lines : forall (environ : gmap string string) line key value,
  fst (load_lines strip lines environ) = Return tt ->
  line ∈ lines -> entry strip line = Some (key, value) ->
  is_Some (snd (load_lines strip lines environ) !! key).
Proof.
  induction lines as [|l rest IH]; intros environ line key value Hret Hin Hentry;
    [inversion Hin|].
  rewrite load_lines_cons in *.
  destruct (entry strip l) as [[k v]|] eqn:Hl.
  - pose proof (setdefault_sets k v environ) as Hsets.
    destruct (fst (setdefault k v environ)) as [[]|e]; [|discriminate].
    apply elem_of_cons in Hin as [-> | Hin].
    + rewrite Hl in Hentry. injection Hentry as -> ->.
      destruct (Hsets eq_refl) as [x Hx]. exists x. apply load_lines_keeps. exact Hx.
    + eapply IH; eassumption.
  - apply elem_of_cons in Hin as [-> | Hin]; [congruence|]. eapply IH; eassumption.
Qed.

Lemma load_lines_nothing_new strip lines : forall (environ : gmap string string),
  (forall line key value, line ∈ lines -> entry strip line = Some (key, value) ->
     is_Some (environ !! key)) ->
  load_lines strip lines environ = (Return tt, environ).
Proof.
  induction lines as [|l rest IH]; intros environ Hall; [reflexivity|]. simpl.
  assert (load_lines strip rest environ = (Return tt, environ)) as Hrest.
  { apply IH. intros line key value Hin. apply Hall. apply list_elem_of_further. exact Hin. }
  destruct (entry strip l) as [[k v]|] eqn:Hentry; [|exact Hrest].
  destruct (Hall l k v (list_elem_of_here _ _) Hentry) as [x Hx].
  unfold setdefault. rewrite Hx. exact Hrest.
Qed.

(** The loop over [before ++ after] is the loop over [after], started
    where the loop over [before] ends; it stops where the loop over
    [before] raises. *)
Lemma load_lines_app strip before after : forall (environ : gmap string string),
  load_lines strip (before ++ after) environ =
  match fst (load_lines strip before environ) with
  | Return _ => load_lines strip after (snd (load_lines strip before environ))
  | Raise e => (Raise e, snd (load_lines strip before environ))
  end.
Proof.
  induction before as [|l before IH]; intros environ; [reflexivity|].
  change ((l :: before) ++ after)%list with (l :: (before ++ after))%list.
  rewrite !load_lines_cons.
  destruct (entry strip l) as [[k v]|]; [|apply IH].
  destruct (fst (setdefault k v environ)); [apply IH | reflexivity].
Qed.

(** A run that raises stops at a line whose name is not set and whose
    name or value holds a NUL; the lines before it have been loaded. *)
Lemma load_lines_raises strip lines : forall (environ : gmap string string) e,
  fst (load_lines strip lines environ) = Raise e ->
  exists before line after key value,
    lines = (before ++ line :: after)%list /\
    load_lines strip before environ = (Return tt, snd (load_lines strip lines environ)) /\
    entry strip line = Some (key, value) /\
    setdefault key value (snd (load_lines strip lines environ))
    = (Raise e, snd (load_lines strip lines environ)).
Proof.
  induction lines as [|l rest IH]; intros environ e H; [discriminate|].
  rewrite load_lines_cons in *.
  destruct (entry strip l) as [[k v]|] eqn:Hl.
  - destruct (fst (setdefault k v environ)) as [[]|e'] eqn:Hset.
    + destruct (IH _ _ H) as (before & line & after & key & value & -> & Hrun & Hentry & Hstop).
      exists (l :: before), line, after, key, value.
      split; [reflexivity|]. split; [|split; assumption].
      rewrite load_lines_cons, Hl, Hset. exact Hrun.
    + simpl in H. injection H as ->.
      destruct (setdefault_raises _ _ _ _ Hset) as (Heq & -> & _).
      exists [], l, rest, k, v. rewrite Heq. simpl. repeat split; assumption.
  - destruct (IH _ _ H) as (before & line & after & key & value & -> & Hrun & Hentry & Hstop).
    exists (l :: before), line, after, key, value.
    split; [reflexivity|]. split; [|split; assumption].
    rewrite load_lines_cons, Hl. exact Hrun.
Qed.

Lemma load_lines_idempotent strip lines (environ : gmap string string) :
  load_lines strip lines (snd (load_lines strip lines environ))
  = load_lines strip lines environ.
Proof.
  destruct (load_lines strip lines environ) as [[[]|e] env1] eqn:Hrun; simpl.
  - apply load_lines_nothing_new. intros line key value Hin Hentry.
    pose proof (load_lines_covers strip lines environ line key value) as Hcov.
    rewrite Hrun in Hcov. apply Hcov; [reflexivity | assumption | assumption].
  - destruct (load_lines_raises strip lines environ e) as
      (before & line & after & key & value & -> & Hbefore & Hentry & Hstop);
      [rewrite Hrun; reflexivity|].
    rewrite Hrun in Hbefore, Hstop. simpl in Hbefore, Hstop.
    assert (load_lines strip before env1 = (Return tt, env1)) as Hagain.
    { apply load_lines_nothing_new. intros l k v Hin Hl.
      pose proof (load_lines_covers strip before environ l k v) as Hcov.
      rewrite Hbefore in Hcov. apply Hcov; [reflexivity | assumption | assumption]. }
    rewrite load_lines_app, Hagain. simpl fst. simpl snd. cbv iota.
    rewrite load_lines_cons, Hentry, Hstop. reflexivity.
Qed.

End dotenv_facts.

(** X17. The environment wins over the file: a variable that is set
    before [load_env] keeps its value, whether [load_env] returns or
    raises. A variable that [load_env] adds comes from a line of the
    file that contains ["="] and does not start with ["#"]; its name is
    the stripped text before the first ["="] and is not empty, and its
    value is not empty. *)
Theorem X17_load_env_keeps_environment :
  forall strip env_file environ,
    (forall k v, environ !! k = Some v ->
       snd (dotenv.load_env strip env_file environ) !! k = Some v) /\
    (forall k v, environ !! k = None ->
       snd (dotenv.load_env strip env_file environ) !! k = Some v ->
       exists lines line,
         env_file = Some lines /\ line ∈ lines /\
         dotenv.has_char "=" line = true /\ String.prefix "#" line = false /\
         k = strip (fst (dotenv.partition "=" line)) /\
         k <> EmptyString /\ v <> EmptyString).
Proof.
  intros strip env_file environ. split.
  - intros k v H. destruct env_file as [lines|]; [|exact H].
    apply dotenv_facts.load_lines_keeps. exact H.
  - intros k v Hnone H. destruct env_file as [lines|]; simpl in H; [|congruence].
    destruct (dotenv_facts.load_lines_origin _ _ _ _ _ H) as [Hset | (_ & line & Hin & Hentry)];
      [congruence|].
    destruct (dotenv_facts.entry_shape _ _ _ _ Hentry) as (Heq & Hc & Hk & Hv & Hkey & _).
    exists lines, line. repeat split; assumption.
Qed.

(** Scenario of X17: [DEBUG] is set in the environment and the file
    has a line for it; the value of the environment stays. *)
Lemma X17_witness :
  snd (dotenv.load_env dotenv.strip (Some EnvFile.lines) EnvFile.environ) !! "DEBUG"
  = Some "1".
Proof.
  apply (proj1 (X17_load_env_keeps_environment dotenv.strip (Some EnvFile.lines)
                  EnvFile.environ)).
  vm_compute. reflexivity.
Defined.

(** X18. Loading the same file a second time changes nothing: the
    second call ends as the first did, returning or raising, and leaves
    the environment as the first call left it. *)
Theorem X18_load_env_idempotent :
  forall strip env_file environ,
    dotenv.load_env strip env_file (snd (dotenv.load_env strip env_file environ))
    = dotenv.load_env strip env_file environ.
Proof.
  intros strip [lines|] environ; [|reflexivity]. simpl.
  apply dotenv_facts.load_lines_idempotent.
Qed.

(** X19. The first line counts: when a variable is not in the
    environment and the lines before load without error, the first line
    of the file that gives it a name and a value decides. When neither
    the name nor the value holds a NUL character, the variable gets
    that value, and later lines for the same name are ignored. When one
    of them holds a NUL, [load_env] raises [ValueError] at that line:
    the variable stays unset and the later lines are not read. *)
Theorem X19_load_env_first_line_wins :
  forall strip before line after environ key value,
    environ !! key = None ->
    dotenv.entry strip line = Some (key, value) ->
    (forall l v, l ∈ before -> dotenv.entry strip l <> Some (key, v)) ->
    fst (dotenv.load_env strip (Some before) environ) = Return tt ->
    (dotenv.has_char dotenv.NUL key || dotenv.has_char dotenv.NUL value = false ->
     snd (dotenv.load_env strip (Some (before ++ line :: after)%list) environ) !! key
     = Some value) /\
    (dotenv.has_char dotenv.NUL key || dotenv.has_char dotenv.NUL value = true ->
     dotenv.load_env strip (Some (before ++ line :: after)%list) environ
     = (Raise ValueError, snd (dotenv.load_env strip (Some before) environ)) /\
     snd (dotenv.load_env strip (Some (before ++ line :: after)%list) environ) !! key
     = None).
Proof.
  intros strip before line after environ key value Hnone Hentry Hfirst Hret.
  cbn [dotenv.load_env] in *.
  assert (snd (dotenv.load_lines strip before environ) !! key = None) as Hstill.
  { destruct (snd (dotenv.load_lines strip before environ) !! key) as [v|] eqn:Hk;
      [|reflexivity].
    destruct (dotenv_facts.load_lines_origin _ _ _ _ _ Hk) as [Hset | (_ & l & Hin & Hl)];
      [congruence|].
    destruct (Hfirst l v Hin Hl). }
  rewrite dotenv_facts.load_lines_app, Hret, dotenv_facts.load_lines_cons, Hentry.
  unfold dotenv.setdefault. rewrite Hstill.
  split; intros Hnul; rewrite Hnul; simpl.
  - apply dotenv_facts.load_lines_keeps. apply lookup_insert_eq.
  - split; [reflexivity | exact Hstill].
Qed.

(** Scenario of X19: the file has two lines for the token; the first
    one, quoted and with blanks around it, gives the value. In the file
    whose line for the token has a NUL in its value, [load_env] raises
    at that line. *)
Lemma X19_witness :
  snd (dotenv.load_env dotenv.strip (Some EnvFile.lines) EnvFile.environ)
    !! "BLOB_READ_WRITE_TOKEN" = Some "vercel_blob_rw_1" /\
  dotenv.load_env dotenv.strip (Some EnvFile.lines_with_nul) EnvFile.environ
  = (Raise ValueError, {[ "DEBUG" := "1"; "REGION" := "iad1" ]}).
Proof.
  split.
  - apply (proj1 (X19_load_env_first_line_wins dotenv.strip
             ["# storage"] "BLOB_READ_WRITE_TOKEN = 'vercel_blob_rw_1' "
             ["BLOB_READ_WRITE_TOKEN=other"; "DEBUG="; "=orphan"]
             EnvFile.environ "BLOB_READ_WRITE_TOKEN" "vercel_blob_rw_1"
             ltac:(vm_compute; reflexivity) ltac:(vm_compute; reflexivity)
             ltac:(intros l v Hl; apply list_elem_of_singleton in Hl as ->;
                   vm_compute; discriminate)
             ltac:(vm_compute; reflexivity))).
    vm_compute. reflexivity.
  - transitivity (Raise (A := unit) ValueError,
                  snd (dotenv.load_env dotenv.strip (Some ["REGION=iad1"]) EnvFile.environ)).
    + exact (proj1 (proj2 (X19_load_env_first_line_wins dotenv.strip
               ["REGION=iad1"] ("BLOB_READ_WRITE_TOKEN=vercel" +:+ String dotenv.NUL "rw")
               ["DEBUG=1"]
               EnvFile.environ "BLOB_READ_WRITE_TOKEN" ("vercel" +:+ String dotenv.NUL "rw")
               ltac:(vm_compute; reflexivity) ltac:(vm_compute; reflexivity)
               ltac:(intros l v Hl; apply list_elem_of_singleton in Hl as ->;
                     vm_compute; discriminate)
               ltac:(vm_compute; reflexivity))
               ltac:(vm_compute; reflexivity))).
    + vm_compute. reflexivity.
Defined.

(** The whole file of the scenario: only the token is added. *)
Example load_env_scenario :
  dotenv.load_env dotenv.strip (Some EnvFile.lines) EnvFile.environ
  = (Return tt, {[ "DEBUG" := "1"; "BLOB_READ_WRITE_TOKEN" := "vercel_blob_rw_1" ]}).
Proof. vm_compute. reflexivity. Qed.

(** ** Which files the scripts touch *)

Lemma confined_ret {A} S (x : A) : confined S (mret x).
Proof. intros w q _. reflexivity. Qed.

Lemma confined_lift {A} S (r : result A) : confined S (lift r).
Proof. intros w q _. reflexivity. Qed.

Lemma confined_bind {A B} S (m : M A) (k : A -> M B) :
  confined S m -> (forall a, confined S (k a)) -> confined S (m ≫= k).
Proof.
  intros Hm Hk w q Hq. unfold mbind, M_bind. specialize (Hm w q Hq).
  destruct (m w) as [[a|e] w1]; simpl in *.
  - rewrite (Hk a w1 q Hq). exact Hm.
  - exact Hm.
Qed.

Lemma confined_handle {A} S e (clauses : list (exn * M A)) :
  Forall (fun c => confined S (snd c)) clauses -> confined S (handle e clauses).
Proof.
  induction 1 as [|[c h] clauses Hh _ IH]; simpl.
  - apply confined_lift.
  - destruct (issubclass e c); [exact Hh | exact IH].
Qed.

Lemma confined_try {A} S (m : M A) clauses :
  confined S m -> Forall (fun c => confined S (snd c)) clauses -> confined S (try_ m clauses).
Proof.
  intros Hm Hc w q Hq. unfold try_. specialize (Hm w q Hq).
  destruct (m w) as [[a|e] w1]; simpl in *; [exact Hm|].
  rewrite (confined_handle S e clauses Hc w1 q Hq). exact Hm.
Qed.

Lemma confined_weaken {A} (S S' : Path -> Prop) (m : M A) :
  (forall q, S q -> S' q) -> confined S m -> confined S' m.
Proof. intros Hsub Hm w q Hq. apply Hm. intros HS. apply Hq, Hsub, HS. Qed.

Lemma confined_read_only {A} S (m : M A) :
  (forall w, fs (snd (m w)) = fs w) -> confined S m.
Proof. intros H w q _. rewrite H. reflexivity. Qed.

Lemma confined_path_exists S p : confined S (path_exists p).
Proof. apply confined_read_only. reflexivity. Qed.

Lemma confined_size_if_exists S p : confined S (size_if_exists p).
Proof. apply confined_read_only. reflexivity. Qed.

Lemma confined_stat_size S p : confined S (stat_size p).
Proof. apply confined_read_only. intros w. unfold stat_size. destruct (fs w !! p); reflexivity. Qed.

Lemma confined_read_file S p : confined S (read_file p).
Proof. apply confined_read_only. intros w. unfold read_file. destruct (fs w !! p); reflexivity. Qed.

Lemma confined_do_urlopen S pf req t : confined S (do_urlopen pf req t).
Proof. apply confined_read_only. reflexivity. Qed.

Lemma confined_verify_hash S rt p h : confined S (verify_hash rt p h).
Proof.
  unfold verify_hash. apply confined_bind; [apply confined_read_file|].
  intros data. apply confined_ret.
Qed.

Lemma confined_unlink (S : Path -> Prop) p : S p -> confined S (unlink p).
Proof.
  intros Hp w q Hq. unfold unlink. destruct (fs w !! p); [|reflexivity].
  simpl. apply lookup_delete_ne. intros ->. contradiction.
Qed.

Lemma confined_open (S : Path -> Prop) pf p mode : S p -> confined S (open_ pf p mode).
Proof.
  intros Hp w q Hq. unfold open_. destruct (os_error pf (fs w) _); [reflexivity|].
  destruct mode; simpl; apply lookup_insert_ne; intros ->; contradiction.
Qed.

Lemma confined_f_write (S : Path -> Prop) pf p chunk : S p -> confined S (f_write pf p chunk).
Proof.
  intros Hp w q Hq. unfold f_write. destruct (os_error pf (fs w) _); [reflexivity|].
  simpl. apply lookup_insert_ne. intros ->. contradiction.
Qed.

Lemma confined_f_close (S : Path -> Prop) pf p : confined S (f_close pf p).
Proof.
  apply confined_read_only. intros w. unfold f_close.
  destruct (os_error pf (fs w) _); reflexivity.
Qed.

Lemma confined_finally {A} (S : Path -> Prop) (body : M A) (exit : M unit) :
  confined S body -> confined S exit -> confined S (finally_ body exit).
Proof.
  intros Hb He w q Hq. unfold finally_. specialize (Hb w q Hq).
  destruct (body w) as [r w1]. specialize (He w1 q Hq).
  destruct (exit w1) as [[u|e] w2]; simpl in *; congruence.
Qed.

Lemma confined_read_loop (S : Path -> Prop) pf p cs : forall downloaded,
  S p -> confined S (read_loop pf p cs downloaded).
Proof.
  induction cs as [|c cs IH]; intros downloaded Hp; simpl.
  - apply confined_ret.
  - apply confined_bind; [apply confined_lift|]. intros [|b chunk].
    + apply confined_ret.
    + apply confined_bind; [apply confined_f_write; exact Hp | intros _; apply IH; exact Hp].
Qed.

Lemma confined_download_file (S : Path -> Prop) pf url dest sz :
  S dest -> confined S (download_file pf url dest sz).
Proof.
  intros Hd. unfold download_file.
  apply confined_bind; [apply confined_lift|]. intros allowed.
  destruct (negb allowed); [apply confined_ret|].
  apply confined_bind; [apply confined_size_if_exists|]. intros existing_size. cbv zeta.
  apply confined_try.
  - apply confined_bind; [apply confined_do_urlopen|]. intros resp.
    apply confined_bind; [apply confined_lift|]. intros total.
    apply confined_bind; [apply confined_open; exact Hd|]. intros _.
    apply confined_bind; [|intros _; apply confined_ret].
    apply confined_finally; [apply confined_read_loop; exact Hd | apply confined_f_close].
  - repeat (constructor; [apply confined_ret|]). constructor.
Qed.

(** X20. [download_file] writes to its destination and to no other
    file: every other path has the same content, or the same absence,
    after the call as before, whatever the server sends and however the
    call ends. *)
Theorem X20_download_file_touches_destination_only :
  forall pf url dest sz w q,
    q <> dest ->
    fs (snd (download_file pf url dest sz w)) !! q = fs w !! q.
Proof.
  intros pf url dest sz w q Hq.
  apply (confined_download_file (fun p => p = dest) pf url dest sz eq_refl w q Hq).
Qed.

Lemma X20_witness :
  fs (snd (download_file (Cases.answering (Return Cases.whole_content))
             Scenario.mirror_url Scenario.zip_path 1230 Cases.with_pdf))
    !! Cases.report_path
  = fs Cases.with_pdf !! Cases.report_path.
Proof.
  apply (X20_download_file_touches_destination_only
           (Cases.answering (Return Cases.whole_content))
           Scenario.mirror_url Scenario.zip_path 1230 Cases.with_pdf Cases.report_path).
  discriminate.
Defined.

Lemma name_of_child (d : Path) n : pathlib.name (fst d, (snd d ++ [n])%list) = n.
Proof. unfold pathlib.name. simpl snd. apply List.last_last. Qed.

(** The destination of a ".pdf" member is a ".pdf" entry of the
    directory. *)
Lemma pdf_member_entry d member :
  endswith (lower member) ".pdf" = true ->
  pdf_entry d (pathlib.joinpath d (pathlib.name (pathlib.PurePath member))).
Proof.
  intros H. split; [apply pdf_member_direct_child; exact H|].
  destruct (pdf_member_name member H) as (_ & Hpdf & Hsep).
  destruct (pdf_name_is_file _ Hpdf) as (Hne & Hdot & _).
  rewrite (joinpath_file_name d _ Hsep Hne Hdot), name_of_child. exact Hpdf.
Qed.

Lemma confined_extract_pdfs pf zip_path dest_dir n :
  confined (pdf_entry dest_dir) (extract_pdfs pf zip_path dest_dir n).
Proof.
  intros w q Hq. unfold extract_pdfs. rewrite bind_lift.
  destruct (zipfile_ZipFile pf zip_path) as [zf|e]; [|reflexivity].
  destruct (extract_loop_spec pf zf dest_dir (namelist zf) 0 w) as (_ & Hfs).
  destruct (Hfs q) as [Hsame | (_ & member & data & _ & Hpdf & -> & _)]; [exact Hsame|].
  exfalso. apply Hq. apply pdf_member_entry. exact Hpdf.
Qed.

(** X21. [extract_pdfs] creates PDF entries of the destination
    directory and nothing else: a path whose content changes is the
    directory followed by one file name, and that name ends in [".pdf"]
    (in any case of the letters). *)
Theorem X21_extract_pdfs_creates_pdf_entries_only :
  forall pf zip_path dest_dir dataset_num w p,
    fs (snd (extract_pdfs pf zip_path dest_dir dataset_num w)) !! p <> fs w !! p ->
    (exists n, p = (fst dest_dir, (snd dest_dir ++ [n])%list) /\
               has_sep n = false /\
               endswith (lower n) ".pdf" = true) /\
    endswith (lower (pathlib.name p)) ".pdf" = true.
Proof.
  intros pf zip_path dest_dir dataset_num w p Hchanged.
  assert (pdf_entry dest_dir p) as [(n & -> & Hsep & _) Hpdf].
  { unfold extract_pdfs in Hchanged. rewrite bind_lift in Hchanged.
    destruct (zipfile_ZipFile pf zip_path) as [zf|e]; [|contradiction].
    destruct (extract_loop_spec pf zf dest_dir (namelist zf) 0 w) as (_ & Hfs).
    destruct (Hfs p) as [Hsame | (_ & member & data & _ & Hm & -> & _)]; [contradiction|].
    apply pdf_member_entry. exact Hm. }
  split; [|exact Hpdf]. exists n. rewrite name_of_child in Hpdf. auto.
Qed.

(** Scenario of X21: the file the scenario archive creates. *)
Lemma X21_witness :
  endswith (lower (pathlib.name ("/", ["srv"; "data"; "evil.pdf"]))) ".pdf" = true.
Proof.
  apply (X21_extract_pdfs_creates_pdf_entries_only Scenario.unzipping Scenario.zip_path
           Scenario.data_dir 1 Scenario.world_with_report ("/", ["srv"; "data"; "evil.pdf"])).
  vm_compute. discriminate.
Defined.

Lemma confined_download_dataset rt pf dataset_num skip_verify :
  confined (fun q => q = dataset_zip_path rt dataset_num \/ pdf_entry (DATA_DIR rt) q)
           (download_dataset rt pf dataset_num skip_verify).
Proof.
  unfold download_dataset. destruct (DATASETS !! dataset_num) as [info|];
    [|apply confined_ret].
  cbv zeta. fold (dataset_zip_path rt dataset_num).
  set (S := fun q => q = dataset_zip_path rt dataset_num \/ pdf_entry (DATA_DIR rt) q).
  assert (S (dataset_zip_path rt dataset_num)) as Hzip by (left; reflexivity).
  assert (confined S (try_ (extract_pdfs pf (dataset_zip_path rt dataset_num)
                              (DATA_DIR rt) dataset_num) [(BadZipFile, mret 0)]))
    as Hextract.
  { apply confined_try.
    - apply (confined_weaken (pdf_entry (DATA_DIR rt))); [intros q Hq; right; exact Hq|].
      apply confined_extract_pdfs.
    - constructor; [apply confined_ret | constructor]. }
  apply confined_bind; [apply confined_path_exists|]. intros present.
  apply confined_bind.
  { destruct present; [|apply confined_ret].
    apply confined_bind; [apply confined_stat_size|]. intros actual_size.
    destruct (size_reaches rt actual_size (size_mb info)); [|apply confined_ret].
    destruct (negb skip_verify); [|apply confined_ret].
    apply confined_bind; [apply confined_verify_hash|]. intros ok.
    destruct (negb ok); [apply confined_unlink; exact Hzip | apply confined_ret]. }
  intros _.
  apply confined_bind; [apply confined_path_exists|]. intros present'.
  apply confined_bind.
  { destruct present'; [|apply confined_ret].
    apply confined_bind; [apply confined_stat_size|]. intros ?. apply confined_ret. }
  intros small. destruct (negb present' || small); [|exact Hextract].
  apply confined_bind.
  { generalize (urls info). intros mirrors.
    induction mirrors as [|url rest IH]; simpl; [apply confined_ret|].
    apply confined_bind; [apply confined_download_file; exact Hzip|].
    intros ok. destruct ok; [apply confined_ret | exact IH]. }
  intros success. destruct (negb success); [apply confined_ret|].
  apply confined_bind; [|intros _; exact Hextract].
  destruct (negb skip_verify); [|apply confined_ret].
  apply confined_bind; [apply confined_verify_hash | intros _; apply confined_ret].
Qed.

(** X22. A run of [download_dataset] changes no file other than the
    archive of the dataset in the download directory and entries of the
    data directory whose names end in [".pdf"]: every other path is
    after the run as it was before, whatever the mirrors send and
    whatever the archive holds. *)
Theorem X22_download_dataset_touches_archive_and_pdfs_only :
  forall rt pf dataset_num skip_verify w q,
    q <> pathlib.joinpath (DOWNLOAD_DIR rt) ("DataSet_" +:+ pretty dataset_num +:+ ".zip") ->
    ~ (exists n, q = (fst (DATA_DIR rt), (snd (DATA_DIR rt) ++ [n])%list) /\
                 endswith (lower n) ".pdf" = true) ->
    fs (snd (download_dataset rt pf dataset_num skip_verify w)) !! q = fs w !! q.
Proof.
  intros rt pf dataset_num skip_verify w q Hzip Hpdf.
  apply (confined_download_dataset rt pf dataset_num skip_verify w q).
  intros [Hq | [(n & Hn & _) Hend]].
  - apply Hzip. exact Hq.
  - apply Hpdf. exists n. split; [exact Hn|].
    rewrite Hn, name_of_child in Hend. exact Hend.
Qed.

(** Scenario of X22: a file of the data directory that is not a PDF
    survives a run that downloads and extracts. *)
Lemma X22_witness :
  fs (snd (download_dataset Runs.runtime (Cases.answering (Return Cases.whole_content)) 1 true
             {| fs := {[ ("/", ["srv"; "data"; "notes.txt"]) := [Byte.x41] ]}; net := [] |}))
    !! ("/", ["srv"; "data"; "notes.txt"]) = Some [Byte.x41].
Proof.
  rewrite (X22_download_dataset_touches_archive_and_pdfs_only Runs.runtime
             (Cases.answering (Return Cases.whole_content)) 1 true
             {| fs := {[ ("/", ["srv"; "data"; "notes.txt"]) := [Byte.x41] ]}; net := [] |}
             ("/", ["srv"; "data"; "notes.txt"])).
  - vm_compute. reflexivity.
  - vm_compute. discriminate.
  - intros (n & Hn & Hend).
    assert (n = "notes.txt") as -> by (cbv in Hn; congruence).
    vm_compute in Hend. discriminate.
Defined.

(** A file that has been opened is there, and stays there while the
    body is read. *)
Lemma open_creates pf dest mode w :
  fst (open_ pf dest mode w) = Return tt ->
  is_Some (fs (snd (open_ pf dest mode w)) !! dest).
Proof.
  unfold open_. destruct (os_error pf (fs w) _); [discriminate|]. intros _.
  destruct mode; simpl; rewrite lookup_insert_eq; eexists; reflexivity.
Qed.

Lemma finally_close_fs {A} pf p (body : M A) w :
  fs (snd (finally_ body (f_close pf p) w)) = fs (snd (body w)).
Proof.
  unfold finally_, f_close. destruct (body w) as [r w1].
  destruct (os_error pf (fs w1) (op_close p)); reflexivity.
Qed.

Lemma read_loop_keeps_dest pf dest cs : forall downloaded w,
  is_Some (fs w !! dest) ->
  is_Some (fs (snd (read_loop pf dest cs downloaded w)) !! dest).
Proof.
  induction cs as [|c cs IH]; intros downloaded w H; [exact H|].
  cbn [read_loop]. rewrite bind_lift.
  destruct c as [[|b chunk]|e]; [exact H | | exact H].
  unfold mbind at 1, M_bind at 1, f_write.
  destruct (os_error pf (fs w) (op_write dest (b :: chunk))); [exact H|].
  apply IH. simpl. rewrite lookup_insert_eq. eexists; reflexivity.
Qed.

(** X23. What a [True] from [download_file] guarantees: the validator
    accepted the URL, exactly one request went out, for that URL, and
    the destination file exists afterwards. *)
Theorem X23_download_file_true_means_downloaded :
  forall pf url dest sz w,
    fst (download_file pf url dest sz w) = Return true ->
    is_allowed_download_url pf url = Return true /\
    is_Some (fs (snd (download_file pf url dest sz w)) !! dest) /\
    exists req,
      req_url req = url /\
      net (snd (download_file pf url dest sz w)) = (net w ++ [(req, 300)])%list.
Proof.
  intros pf url dest sz w Htrue.
  destruct (is_allowed_download_url pf url) as [[|]|e] eqn:Hv.
  - split; [reflexivity|]. split.
    + destruct (download_file pf url dest sz w) as [r w'] eqn:Hrun.
      simpl in Htrue |- *. subst r. revert Hrun. unfold download_file.
      rewrite bind_lift, Hv. cbn [negb]. rewrite bind_size_if_exists. cbv zeta.
      unfold try_. unfold mbind at 1, M_bind at 1, do_urlopen.
      destruct (urlopen pf _ 300) as [resp|e].
      2:{ rewrite handle_os_errors. destruct (issubclass e OSError); discriminate. }
      rewrite bind_lift. destruct (content_length resp) as [total|e].
      2:{ rewrite handle_os_errors. destruct (issubclass e OSError); discriminate. }
      unfold mbind at 1, M_bind at 1.
      match goal with |- context [open_ pf dest ?mode ?w1] =>
        pose proof (open_creates pf dest mode w1) as Hopen;
        destruct (open_ pf dest mode w1) as [[[]|e] w2]
      end.
      2:{ rewrite handle_os_errors. destruct (issubclass e OSError); discriminate. }
      specialize (Hopen eq_refl). simpl in Hopen.
      unfold mbind at 1, M_bind at 1.
      match goal with |- context [finally_ (read_loop pf dest ?cs ?n) ?exit w2] =>
        pose proof (read_loop_keeps_dest pf dest cs n w2 Hopen) as Hkept;
        rewrite <- (finally_close_fs pf dest (read_loop pf dest cs n) w2) in Hkept;
        destruct (finally_ (read_loop pf dest cs n) exit w2) as [[downloaded|e] w3]
      end.
      2:{ rewrite handle_os_errors. destruct (issubclass e OSError); discriminate. }
      simpl in Hkept. intros [= <-]. exact Hkept.
    + destruct (download_file_net_accepted pf url dest sz w Hv) as (req & Hurl & _ & Hnet).
      exists req. split; assumption.
  - rewrite (download_file_rejected pf url dest sz w Hv) in Htrue. discriminate.
  - exfalso. revert Htrue. unfold download_file. rewrite bind_lift, Hv. discriminate.
Qed.

Lemma X23_witness :
  is_Some (fs (snd (download_file (Cases.answering (Return Cases.whole_content))
                      Scenario.mirror_url Scenario.zip_path 1230 Scenario.empty_world))
             !! Scenario.zip_path).
Proof.
  apply (X23_download_file_true_means_downloaded
           (Cases.answering (Return Cases.whole_content))
           Scenario.mirror_url Scenario.zip_path 1230 Scenario.empty_world).
  vm_compute. reflexivity.
Defined.
